(** * ARC processor module: instruction analyser ([ana.cpp])

    A shallow embedding of the two decoders of the ARC module
    (ARCtangent-A4, fixed 32-bit words, and ARCompact, 16/32-bit words
    with an optional trailing long immediate) and of the post-decode
    passes [fix_ldst], [simplify] and [inline_const], followed by the
    properties established about them.

    The global [cmd] of the analyser is threaded explicitly: every
    function that writes to [cmd], to [got_limm] or to the static
    [g_limm] takes the current [state] and returns the next one. *)

From Stdlib Require Import ZArith List Bool Lia.
Import ListNotations.
Local Open Scope Z_scope.

(** ** Machine integers

    [ea_t], [uval_t] and [uint32] are 32-bit unsigned, [sval_t] and [int]
    32-bit signed (the build of the module without 64-bit addresses);
    [cmd.size], [cmd.auxpref] and [op.reg] are 16-bit unsigned.  Values
    are kept in [Z]; a store into a field converts to the width of the
    field, and the other conversions are written where they happen. *)

Definition uint16 (x : Z) : Z := x mod 0x10000.
Definition uint32 (x : Z) : Z := x mod 0x100000000.
Definition sint32 (x : Z) : Z :=
  let y := x mod 0x100000000 in
  if y <? 0x80000000 then y else y - 0x100000000.

(** ** Instruction and operand records (the fields of [insn_t] and [op_t]
    that the analyser touches) *)

Inductive optype_t : Set :=
  o_void | o_reg | o_mem | o_phrase | o_displ | o_imm | o_near.

Inductive dtyp_t : Set := dt_byte | dt_word | dt_dword | dt_code.

(** Instruction codes.  [ARC_null] is the value 0 of the enumeration. *)
Inductive itype_t : Set :=
  | ARC_null
  | ARC_ld | ARC_lr | ARC_sr | ARC_st | ARC_flag | ARC_asr | ARC_lsr
  | ARC_ror | ARC_rrc | ARC_sexb | ARC_sexw | ARC_extb | ARC_extw
  | ARC_swap | ARC_norm | ARC_brk | ARC_sleep | ARC_swi | ARC_j | ARC_jl
  | ARC_add | ARC_adc | ARC_sub | ARC_sbc | ARC_and | ARC_or | ARC_bic
  | ARC_xor | ARC_asl | ARC_mul64 | ARC_mulu64 | ARC_max | ARC_min
  | ARC_mov | ARC_lsl | ARC_rlc | ARC_nop | ARC_b | ARC_bl | ARC_lp
  | ARC_br | ARC_bbit0 | ARC_bbit1 | ARC_sync | ARC_rtie | ARC_abs
  | ARC_not | ARC_ex | ARC_tst | ARC_cmp | ARC_rcmp | ARC_rsub | ARC_bset
  | ARC_bclr | ARC_btst | ARC_bxor | ARC_bmsk | ARC_add1 | ARC_add2
  | ARC_add3 | ARC_sub1 | ARC_sub2 | ARC_sub3 | ARC_mpy | ARC_mpyh
  | ARC_mpyhu | ARC_mpyu | ARC_sat16 | ARC_rnd16 | ARC_abssw | ARC_abss
  | ARC_negsw | ARC_negs | ARC_normw | ARC_adds | ARC_subs | ARC_divaw
  | ARC_asls | ARC_asrs | ARC_muldw | ARC_muludw | ARC_mulrdw | ARC_macdw
  | ARC_macudw | ARC_macrdw | ARC_msubdw | ARC_addsdw | ARC_subsdw
  | ARC_mululw | ARC_mullw | ARC_mulflw | ARC_maclw | ARC_macflw
  | ARC_machulw | ARC_machlw | ARC_machflw | ARC_mulhlw | ARC_mulhflw
  | ARC_unimp | ARC_neg | ARC_trap | ARC_pop | ARC_push.

Definition optype_eqb (x y : optype_t) : bool :=
  match x, y with
  | o_void, o_void | o_reg, o_reg | o_mem, o_mem | o_phrase, o_phrase
  | o_displ, o_displ | o_imm, o_imm | o_near, o_near => true
  | _, _ => false
  end.

Record op_t : Set := mk_op {
  n : Z;          (* number of the operand, 0..2 *)
  type : optype_t;
  dtyp : dtyp_t;
  reg : Z;        (* uint16, shared with [phrase] *)
  value : Z;      (* uval_t *)
  addr : Z;       (* ea_t *)
  offb : Z;
  secreg : Z;
  membase : Z
}.

Definition set_type (t : optype_t) (x : op_t) : op_t :=
  mk_op (n x) t (dtyp x) (reg x) (value x) (addr x) (offb x) (secreg x) (membase x).
Definition set_dtyp (t : dtyp_t) (x : op_t) : op_t :=
  mk_op (n x) (type x) t (reg x) (value x) (addr x) (offb x) (secreg x) (membase x).
Definition set_reg (v : Z) (x : op_t) : op_t :=
  mk_op (n x) (type x) (dtyp x) (uint16 v) (value x) (addr x) (offb x) (secreg x) (membase x).
Definition set_value (v : Z) (x : op_t) : op_t :=
  mk_op (n x) (type x) (dtyp x) (reg x) (uint32 v) (addr x) (offb x) (secreg x) (membase x).
Definition set_addr (v : Z) (x : op_t) : op_t :=
  mk_op (n x) (type x) (dtyp x) (reg x) (value x) (uint32 v) (offb x) (secreg x) (membase x).
Definition set_offb (v : Z) (x : op_t) : op_t :=
  mk_op (n x) (type x) (dtyp x) (reg x) (value x) (addr x) v (secreg x) (membase x).
Definition set_secreg (v : Z) (x : op_t) : op_t :=
  mk_op (n x) (type x) (dtyp x) (reg x) (value x) (addr x) (offb x) v (membase x).
Definition set_membase (v : Z) (x : op_t) : op_t :=
  mk_op (n x) (type x) (dtyp x) (reg x) (value x) (addr x) (offb x) (secreg x) v.

Record insn_t : Set := mk_insn {
  ea : Z;         (* linear address of the instruction *)
  ip : Z;         (* its offset in the segment *)
  itype : itype_t;
  auxpref : Z;    (* uint16 *)
  size : Z;       (* uint16, bytes consumed so far *)
  Op1 : op_t;
  Op2 : op_t;
  Op3 : op_t
}.

(** The analyser's globals: [cmd], [got_limm], and the static [g_limm]
    of [get_limm], which survives from one call to the next. *)
Record state : Set := mk_state {
  cmd : insn_t;
  got_limm : bool;
  g_limm : Z
}.

Definition with_cmd (f : insn_t -> insn_t) (s : state) : state :=
  mk_state (f (cmd s)) (got_limm s) (g_limm s).

Definition set_itype (v : itype_t) : state -> state :=
  with_cmd (fun c => mk_insn (ea c) (ip c) v (auxpref c) (size c) (Op1 c) (Op2 c) (Op3 c)).
Definition set_auxpref (v : Z) : state -> state :=
  with_cmd (fun c => mk_insn (ea c) (ip c) (itype c) (uint16 v) (size c) (Op1 c) (Op2 c) (Op3 c)).
Definition set_size (v : Z) : state -> state :=
  with_cmd (fun c => mk_insn (ea c) (ip c) (itype c) (auxpref c) (uint16 v) (Op1 c) (Op2 c) (Op3 c)).
Definition set_Op1 (v : op_t) : state -> state :=
  with_cmd (fun c => mk_insn (ea c) (ip c) (itype c) (auxpref c) (size c) v (Op2 c) (Op3 c)).
Definition set_Op2 (v : op_t) : state -> state :=
  with_cmd (fun c => mk_insn (ea c) (ip c) (itype c) (auxpref c) (size c) (Op1 c) v (Op3 c)).
Definition set_Op3 (v : op_t) : state -> state :=
  with_cmd (fun c => mk_insn (ea c) (ip c) (itype c) (auxpref c) (size c) (Op1 c) (Op2 c) v).
Definition set_limm (g : Z) (s : state) : state := mk_state (cmd s) true g.
Definition clear_got_limm (s : state) : state := mk_state (cmd s) false (g_limm s).

(** [cmd.Operands[i]] for [i] = 0, 1, 2. *)
Definition Operands (s : state) (i : nat) : op_t :=
  match i with
  | O => Op1 (cmd s)
  | S O => Op2 (cmd s)
  | _ => Op3 (cmd s)
  end.

Definition set_Operand (i : nat) (v : op_t) : state -> state :=
  match i with
  | O => set_Op1 v
  | S O => set_Op2 v
  | _ => set_Op3 v
  end.

(** ** What the analyser takes from [arc.hpp] and from the kernel

    The header of the module and the kernel are not part of the analysed
    file.  Their constants and services are the fields of a [host]; the
    analyser is a function of it. *)

Record host : Type := mk_host {
  (* bits of cmd.auxpref *)
  aux_cmask : Z;  aux_f : Z;  aux_nmask : Z;  aux_d : Z;
  aux_zmask : Z;  aux_l : Z;  aux_w : Z;  aux_b : Z;  aux_x : Z;
  aux_amask : Z;  aux_a : Z;  aux_as : Z;  aux_pcload : Z;
  (* condition codes *)
  cEQ : Z; cNE : Z; cLT : Z; cGE : Z; cLO : Z; cHS : Z;
  cGT : Z; cLE : Z; cHI : Z; cLS : Z;
  (* register numbers *)
  R0 : Z; GP : Z; SP : Z; BLINK : Z; PCL : Z;
  (* processor selection and analysis options *)
  is_a4 : bool;
  idpflags : Z;  ARC_SIMPLIFY : Z;  ARC_INLINECONST : Z;
  (* cmd.get_canon_feature() & CF_CHG1, as a function of cmd.itype *)
  canon_chg1 : itype_t -> bool;
  (* the program bytes: the 16-bit and the 32-bit unit at an address *)
  get_word : Z -> Z;
  get_long : Z -> Z;
  (* isEnabled(ea): the address belongs to the program *)
  isEnabled : Z -> bool
}.

(** Register codes with a special meaning (header comment of
    [doRegisterOperand]): 61 short immediate setting flags, 62 long
    immediate, 63 short immediate. *)
Definition SHIMM_F : Z := 61.
Definition LIMM : Z := 62.
Definition SHIMM : Z := 63.

(** Modelled from the spec: [is_imm] of arc.hpp, which is not in the
    analysed file; register-field values 61, 62 and 63 are the reserved
    immediate indicators. *)
Definition is_imm (r : Z) : bool :=
  (r =? SHIMM_F) || (r =? LIMM) || (r =? SHIMM).

(** Modelled from the spec: the method [op_t::is_imm(v)] of the kernel,
    an immediate operand whose value is [v]. *)
Definition op_is_imm (x : op_t) (v : Z) : bool :=
  optype_eqb (type x) o_imm && (value x =? v).

(** ** ARCompact: opcode table lines *)

(** [aux_flags_t] *)
Definition AUX_B : Z := 1.
Definition AUX_W : Z := 2.
Definition Q_4_0 : Z := 4.
Definition AAZZXD_23_15 : Z := 8.
Definition DAAZZX_11_6 : Z := 0x10.
Definition DAAZZR_5_0 : Z := 0x20.
Definition AUX_D : Z := 0x40.
Definition AUX_X : Z := 0x80.
Definition AUX_CND : Z := 0x100.
Definition N_5 : Z := 0x200.
Definition AUX_GEN : Z := 0x400.
Definition AUX_GEN2 : Z := 0x800.

(** [op_fields_t]; [f_none] is the value 0, an absent operand. *)
Inductive op_fields_t : Set :=
  | f_none
  | fA32 | fA16 | fB32 | fB16 | fC32 | fC16 | fH16
  | S25 | S21 | S25L | S21L | S10 | S9 | S8 | S7 | S13
  | U3 | U5 | U6 | U7 | U7L | U8
  | SP_U7 | PCL_U10 | fB_U5 | fB_U6 | fB_U7 | fB_S9
  | GENA | GENB | GENC | GENC_PCREL
  | fBC_IND | fBC16_IND
  | R_SP | R_BLINK | O_ZERO | R_R0 | R_GP
  | GP_S9 | GP_S10 | GP_S11 | S11.

(** The value of a field in the enumeration: [fA32] is 1 and the others
    follow in order. *)
Definition op_fields_value (f : op_fields_t) : Z :=
  match f with
  | f_none => 0 | fA32 => 1 | fA16 => 2 | fB32 => 3 | fB16 => 4
  | fC32 => 5 | fC16 => 6 | fH16 => 7 | S25 => 8 | S21 => 9
  | S25L => 10 | S21L => 11 | S10 => 12 | S9 => 13 | S8 => 14
  | S7 => 15 | S13 => 16 | U3 => 17 | U5 => 18 | U6 => 19
  | U7 => 20 | U7L => 21 | U8 => 22 | SP_U7 => 23 | PCL_U10 => 24
  | fB_U5 => 25 | fB_U6 => 26 | fB_U7 => 27 | fB_S9 => 28 | GENA => 29
  | GENB => 30 | GENC => 31 | GENC_PCREL => 32 | fBC_IND => 33 | fBC16_IND => 34
  | R_SP => 35 | R_BLINK => 36 | O_ZERO => 37 | R_R0 => 38 | R_GP => 39
  | GP_S9 => 40 | GP_S10 => 41 | GP_S11 => 42 | S11 => 43
  end.

(** An operand description: a field of [op_fields_t], possibly or-ed
    with [O_IND]. *)
Record opkind_t : Set := mk_opkind { field : op_fields_t; o_ind : bool }.

Definition K (f : op_fields_t) : opkind_t := mk_opkind f false.
Definition IND (f : op_fields_t) : opkind_t := mk_opkind f true.
Definition no_op : opkind_t := K f_none.

(** The test [opkind == f] on the whole description, [O_IND] included. *)
Definition opkind_is (k : opkind_t) (f : op_fields_t) : bool :=
  (op_fields_value (field k) =? op_fields_value f) && negb (o_ind k).

(** The member [mnem] holds an instruction code, or, with bit 31 set,
    the bit ranges that index the subtable. *)
Inductive mnem_t : Set :=
  | Itype (i : itype_t)
  | Subfield (descr : Z).

#[local] Unset Elimination Schemes.
Inductive arcompact_opcode_t : Set :=
  mk_opcode (mnem : mnem_t) (aux : Z) (ops : opkind_t * opkind_t * opkind_t)
            (subtable : list arcompact_opcode_t).
#[local] Set Elimination Schemes.

Definition insn (i : itype_t) (aux : Z) (o0 o1 o2 : opkind_t) : arcompact_opcode_t :=
  mk_opcode (Itype i) aux (o0, o1, o2) [].

(** The line [{ 0 }]. *)
Definition null_line : arcompact_opcode_t := insn ARC_null 0 no_op no_op no_op.

Definition SUBTABLE (high low : Z) (name : list arcompact_opcode_t)
  : arcompact_opcode_t :=
  mk_opcode (Subfield (Z.lor (Z.lor 0x80000000 (Z.shiftl high 8)) low))
            0 (no_op, no_op, no_op) name.

Definition SUBTABLE2 (high1 low1 high2 low2 : Z) (name : list arcompact_opcode_t)
  : arcompact_opcode_t :=
  mk_opcode
    (Subfield (Z.lor (Z.lor (Z.lor (Z.lor 0x80000000 (Z.shiftl high1 24))
                                   (Z.shiftl low1 16))
                            (Z.shiftl high2 8)) low2))
    0 (no_op, no_op, no_op) name.

(** An array of declared size [size]: the lines without initialiser
    are zero, that is [null_line]. *)
Definition table (size : Z) (l : list arcompact_opcode_t)
  : list arcompact_opcode_t :=
  l ++ repeat null_line (Z.to_nat size - length l).


Section Analyser.

Variable H : host.

(** ** Reading the program: [ua_next_word], [ua_next_long] *)

Definition ua_next_word (s : state) : Z * state :=
  (uint16 (get_word H (uint32 (ea (cmd s) + size (cmd s)))),
   set_size (size (cmd s) + 2) s).

Definition ua_next_long (s : state) : Z * state :=
  (uint32 (get_long H (uint32 (ea (cmd s) + size (cmd s)))),
   set_size (size (cmd s) + 4) s).

(** ** ARCtangent-A4 *)

Definition doRegisterOperand (code : Z) (op : op_t) (d li : Z) (isbranch : bool)
  : op_t :=
  let op := set_dtyp dt_dword op in
  if (code =? SHIMM_F) || (code =? SHIMM) then
    if isbranch then set_addr (d * 4) (set_type o_near op)
    else set_value d (set_type o_imm op)
  else if code =? LIMM then
    let op :=
      if isbranch
      then set_addr (Z.land li 0x1FFFFFF * 4) (set_type o_near op)
      else set_value li (set_type o_imm op) in
    set_offb 4 op
  else set_reg code (set_type o_reg op).

Definition doIndirectOperand (s : state) (b c : Z) (op : op_t) (d li : Z)
  (special : bool) : op_t :=
  let op :=
    if is_imm b && is_imm c then
      let imm1 := if b =? LIMM then li else d in
      let imm2 := if c =? LIMM then li else d in
      let imm2 := if special then 0 else imm2 in
      set_addr (imm1 + imm2) (set_type o_mem op)
    else if negb (is_imm b) && negb (is_imm c) then
      set_secreg c (set_reg b (set_type o_phrase op))
    else
      let op := set_type o_displ op in
      if is_imm c then
        let op := set_reg b op in
        let op := set_addr (if c =? LIMM then li else d) op in
        let op := if special then set_addr 0 op else op in
        set_membase 0 op
      else
        let op := set_reg c op in
        let op := set_addr (if b =? LIMM then li else d) op in
        set_membase 1 op in
  let z := Z.land (auxpref (cmd s)) (aux_zmask H) in
  if z =? aux_b H then set_dtyp dt_byte op
  else if z =? aux_w H then set_dtyp dt_word op
  else set_dtyp dt_dword op.

Definition doBranchOperand (s : state) (op : op_t) (l : Z) : op_t :=
  set_offb 0
    (set_addr (ip (cmd s) + l * 4 + 4)
       (set_type o_near (set_dtyp dt_dword op))).

(** The first [switch] of [doRegisterInstruction], on the major class
    [i]: it chooses [cmd.itype] and may rewrite the register fields.
    [None] is the [return] taken for a single-operand word with no
    meaning. *)
Definition single_operand (s : state) (a b c d : Z)
  : option (state * (Z * Z * Z)) :=
  let r :=
    match c with
    | 0 => Some (set_itype ARC_flag s, (b, b))
    | 1 => Some (set_itype ARC_asr s, (a, b))
    | 2 => Some (set_itype ARC_lsr s, (a, b))
    | 3 => Some (set_itype ARC_ror s, (a, b))
    | 4 => Some (set_itype ARC_rrc s, (a, b))
    | 5 => Some (set_itype ARC_sexb s, (a, b))
    | 6 => Some (set_itype ARC_sexw s, (a, b))
    | 7 => Some (set_itype ARC_extb s, (a, b))
    | 8 => Some (set_itype ARC_extw s, (a, b))
    | 9 => Some (set_itype ARC_swap s, (a, b))
    | 10 => Some (set_itype ARC_norm s, (a, b))
    | 0x3F =>
        match d with
        | 0 => Some (set_auxpref 0 (set_itype ARC_brk s), (-1, -1))
        | 1 => Some (set_auxpref 0 (set_itype ARC_sleep s), (-1, -1))
        | 2 => Some (set_auxpref 0 (set_itype ARC_swi s), (-1, -1))
        | _ => None
        end
    | _ => Some (s, (a, b))
    end in
  match r with
  | None => None
  | Some (s, (a, b)) => Some (s, (a, b, -1))
  end.

Definition major_class (s : state) (code i a b c d : Z)
  : option (state * (Z * Z * Z)) :=
  match i with
  | 0 => Some (set_itype ARC_ld s, (a, b, c))
  | 1 => Some (set_itype (if Z.testbit code 13 then ARC_lr else ARC_ld) s, (a, b, c))
  | 2 => Some (set_itype (if Z.testbit code 25 then ARC_sr else ARC_st) s, (a, b, c))
  | 3 => single_operand s a b c d
  | 7 => Some (set_itype (if Z.testbit code 9 then ARC_jl else ARC_j) s, (a, b, c))
  | 8 => Some (set_itype ARC_add s, (a, b, c))
  | 9 => Some (set_itype ARC_adc s, (a, b, c))
  | 10 => Some (set_itype ARC_sub s, (a, b, c))
  | 11 => Some (set_itype ARC_sbc s, (a, b, c))
  | 12 => Some (set_itype ARC_and s, (a, b, c))
  | 13 => Some (set_itype ARC_or s, (a, b, c))
  | 14 => Some (set_itype ARC_bic s, (a, b, c))
  | 15 => Some (set_itype ARC_xor s, (a, b, c))
  | 0x10 => Some (set_itype ARC_asl s, (a, b, c))
  | 0x11 => Some (set_itype ARC_lsr s, (a, b, c))
  | 0x12 => Some (set_itype ARC_asr s, (a, b, c))
  | 0x13 => Some (set_itype ARC_ror s, (a, b, c))
  | 0x14 => Some (set_itype ARC_mul64 s, (a, b, c))
  | 0x15 => Some (set_itype ARC_mulu64 s, (a, b, c))
  | 0x1E => Some (set_itype ARC_max s, (a, b, c))
  | 0x1F => Some (set_itype ARC_min s, (a, b, c))
  | _ => Some (s, (a, b, c))
  end.

(** The locals of [doRegisterInstruction] that the pseudo-instruction
    heuristic (the second [switch], on [cmd.itype]) may change. *)
Record pseudo_t : Set := mk_pseudo {
  p_itype : itype_t;
  p_b : Z;
  p_d : Z;
  p_immediate : Z;
  noop3 : bool;
  isnop : bool
}.

Definition pseudo (it : itype_t) (code b c d immediate : Z) : pseudo_t :=
  match it with
  | ARC_flag => mk_pseudo it (-1) d immediate false false
  | ARC_and | ARC_or =>
      if b =? c then mk_pseudo ARC_mov b d immediate true false
      else mk_pseudo it b d immediate false false
  | ARC_add =>
      if b =? c then
        if b >=? SHIMM_F
        then mk_pseudo ARC_mov b (d * 2) (uint32 (immediate * 2)) true false
        else mk_pseudo ARC_lsl b d immediate true false
      else mk_pseudo it b d immediate false false
  | ARC_adc =>
      if b =? c then mk_pseudo ARC_rlc b d immediate true false
      else mk_pseudo it b d immediate false false
  | ARC_xor =>
      mk_pseudo it b d immediate false (code =? 0x7FFFFFFF)
  | _ => mk_pseudo it b d immediate false false
  end.

(** The three tests on the register fields that follow the first
    [switch]: the flag bits of [cmd.auxpref] and the fetch of the long
    immediate.  The result is the local [immediate] and the new state. *)
Definition legacy_flags (s : state) (a b c : Z) : Z * state :=
  let s := if (a =? SHIMM_F) || (b =? SHIMM_F) || (c =? SHIMM_F)
           then set_auxpref (aux_f H) s else s in
  let s := if (b =? SHIMM) || (c =? SHIMM) then set_auxpref 0 s else s in
  if (b =? LIMM) || (c =? LIMM) then ua_next_long s else (0, s).

(** The branch [if ( !isnop )] of [doRegisterInstruction]: the operands,
    by major class. *)
Definition legacy_operands (s : state) (code i a b c d li : Z) (noop3 : bool)
  : state :=
  if i =? 0 then
    let s := set_Op1 (doRegisterOperand a (Op1 (cmd s)) d li false) s in
    set_Op2 (doIndirectOperand s b c (Op2 (cmd s)) d li false) s
  else if (i =? 1) || (i =? 2) then
    let it := itype (cmd s) in
    let s :=
      match it with
      | ARC_ld => set_auxpref (Z.land (Z.shiftr code 9) 0x3F) s
      | ARC_st => set_auxpref (Z.land (Z.shiftr code 21) 0x3F) s
      | _ => set_auxpref 0 s
      end in
    let a := match it with ARC_st | ARC_sr => c | _ => a end in
    let s := set_Op1 (doRegisterOperand a (Op1 (cmd s)) d li false) s in
    set_Op2 (doIndirectOperand s b SHIMM (Op2 (cmd s)) d li
               match it with ARC_lr | ARC_sr => true | _ => false end) s
  else if i =? 7 then
    set_Op1 (doRegisterOperand b (Op1 (cmd s)) d li true) s
  else
    let s := if negb (a =? -1)
             then set_Op1 (doRegisterOperand a (Op1 (cmd s)) 0 li false) s
             else s in
    let s := if negb (b =? -1)
             then set_Op2 (doRegisterOperand b (Op2 (cmd s)) d li false) s
             else s in
    if negb (c =? -1) && negb noop3
    then set_Op3 (doRegisterOperand c (Op3 (cmd s)) d li false) s
    else s.

Definition doRegisterInstruction (s : state) (code : Z) : state :=
  let i := Z.land (Z.shiftr code 27) 31 in
  let a := Z.land (Z.shiftr code 21) 63 in
  let b := Z.land (Z.shiftr code 15) 63 in
  let c := Z.land (Z.shiftr code 9) 63 in
  let d := Z.land code 0x1FF in
  let d := if d >=? 0x100 then d - 0x200 else d in
  let s := set_auxpref (Z.land code 0x1FF) s in
  match major_class s code i a b c d with
  | None => s
  | Some (s, (a, b, c)) =>
      let '(immediate, s) := legacy_flags s a b c in
      let p := pseudo (itype (cmd s)) code b c d immediate in
      let s := set_itype (p_itype p) s in
      if negb (isnop p)
      then legacy_operands s code i a (p_b p) c (p_d p)
                           (sint32 (p_immediate p)) (noop3 p)
      else set_auxpref 0 (set_itype ARC_nop s)
  end.

Definition doBranchInstruction (s : state) (code : Z) : state :=
  let i := Z.land (Z.shiftr code 27) 31 in
  let l := Z.land (Z.shiftr code 7) 0xFFFFF in
  let l := if l >=? 0x80000 then l - 0x100000 else l in
  let s := set_Op1 (doBranchOperand s (Op1 (cmd s)) l) s in
  let s :=
    match i with
    | 4 => set_itype ARC_b s
    | 5 => set_itype ARC_bl s
    | 6 => set_itype ARC_lp s
    | _ => s
    end in
  set_auxpref (Z.land code 0x1FF) s.

(** [ana_old] returns the pair of its result and of the state it leaves. *)
Definition ana_old (s : state) : Z * state :=
  if negb (Z.land (ea (cmd s)) 3 =? 0) then (0, s)
  else
    let s := set_Op1 (set_dtyp dt_dword (Op1 (cmd s))) s in
    let s := set_Op2 (set_dtyp dt_dword (Op2 (cmd s))) s in
    let s := set_Op3 (set_dtyp dt_dword (Op3 (cmd s))) s in
    let '(code, s) := ua_next_long s in
    let i := Z.land (Z.shiftr code 27) 31 in
    let s := set_itype ARC_null s in
    let s :=
      match i with
      | 4 | 5 | 6 => doBranchInstruction s code
      | _ => doRegisterInstruction s code
      end in
    (size (cmd s), s).

(** ** ARCompact: bit fields *)

(** The macro builds its mask in a 32-bit [int]; the definition agrees
    with it for fields narrower than 32 bits, which is every field that
    the analyser extracts. *)
Definition BITS (val high low : Z) : Z :=
  Z.land (Z.shiftr val low) (Z.shiftl 1 (high - low + 1) - 1).

Definition SIGNEXT (x b : Z) : Z :=
  let m := uint32 (Z.shiftl 1 (b - 1)) in
  let x := Z.land x (Z.shiftl 1 b - 1) in
  sint32 (Z.lxor x m - m).

Definition SBITS (val high low : Z) : Z :=
  SIGNEXT (BITS val high low) (high - low + 1).

(** ** ARCompact: operands *)

Definition get_limm (s : state) : Z * state :=
  if got_limm s then (g_limm s, s)
  else
    let '(w1, s) := ua_next_word s in
    let g := sint32 (Z.shiftl w1 16) in
    let '(w2, s) := ua_next_word s in
    let g := Z.lor g w2 in
    (g, set_limm g s).

Definition opreg (s : state) (x : op_t) (rgnum : Z) : state * op_t :=
  let '(s, x) :=
    if negb (rgnum =? LIMM) then (s, set_type o_reg (set_reg rgnum x))
    else
      let x := set_type o_imm x in
      if (n x =? 0) && canon_chg1 H (itype (cmd s)) then (s, set_value 0 x)
      else let '(v, s) := get_limm s in (s, set_value v x) in
  (s, set_dtyp dt_dword x).

Definition opimm (x : op_t) (val : Z) : op_t :=
  set_dtyp dt_dword (set_type o_imm (set_value val x)).

Definition opdisp (s : state) (x : op_t) (rgnum disp : Z) : state * op_t :=
  let '(s, x) :=
    if negb (rgnum =? LIMM)
    then (s, set_reg rgnum (set_addr disp (set_type o_displ x)))
    else
      let x := set_type o_mem x in
      let '(v, s) := get_limm s in (s, set_addr (v + disp) x) in
  (s, set_dtyp dt_dword x).

Definition reg16 (rgnum : Z) : Z := if rgnum >? 3 then rgnum + 8 else rgnum.

Definition opbranch (s : state) (x : op_t) (delta : Z) : op_t :=
  let pcl := Z.land (ip (cmd s)) (Z.lnot 3) in
  set_addr (pcl + delta) (set_dtyp dt_code (set_type o_near x)).

(** The register number in bits 14..12 and 26..24. *)
Definition B32 (code : Z) : Z :=
  Z.lor (Z.shiftl (BITS code 14 12) 3) (BITS code 26 24).

(** The cases [S25L], [S21L], [S25], [S21] of [decode_operand]. *)
Definition decode_s21_s25 (s : state) (code : Z) (x : op_t) (opkind : opkind_t)
  : op_t :=
  let displ := Z.lor (Z.shiftl (BITS code 15 6) 10) (BITS code 26 17) in
  let displ :=
    if opkind_is opkind S25 || opkind_is opkind S25L then
      let displ := Z.lor displ (Z.shiftl (BITS code 3 0) 20) in
      if Z.testbit displ 23 then displ - 0x1000000 else displ
    else
      if Z.testbit displ 19 then displ - 0x100000 else displ in
  let displ :=
    if opkind_is opkind S25L || opkind_is opkind S21L
    then Z.land displ (Z.lnot 1) else displ in
  opbranch s x (displ * 2).

(** The cases [GENC], [GENC_PCREL]. *)
Definition decode_genc (s : state) (code : Z) (x : op_t) (opkind : opkind_t)
  : state * op_t :=
  let p := BITS code 23 22 in
  let '(reg, (s, x)) :=
    if negb (p =? 2) then
      let reg := BITS code 11 6 in
      if (p =? 0) || ((p =? 3) && (BITS code 5 5 =? 0))
      then (reg, opreg s x reg)
      else (reg, (s, opimm x reg))
    else
      let reg := Z.lor (Z.shiftl (BITS code 5 0) 6) (BITS code 11 6) in
      let reg := SIGNEXT reg 12 in
      (reg, (s, opimm x reg)) in
  match field opkind, type x with
  | GENC_PCREL, o_imm => (s, opbranch s x (reg * 2))
  | _, _ => (s, x)
  end.

(** The cases [fB_U5], [fB_U6], [fB_U7]. *)
Definition decode_fB_u (s : state) (code : Z) (x : op_t) (opkind : opkind_t)
  : state * op_t :=
  let displ := BITS code 4 0 in
  let displ :=
    if opkind_is opkind fB_U6 then displ * 2
    else if opkind_is opkind fB_U7 then displ * 4
    else displ in
  opdisp s x (reg16 (BITS code 10 8)) displ.

(** The cases [GP_S9], [GP_S10], [GP_S11], [S11]. *)
Definition decode_gp (s : state) (code : Z) (x : op_t) (opkind : opkind_t)
  : state * op_t :=
  let displ := SBITS code 8 0 in
  let displ :=
    if opkind_is opkind GP_S10 then displ * 2
    else if negb (opkind_is opkind GP_S9) then displ * 4
    else displ in
  if opkind_is opkind S11 then (s, opimm x displ)
  else opdisp s x (GP H) displ.

(** The [switch] of [decode_operand] on [opkind & ~O_IND]; [None] is its
    [default], which prints a message and returns. *)
Definition decode_field (s : state) (code : Z) (x : op_t) (opkind : opkind_t)
  : option (state * op_t) :=
  match field opkind with
  | fA16 => Some (opreg s x (reg16 (BITS code 2 0)))
  | fB16 => Some (opreg s x (reg16 (BITS code 10 8)))
  | fC16 => Some (opreg s x (reg16 (BITS code 7 5)))
  | fA32 => Some (opreg s x (BITS code 5 0))
  | fB32 => Some (opreg s x (B32 code))
  | fC32 => Some (opreg s x (BITS code 11 6))
  | fH16 => Some (opreg s x (Z.lor (Z.shiftl (BITS code 2 0) 3) (BITS code 7 5)))
  | S25L | S21L | S25 | S21 => Some (s, decode_s21_s25 s code x opkind)
  | S9 =>
      let displ := BITS code 23 17 in
      let displ := if negb (BITS code 15 15 =? 0) then displ - 0x80 else displ in
      Some (s, opbranch s x (displ * 2))
  | S7 => Some (s, opbranch s x (SBITS code 5 0 * 2))
  | S8 => Some (s, opbranch s x (SBITS code 6 0 * 2))
  | S10 => Some (s, opbranch s x (SBITS code 8 0 * 2))
  | S13 => Some (s, opbranch s x (SBITS code 10 0 * 4))
  | PCL_U10 => Some (opdisp s x (PCL H) (BITS code 7 0 * 4))
  | SP_U7 => Some (opdisp s x (SP H) (BITS code 4 0 * 4))
  | U3 => Some (s, opimm x (BITS code 2 0))
  | U7 => Some (s, opimm x (BITS code 6 0))
  | U6 => Some (s, opimm x (BITS code 11 6))
  | U5 | U7L =>
      let displ := BITS code 4 0 in
      let displ := if opkind_is opkind U7L then displ * 4 else displ in
      Some (s, opimm x displ)
  | U8 => Some (s, opimm x (BITS code 7 0))
  | fB_U5 | fB_U6 | fB_U7 => Some (decode_fB_u s code x opkind)
  | fB_S9 =>
      let displ := BITS code 23 16 in
      let displ := if negb (BITS code 15 15 =? 0) then displ - 0x100 else displ in
      Some (opdisp s x (B32 code) displ)
  | GENA =>
      let p := BITS code 23 22 in
      let reg := if p <=? 1 then BITS code 5 0 else B32 code in
      Some (opreg s x reg)
  | GENB => Some (opreg s x (B32 code))
  | GENC | GENC_PCREL => Some (decode_genc s code x opkind)
  | fBC_IND =>
      let b := B32 code in
      let c := BITS code 11 6 in
      let '(li, s) := if (b =? LIMM) || (c =? LIMM) then get_limm s else (0, s) in
      Some (s, doIndirectOperand s b c x 0 li false)
  | fBC16_IND =>
      let b := BITS code 10 8 in
      let c := BITS code 7 5 in
      Some (s, doIndirectOperand s (reg16 b) (reg16 c) x 0 0 false)
  | O_ZERO => Some (s, opimm x 0)
  | R_SP => Some (opreg s x (SP H))
  | R_BLINK => Some (opreg s x (BLINK H))
  | R_R0 => Some (opreg s x (R0 H))
  | R_GP => Some (opreg s x (GP H))
  | GP_S9 | GP_S10 | GP_S11 | S11 => Some (decode_gp s code x opkind)
  | f_none => None
  end.

(** [decode_operand (code, cmd.Operands[i], opkind)]. *)
Definition decode_operand (s : state) (code : Z) (i : nat) (opkind : opkind_t)
  : state :=
  let x := Operands s i in
  if opkind_is opkind f_none then set_Operand i (set_type o_void x) s
  else
    match decode_field s code x opkind with
    | None => s
    | Some (s, x) =>
        let x :=
          if o_ind opkind then
            match type x with
            | o_reg => set_addr 0 (set_type o_displ x)
            | o_imm =>
                let x :=
                  match itype (cmd s) with
                  | ARC_j | ARC_jl => set_type o_near x
                  | _ => set_type o_mem x
                  end in
                set_addr (value x) x
            | _ => x
            end
          else x in
        set_Operand i x s
    end.

(** ** ARCompact: the bits of the instruction that are not operands *)

Definition has (aux flag : Z) : bool := negb (Z.land aux flag =? 0).

(** [decode_aux]: each group of [aux] that is present updates
    [cmd.auxpref] and is cleared from [aux].  Bits that remain at the
    end are only reported in a message. *)
Definition decode_aux (s : state) (code aux : Z) : state :=
  let cmask := aux_cmask H in
  let '(s, aux) :=
    if has aux AUX_CND then
      (set_auxpref (Z.lor (Z.land (auxpref (cmd s)) (Z.lnot cmask))
                          (Z.land aux cmask)) s,
       Z.land aux (Z.lnot (Z.lor AUX_CND cmask)))
    else (s, aux) in
  let '(s, aux) :=
    if has aux Q_4_0 then
      (set_auxpref (Z.lor (Z.land (auxpref (cmd s)) (Z.lnot cmask))
                          (Z.land code cmask)) s,
       Z.land aux (Z.lnot Q_4_0))
    else (s, aux) in
  let '(s, aux) :=
    if has aux (Z.lor AUX_GEN AUX_GEN2) then
      let s :=
        if (Z.land aux AUX_GEN2 =? 0) && negb (BITS code 15 15 =? 0)
        then set_auxpref (Z.lor (auxpref (cmd s)) (aux_f H)) s else s in
      let s :=
        if BITS code 23 22 =? 3
        then set_auxpref (Z.lor (Z.land (auxpref (cmd s)) (Z.lnot cmask))
                                (Z.land code cmask)) s
        else s in
      (s, Z.land aux (Z.lnot (Z.lor AUX_GEN AUX_GEN2)))
    else (s, aux) in
  let '(s, aux) :=
    if has aux N_5 then
      (set_auxpref (Z.lor (Z.land (auxpref (cmd s)) (Z.lnot (aux_d H)))
                          (Z.land code (aux_d H))) s,
       Z.land aux (Z.lnot N_5))
    else (s, aux) in
  let '(s, aux) :=
    if has aux AUX_W then
      (set_auxpref (Z.lor (Z.land (auxpref (cmd s)) (Z.lnot (aux_zmask H)))
                          (aux_w H)) s,
       Z.land aux (Z.lnot AUX_W))
    else (s, aux) in
  let '(s, aux) :=
    if has aux AUX_B then
      (set_auxpref (Z.lor (Z.land (auxpref (cmd s)) (Z.lnot (aux_zmask H)))
                          (aux_b H)) s,
       Z.land aux (Z.lnot AUX_B))
    else (s, aux) in
  let '(s, aux) :=
    if has aux AUX_X then
      (set_auxpref (Z.lor (auxpref (cmd s)) (aux_x H)) s,
       Z.land aux (Z.lnot AUX_X))
    else (s, aux) in
  let '(s, aux) :=
    if has aux AUX_D then
      (set_auxpref (Z.lor (Z.land (auxpref (cmd s)) (Z.lnot (aux_nmask H)))
                          (aux_d H)) s,
       Z.land aux (Z.lnot AUX_D))
    else (s, aux) in
  let '(s, aux) :=
    if has aux DAAZZX_11_6 then
      (set_auxpref (Z.lor (Z.land (auxpref (cmd s)) (Z.lnot 0x3F))
                          (BITS code 11 6)) s,
       Z.land aux (Z.lnot DAAZZX_11_6))
    else (s, aux) in
  let '(s, aux) :=
    if has aux DAAZZR_5_0 then
      (set_auxpref (Z.lor (Z.land (auxpref (cmd s)) (Z.lnot 0x3F))
                          (BITS code 5 0)) s,
       Z.land aux (Z.lnot DAAZZR_5_0))
    else (s, aux) in
  let '(s, aux) :=
    if has aux AAZZXD_23_15 then
      let s := set_auxpref (Z.land (auxpref (cmd s)) (Z.lnot 0x3F)) s in
      let s := set_auxpref (Z.lor (auxpref (cmd s)) (Z.shiftl (BITS code 15 15) 5)) s in
      let s := set_auxpref (Z.lor (auxpref (cmd s)) (Z.shiftl (BITS code 23 22) 3)) s in
      let s := set_auxpref (Z.lor (auxpref (cmd s)) (Z.shiftl (BITS code 18 17) 1)) s in
      let s := set_auxpref (Z.lor (auxpref (cmd s)) (Z.shiftl (BITS code 16 16) 0)) s in
      (s, Z.land aux (Z.lnot AAZZXD_23_15))
    else (s, aux) in
  s.

(** ** ARCompact: the opcode tables *)

(** indexed by bit 16 (maj = 0) (2 initialisers, declared size 2) *)
Definition arcompact_maj0 : list arcompact_opcode_t :=
  table 2
    [ insn ARC_b (Z.lor Q_4_0 N_5) (K S21) no_op no_op;
      insn ARC_b N_5 (K S25) no_op no_op ].

(** indexed by bit 17 (maj = 1, b16 = 0) (2 initialisers, declared size 2) *)
Definition arcompact_bl : list arcompact_opcode_t :=
  table 2
    [ insn ARC_bl (Z.lor Q_4_0 N_5) (K S21L) no_op no_op;
      insn ARC_bl N_5 (K S25L) no_op no_op ].

(** indexed by bits 3..0 (maj = 1, b16 = 1, b4 = 0) (16 initialisers, declared size 0x10) *)
Definition arcompact_br_regreg : list arcompact_opcode_t :=
  table 0x10
    [ insn ARC_br (Z.lor (Z.lor AUX_CND (cEQ H)) N_5) (K fB32) (K fC32) (K S9);
      insn ARC_br (Z.lor (Z.lor AUX_CND (cNE H)) N_5) (K fB32) (K fC32) (K S9);
      insn ARC_br (Z.lor (Z.lor AUX_CND (cLT H)) N_5) (K fB32) (K fC32) (K S9);
      insn ARC_br (Z.lor (Z.lor AUX_CND (cGE H)) N_5) (K fB32) (K fC32) (K S9);
      insn ARC_br (Z.lor (Z.lor AUX_CND (cLO H)) N_5) (K fB32) (K fC32) (K S9);
      insn ARC_br (Z.lor (Z.lor AUX_CND (cHS H)) N_5) (K fB32) (K fC32) (K S9);
      null_line;
      null_line;
      null_line;
      null_line;
      null_line;
      null_line;
      null_line;
      null_line;
      insn ARC_bbit0 N_5 (K fB32) (K fC32) (K S9);
      insn ARC_bbit1 N_5 (K fB32) (K fC32) (K S9) ].

(** indexed by bits 3..0 (maj = 1, b16 = 1, b4 = 1) (16 initialisers, declared size 0x10) *)
Definition arcompact_br_regimm : list arcompact_opcode_t :=
  table 0x10
    [ insn ARC_br (Z.lor (Z.lor AUX_CND (cEQ H)) N_5) (K fB32) (K U6) (K S9);
      insn ARC_br (Z.lor (Z.lor AUX_CND (cNE H)) N_5) (K fB32) (K U6) (K S9);
      insn ARC_br (Z.lor (Z.lor AUX_CND (cLT H)) N_5) (K fB32) (K U6) (K S9);
      insn ARC_br (Z.lor (Z.lor AUX_CND (cGE H)) N_5) (K fB32) (K U6) (K S9);
      insn ARC_br (Z.lor (Z.lor AUX_CND (cLO H)) N_5) (K fB32) (K U6) (K S9);
      insn ARC_br (Z.lor (Z.lor AUX_CND (cHS H)) N_5) (K fB32) (K U6) (K S9);
      null_line;
      null_line;
      null_line;
      null_line;
      null_line;
      null_line;
      null_line;
      null_line;
      insn ARC_bbit0 N_5 (K fB32) (K U6) (K S9);
      insn ARC_bbit1 N_5 (K fB32) (K U6) (K S9) ].

(** indexed by bit 4 (maj = 1, b16 = 1) (2 initialisers, declared size 4) *)
Definition arcompact_br : list arcompact_opcode_t :=
  table 4
    [ SUBTABLE 3 0 arcompact_br_regreg;
      SUBTABLE 3 0 arcompact_br_regimm ].

(** indexed by bit 16 (maj = 1) (2 initialisers, declared size 0x40) *)
Definition arcompact_maj1 : list arcompact_opcode_t :=
  table 0x40
    [ SUBTABLE 17 17 arcompact_bl;
      SUBTABLE 4 4 arcompact_br ].

(** indexed by bits 14..12 & 26..24 (maj = 4, 21..16=0x2F, 5..0=0x3F) (48 initialisers, declared size 0x40) *)
Definition arcompact_zop : list arcompact_opcode_t :=
  table 0x40
    [ null_line;
      insn ARC_sleep 0 (K GENC) no_op no_op;
      insn ARC_swi 0 no_op no_op no_op;
      insn ARC_sync 0 no_op no_op no_op;
      insn ARC_rtie 0 no_op no_op no_op;
      insn ARC_brk 0 no_op no_op no_op;
      null_line;
      null_line;
      null_line;
      null_line;
      null_line;
      null_line;
      null_line;
      null_line;
      null_line;
      null_line;
      null_line;
      null_line;
      null_line;
      null_line;
      null_line;
      null_line;
      null_line;
      null_line;
      null_line;
      null_line;
      null_line;
      null_line;
      null_line;
      null_line;
      null_line;
      null_line;
      null_line;
      null_line;
      null_line;
      null_line;
      null_line;
      null_line;
      null_line;
      null_line;
      null_line;
      null_line;
      null_line;
      null_line;
      null_line;
      null_line;
      null_line;
      null_line ].

(** indexed by bits 5..0 (maj = 4, 21..16=0x2F) (64 initialisers, declared size 0x40) *)
Definition arcompact_sop : list arcompact_opcode_t :=
  table 0x40
    [ insn ARC_asl 0 (K GENB) (K GENC) no_op;
      insn ARC_asr 0 (K GENB) (K GENC) no_op;
      insn ARC_lsr 0 (K GENB) (K GENC) no_op;
      insn ARC_ror 0 (K GENB) (K GENC) no_op;
      insn ARC_rrc 0 (K GENB) (K GENC) no_op;
      insn ARC_sexb 0 (K GENB) (K GENC) no_op;
      insn ARC_sexw 0 (K GENB) (K GENC) no_op;
      insn ARC_extb 0 (K GENB) (K GENC) no_op;
      insn ARC_extw 0 (K GENB) (K GENC) no_op;
      insn ARC_abs 0 (K GENB) (K GENC) no_op;
      insn ARC_not 0 (K GENB) (K GENC) no_op;
      insn ARC_rlc 0 (K GENB) (K GENC) no_op;
      insn ARC_ex 0 (K GENB) (IND GENC) no_op;
      null_line;
      null_line;
      null_line;
      null_line;
      null_line;
      null_line;
      null_line;
      null_line;
      null_line;
      null_line;
      null_line;
      null_line;
      null_line;
      null_line;
      null_line;
      null_line;
      null_line;
      null_line;
      null_line;
      null_line;
      null_line;
      null_line;
      null_line;
      null_line;
      null_line;
      null_line;
      null_line;
      null_line;
      null_line;
      null_line;
      null_line;
      null_line;
      null_line;
      null_line;
      null_line;
      null_line;
      null_line;
      null_line;
      null_line;
      null_line;
      null_line;
      null_line;
      null_line;
      null_line;
      null_line;
      null_line;
      null_line;
      null_line;
      null_line;
      null_line;
      SUBTABLE2 14 12 26 24 arcompact_zop ].

(** indexed by bits 21..16 (maj = 4) (64 initialisers, declared size 0x40) *)
Definition arcompact_maj4 : list arcompact_opcode_t :=
  table 0x40
    [ insn ARC_add AUX_GEN (K GENA) (K GENB) (K GENC);
      insn ARC_adc AUX_GEN (K GENA) (K GENB) (K GENC);
      insn ARC_sub AUX_GEN (K GENA) (K GENB) (K GENC);
      insn ARC_sbc AUX_GEN (K GENA) (K GENB) (K GENC);
      insn ARC_and AUX_GEN (K GENA) (K GENB) (K GENC);
      insn ARC_or AUX_GEN (K GENA) (K GENB) (K GENC);
      insn ARC_bic AUX_GEN (K GENA) (K GENB) (K GENC);
      insn ARC_xor AUX_GEN (K GENA) (K GENB) (K GENC);
      insn ARC_max AUX_GEN (K GENA) (K GENB) (K GENC);
      insn ARC_min AUX_GEN (K GENA) (K GENB) (K GENC);
      insn ARC_mov AUX_GEN (K GENB) (K GENC) no_op;
      insn ARC_tst AUX_GEN2 (K GENB) (K GENC) no_op;
      insn ARC_cmp AUX_GEN2 (K GENB) (K GENC) no_op;
      insn ARC_rcmp AUX_GEN (K GENB) (K GENC) no_op;
      insn ARC_rsub AUX_GEN (K GENA) (K GENB) (K GENC);
      insn ARC_bset AUX_GEN (K GENA) (K GENB) (K GENC);
      insn ARC_bclr AUX_GEN (K GENA) (K GENB) (K GENC);
      insn ARC_btst AUX_GEN2 (K GENB) (K GENC) no_op;
      insn ARC_bxor AUX_GEN (K GENA) (K GENB) (K GENC);
      insn ARC_bmsk AUX_GEN (K GENA) (K GENB) (K GENC);
      insn ARC_add1 AUX_GEN (K GENA) (K GENB) (K GENC);
      insn ARC_add2 AUX_GEN (K GENA) (K GENB) (K GENC);
      insn ARC_add3 AUX_GEN (K GENA) (K GENB) (K GENC);
      insn ARC_sub1 AUX_GEN (K GENA) (K GENB) (K GENC);
      insn ARC_sub2 AUX_GEN (K GENA) (K GENB) (K GENC);
      insn ARC_sub3 AUX_GEN (K GENA) (K GENB) (K GENC);
      insn ARC_mpy AUX_GEN (K GENA) (K GENB) (K GENC);
      insn ARC_mpyh AUX_GEN (K GENA) (K GENB) (K GENC);
      insn ARC_mpyhu AUX_GEN (K GENA) (K GENB) (K GENC);
      insn ARC_mpyu AUX_GEN (K GENA) (K GENB) (K GENC);
      null_line;
      null_line;
      insn ARC_j AUX_GEN (IND GENC) no_op no_op;
      insn ARC_j (Z.lor AUX_GEN AUX_D) (IND GENC) no_op no_op;
      insn ARC_jl AUX_GEN (IND GENC) no_op no_op;
      insn ARC_jl (Z.lor AUX_GEN AUX_D) (IND GENC) no_op no_op;
      null_line;
      null_line;
      null_line;
      null_line;
      insn ARC_lp AUX_GEN2 (K GENC_PCREL) no_op no_op;
      insn ARC_flag AUX_GEN2 (K GENC) no_op no_op;
      insn ARC_lr 0 (K GENB) (IND GENC) no_op;
      insn ARC_sr 0 (K GENB) (IND GENC) no_op;
      null_line;
      null_line;
      null_line;
      SUBTABLE 5 0 arcompact_sop;
      insn ARC_ld AAZZXD_23_15 (K fA32) (K fBC_IND) no_op;
      insn ARC_ld AAZZXD_23_15 (K fA32) (K fBC_IND) no_op;
      insn ARC_ld AAZZXD_23_15 (K fA32) (K fBC_IND) no_op;
      insn ARC_ld AAZZXD_23_15 (K fA32) (K fBC_IND) no_op;
      insn ARC_ld AAZZXD_23_15 (K fA32) (K fBC_IND) no_op;
      insn ARC_ld AAZZXD_23_15 (K fA32) (K fBC_IND) no_op;
      insn ARC_ld AAZZXD_23_15 (K fA32) (K fBC_IND) no_op;
      insn ARC_ld AAZZXD_23_15 (K fA32) (K fBC_IND) no_op;
      null_line;
      null_line;
      null_line;
      null_line;
      null_line;
      null_line;
      null_line;
      null_line ].

(** indexed by bits 14..12 & 26..24 (maj = 5, 21..16=0x2F, 5..0=0x3F) (48 initialisers, declared size 0x40) *)
Definition arcompact_zop5 : list arcompact_opcode_t :=
  table 0x40
    [ null_line;
      null_line;
      null_line;
      null_line;
      null_line;
      null_line;
      null_line;
      null_line;
      null_line;
      null_line;
      null_line;
      null_line;
      null_line;
      null_line;
      null_line;
      null_line;
      null_line;
      null_line;
      null_line;
      null_line;
      null_line;
      null_line;
      null_line;
      null_line;
      null_line;
      null_line;
      null_line;
      null_line;
      null_line;
      null_line;
      null_line;
      null_line;
      null_line;
      null_line;
      null_line;
      null_line;
      null_line;
      null_line;
      null_line;
      null_line;
      null_line;
      null_line;
      null_line;
      null_line;
      null_line;
      null_line;
      null_line;
      null_line ].

(** indexed by bits 5..0 (maj = 5, 21..16=0x2F) (64 initialisers, declared size 0x40) *)
Definition arcompact_sop5 : list arcompact_opcode_t :=
  table 0x40
    [ insn ARC_swap AUX_GEN (K GENB) (K GENC) no_op;
      insn ARC_norm AUX_GEN (K GENB) (K GENC) no_op;
      insn ARC_sat16 AUX_GEN (K GENB) (K GENC) no_op;
      insn ARC_rnd16 AUX_GEN (K GENB) (K GENC) no_op;
      insn ARC_abssw AUX_GEN (K GENB) (K GENC) no_op;
      insn ARC_abss AUX_GEN (K GENB) (K GENC) no_op;
      insn ARC_negsw AUX_GEN (K GENB) (K GENC) no_op;
      insn ARC_negs AUX_GEN (K GENB) (K GENC) no_op;
      insn ARC_normw AUX_GEN (K GENB) (K GENC) no_op;
      null_line;
      null_line;
      null_line;
      null_line;
      null_line;
      null_line;
      null_line;
      null_line;
      null_line;
      null_line;
      null_line;
      null_line;
      null_line;
      null_line;
      null_line;
      null_line;
      null_line;
      null_line;
      null_line;
      null_line;
      null_line;
      null_line;
      null_line;
      null_line;
      null_line;
      null_line;
      null_line;
      null_line;
      null_line;
      null_line;
      null_line;
      null_line;
      null_line;
      null_line;
      null_line;
      null_line;
      null_line;
      null_line;
      null_line;
      null_line;
      null_line;
      null_line;
      null_line;
      null_line;
      null_line;
      null_line;
      null_line;
      null_line;
      null_line;
      null_line;
      null_line;
      null_line;
      null_line;
      null_line;
      SUBTABLE2 14 12 26 24 arcompact_zop5 ].

(** indexed by bits 21..16 (maj = 5) (64 initialisers, declared size 0x40) *)
Definition arcompact_maj5 : list arcompact_opcode_t :=
  table 0x40
    [ insn ARC_asl AUX_GEN (K GENA) (K GENB) (K GENC);
      insn ARC_lsr AUX_GEN (K GENA) (K GENB) (K GENC);
      insn ARC_asr AUX_GEN (K GENA) (K GENB) (K GENC);
      insn ARC_ror AUX_GEN (K GENA) (K GENB) (K GENC);
      insn ARC_mul64 AUX_GEN (K O_ZERO) (K GENB) (K GENC);
      insn ARC_mulu64 AUX_GEN (K O_ZERO) (K GENB) (K GENC);
      insn ARC_adds AUX_GEN (K GENA) (K GENB) (K GENC);
      insn ARC_subs AUX_GEN (K GENA) (K GENB) (K GENC);
      insn ARC_divaw AUX_GEN (K GENA) (K GENB) (K GENC);
      null_line;
      insn ARC_asls AUX_GEN (K GENA) (K GENB) (K GENC);
      insn ARC_asrs AUX_GEN (K GENB) (K GENC) (K GENC);
      insn ARC_muldw AUX_GEN (K GENB) (K GENC) (K GENC);
      insn ARC_muludw AUX_GEN (K GENB) (K GENC) (K GENC);
      insn ARC_mulrdw AUX_GEN (K GENB) (K GENC) (K GENC);
      null_line;
      insn ARC_macdw AUX_GEN (K GENB) (K GENC) (K GENC);
      insn ARC_macudw AUX_GEN (K GENB) (K GENC) (K GENC);
      insn ARC_macrdw AUX_GEN (K GENB) (K GENC) (K GENC);
      null_line;
      insn ARC_msubdw AUX_GEN (K GENB) (K GENC) (K GENC);
      null_line;
      null_line;
      null_line;
      null_line;
      null_line;
      null_line;
      null_line;
      null_line;
      null_line;
      null_line;
      null_line;
      null_line;
      null_line;
      null_line;
      null_line;
      null_line;
      null_line;
      null_line;
      null_line;
      insn ARC_addsdw AUX_GEN (K GENA) (K GENB) (K GENC);
      insn ARC_subsdw AUX_GEN (K GENA) (K GENB) (K GENC);
      null_line;
      null_line;
      null_line;
      null_line;
      null_line;
      SUBTABLE 5 0 arcompact_sop5;
      insn ARC_mululw AUX_GEN (K GENB) (K GENC) (K GENC);
      insn ARC_mullw AUX_GEN (K GENB) (K GENC) (K GENC);
      insn ARC_mulflw AUX_GEN (K GENB) (K GENC) (K GENC);
      insn ARC_maclw AUX_GEN (K GENB) (K GENC) (K GENC);
      insn ARC_macflw AUX_GEN (K GENB) (K GENC) (K GENC);
      insn ARC_machulw AUX_GEN (K GENB) (K GENC) (K GENC);
      insn ARC_machlw AUX_GEN (K GENB) (K GENC) (K GENC);
      insn ARC_machflw AUX_GEN (K GENB) (K GENC) (K GENC);
      insn ARC_mulhlw AUX_GEN (K GENB) (K GENC) (K GENC);
      insn ARC_mulhflw AUX_GEN (K GENB) (K GENC) (K GENC);
      null_line;
      null_line;
      null_line;
      null_line;
      null_line;
      null_line ].

(** indexed by bits 4..3 (maj = 0xC) (4 initialisers, declared size 4) *)
Definition arcompact_maj0C : list arcompact_opcode_t :=
  table 4
    [ insn ARC_ld 0 (K fA16) (K fBC16_IND) no_op;
      insn ARC_ld AUX_B (K fA16) (K fBC16_IND) no_op;
      insn ARC_ld AUX_W (K fA16) (K fBC16_IND) no_op;
      insn ARC_add 0 (K fA16) (K fB16) (K fC16) ].

(** indexed by bits 4..3 (maj = 0xD) (4 initialisers, declared size 4) *)
Definition arcompact_maj0D : list arcompact_opcode_t :=
  table 4
    [ insn ARC_add 0 (K fC16) (K fB16) (K U3);
      insn ARC_sub 0 (K fC16) (K fB16) (K U3);
      insn ARC_asl 0 (K fC16) (K fB16) (K U3);
      insn ARC_asr 0 (K fC16) (K fB16) (K U3) ].

(** indexed by bits 4..3 (maj = 0xE) (4 initialisers, declared size 4) *)
Definition arcompact_maj0E : list arcompact_opcode_t :=
  table 4
    [ insn ARC_add 0 (K fB16) (K fB16) (K fH16);
      insn ARC_mov 0 (K fB16) (K fH16) no_op;
      insn ARC_cmp 0 (K fB16) (K fH16) no_op;
      insn ARC_mov 0 (K fH16) (K fB16) no_op ].

(** indexed by bits 10..8 (maj = 0xF, 4..0 = 0x0, 7..5=0x7); 01111 iii 111 00000 (8 initialisers, declared size 8) *)
Definition arcompact_zop16 : list arcompact_opcode_t :=
  table 8
    [ insn ARC_nop 0 no_op no_op no_op;
      insn ARC_unimp 0 no_op no_op no_op;
      null_line;
      null_line;
      insn ARC_j (Z.lor AUX_CND (cEQ H)) (IND R_BLINK) no_op no_op;
      insn ARC_j (Z.lor AUX_CND (cNE H)) (IND R_BLINK) no_op no_op;
      insn ARC_j 0 (IND R_BLINK) no_op no_op;
      insn ARC_j AUX_D (IND R_BLINK) no_op no_op ].

(** indexed by bits 7..5 (maj = 0xF, 4..0 = 0x0); 01111 bbb iii 00000 (8 initialisers, declared size 8) *)
Definition arcompact_sop16 : list arcompact_opcode_t :=
  table 8
    [ insn ARC_j 0 (IND fB16) no_op no_op;
      insn ARC_j AUX_D (IND fB16) no_op no_op;
      insn ARC_jl 0 (IND fB16) no_op no_op;
      insn ARC_jl AUX_D (IND fB16) no_op no_op;
      null_line;
      null_line;
      insn ARC_sub (Z.lor AUX_CND (cNE H)) (K fB16) (K fB16) (K fB16);
      SUBTABLE 10 8 arcompact_zop16 ].

(** indexed by bits 4..0 (maj = 0xF); 01111 bbb ccc iiiii (32 initialisers, declared size 0x20) *)
Definition arcompact_maj0F : list arcompact_opcode_t :=
  table 0x20
    [ SUBTABLE 7 5 arcompact_sop16;
      null_line;
      insn ARC_sub 0 (K fB16) (K fB16) (K fC16);
      null_line;
      insn ARC_and 0 (K fB16) (K fB16) (K fC16);
      insn ARC_or 0 (K fB16) (K fB16) (K fC16);
      insn ARC_bic 0 (K fB16) (K fB16) (K fC16);
      insn ARC_xor 0 (K fB16) (K fB16) (K fC16);
      null_line;
      null_line;
      null_line;
      insn ARC_tst 0 (K fB16) (K fC16) no_op;
      insn ARC_mul64 0 (K fB16) (K fC16) no_op;
      insn ARC_sexb 0 (K fB16) (K fC16) no_op;
      insn ARC_sexw 0 (K fB16) (K fC16) no_op;
      insn ARC_extb 0 (K fB16) (K fC16) no_op;
      insn ARC_extw 0 (K fB16) (K fC16) no_op;
      insn ARC_abs 0 (K fB16) (K fC16) no_op;
      insn ARC_not 0 (K fB16) (K fC16) no_op;
      insn ARC_neg 0 (K fB16) (K fC16) no_op;
      insn ARC_add1 0 (K fB16) (K fB16) (K fC16);
      insn ARC_add2 0 (K fB16) (K fB16) (K fC16);
      insn ARC_add3 0 (K fB16) (K fB16) (K fC16);
      null_line;
      insn ARC_asl 0 (K fB16) (K fB16) (K fC16);
      insn ARC_lsr 0 (K fB16) (K fB16) (K fC16);
      insn ARC_asr 0 (K fB16) (K fB16) (K fC16);
      insn ARC_asl 0 (K fB16) (K fC16) no_op;
      insn ARC_asr 0 (K fB16) (K fC16) no_op;
      insn ARC_lsr 0 (K fB16) (K fC16) no_op;
      insn ARC_trap 0 no_op no_op no_op;
      insn ARC_brk 0 no_op no_op no_op ].

(** indexed by bits 7..5 (maj = 0x17) (8 initialisers, declared size 8) *)
Definition arcompact_maj17 : list arcompact_opcode_t :=
  table 8
    [ insn ARC_asl 0 (K fB16) (K fB16) (K U5);
      insn ARC_lsr 0 (K fB16) (K fB16) (K U5);
      insn ARC_asr 0 (K fB16) (K fB16) (K U5);
      insn ARC_sub 0 (K fB16) (K fB16) (K U5);
      insn ARC_bset 0 (K fB16) (K fB16) (K U5);
      insn ARC_bclr 0 (K fB16) (K fB16) (K U5);
      insn ARC_bmsk 0 (K fB16) (K fB16) (K U5);
      insn ARC_btst 0 (K fB16) (K U5) no_op ].

(** indexed by bits 10..8 (maj = 0x18, i=5) (8 initialisers, declared size 8) *)
Definition arcompact_sp_addsub : list arcompact_opcode_t :=
  table 8
    [ insn ARC_add 0 (K R_SP) (K R_SP) (K U7L);
      insn ARC_sub 0 (K R_SP) (K R_SP) (K U7L);
      null_line;
      null_line;
      null_line;
      null_line;
      null_line;
      null_line ].

(** indexed by bits 10..8 (maj = 0x18, i=6) (32 initialisers, declared size 0x20) *)
Definition arcompact_sp_pops : list arcompact_opcode_t :=
  table 0x20
    [ null_line;
      insn ARC_pop 0 (K fB16) no_op no_op;
      null_line;
      null_line;
      null_line;
      null_line;
      null_line;
      null_line;
      null_line;
      null_line;
      null_line;
      null_line;
      null_line;
      null_line;
      null_line;
      null_line;
      null_line;
      insn ARC_pop 0 (K R_BLINK) no_op no_op;
      null_line;
      null_line;
      null_line;
      null_line;
      null_line;
      null_line;
      null_line;
      null_line;
      null_line;
      null_line;
      null_line;
      null_line;
      null_line;
      null_line ].

(** indexed by bits 10..8 (maj = 0x18, i=7) (32 initialisers, declared size 0x20) *)
Definition arcompact_sp_pushs : list arcompact_opcode_t :=
  table 0x20
    [ null_line;
      insn ARC_push 0 (K fB16) no_op no_op;
      null_line;
      null_line;
      null_line;
      null_line;
      null_line;
      null_line;
      null_line;
      null_line;
      null_line;
      null_line;
      null_line;
      null_line;
      null_line;
      null_line;
      null_line;
      insn ARC_push 0 (K R_BLINK) no_op no_op;
      null_line;
      null_line;
      null_line;
      null_line;
      null_line;
      null_line;
      null_line;
      null_line;
      null_line;
      null_line;
      null_line;
      null_line;
      null_line;
      null_line ].

(** indexed by bits 7..5 (maj = 0x18); sp-based instructions (8 initialisers, declared size 8) *)
Definition arcompact_maj18 : list arcompact_opcode_t :=
  table 8
    [ insn ARC_ld 0 (K fB16) (K SP_U7) no_op;
      insn ARC_ld AUX_B (K fB16) (K SP_U7) no_op;
      insn ARC_st 0 (K fB16) (K SP_U7) no_op;
      insn ARC_st AUX_B (K fB16) (K SP_U7) no_op;
      insn ARC_add 0 (K fB16) (K R_SP) (K U7L);
      SUBTABLE 10 8 arcompact_sp_addsub;
      SUBTABLE 4 0 arcompact_sp_pops;
      SUBTABLE 4 0 arcompact_sp_pushs ].

(** indexed by bits 10..9 (maj = 0x19); gp-based ld/add (data aligned offset) (4 initialisers, declared size 4) *)
Definition arcompact_maj19 : list arcompact_opcode_t :=
  table 4
    [ insn ARC_ld 0 (K R_R0) (K GP_S11) no_op;
      insn ARC_ld AUX_B (K R_R0) (K GP_S9) no_op;
      insn ARC_ld AUX_W (K R_R0) (K GP_S10) no_op;
      insn ARC_add 0 (K R_R0) (K R_GP) (K S11) ].

(** indexed by bits 7..7 (maj = 0x1C) (2 initialisers, declared size 2) *)
Definition arcompact_maj1C : list arcompact_opcode_t :=
  table 2
    [ insn ARC_add 0 (K fB16) (K fB16) (K U7);
      insn ARC_cmp 0 (K fB16) (K U7) no_op ].

(** indexed by bits 7..7 (maj = 0x1D) (2 initialisers, declared size 2) *)
Definition arcompact_maj1D : list arcompact_opcode_t :=
  table 2
    [ insn ARC_br (Z.lor AUX_CND (cEQ H)) (K fB16) (K O_ZERO) (K S8);
      insn ARC_br (Z.lor AUX_CND (cNE H)) (K fB16) (K O_ZERO) (K S8) ].

(** indexed by bits 8..6 (maj = 0x1E, 10..9=0x3) (8 initialisers, declared size 8) *)
Definition arcompact_bcc16 : list arcompact_opcode_t :=
  table 8
    [ insn ARC_b (Z.lor AUX_CND (cGT H)) (K S7) no_op no_op;
      insn ARC_b (Z.lor AUX_CND (cGE H)) (K S7) no_op no_op;
      insn ARC_b (Z.lor AUX_CND (cLT H)) (K S7) no_op no_op;
      insn ARC_b (Z.lor AUX_CND (cLE H)) (K S7) no_op no_op;
      insn ARC_b (Z.lor AUX_CND (cHI H)) (K S7) no_op no_op;
      insn ARC_b (Z.lor AUX_CND (cHS H)) (K S7) no_op no_op;
      insn ARC_b (Z.lor AUX_CND (cLO H)) (K S7) no_op no_op;
      insn ARC_b (Z.lor AUX_CND (cLS H)) (K S7) no_op no_op ].

(** indexed by bits 10..9 (maj = 0x1E) (4 initialisers, declared size 4) *)
Definition arcompact_maj1E : list arcompact_opcode_t :=
  table 4
    [ insn ARC_b 0 (K S10) no_op no_op;
      insn ARC_b (Z.lor AUX_CND (cEQ H)) (K S10) no_op no_op;
      insn ARC_b (Z.lor AUX_CND (cNE H)) (K S10) no_op no_op;
      SUBTABLE 8 6 arcompact_bcc16 ].

(** indexed by major opcode (bits 15..11) (32 initialisers, declared size 0x20) *)
Definition arcompact_major : list arcompact_opcode_t :=
  table 0x20
    [ SUBTABLE 16 16 arcompact_maj0;
      SUBTABLE 16 16 arcompact_maj1;
      insn ARC_ld DAAZZX_11_6 (K fA32) (K fB_S9) no_op;
      insn ARC_st DAAZZR_5_0 (K fC32) (K fB_S9) no_op;
      SUBTABLE 21 16 arcompact_maj4;
      SUBTABLE 21 16 arcompact_maj5;
      null_line;
      null_line;
      null_line;
      null_line;
      null_line;
      null_line;
      SUBTABLE 4 3 arcompact_maj0C;
      SUBTABLE 4 3 arcompact_maj0D;
      SUBTABLE 4 3 arcompact_maj0E;
      SUBTABLE 4 0 arcompact_maj0F;
      insn ARC_ld 0 (K fC16) (K fB_U7) no_op;
      insn ARC_ld AUX_B (K fC16) (K fB_U5) no_op;
      insn ARC_ld AUX_W (K fC16) (K fB_U6) no_op;
      insn ARC_ld (Z.lor AUX_W AUX_X) (K fC16) (K fB_U6) no_op;
      insn ARC_st 0 (K fC16) (K fB_U7) no_op;
      insn ARC_st AUX_B (K fC16) (K fB_U5) no_op;
      insn ARC_st AUX_W (K fC16) (K fB_U6) no_op;
      SUBTABLE 7 5 arcompact_maj17;
      SUBTABLE 7 5 arcompact_maj18;
      SUBTABLE 10 9 arcompact_maj19;
      insn ARC_ld 0 (K fB16) (K PCL_U10) no_op;
      insn ARC_mov 0 (K fB16) (K U8) no_op;
      SUBTABLE 7 7 arcompact_maj1C;
      SUBTABLE 7 7 arcompact_maj1D;
      SUBTABLE 10 9 arcompact_maj1E;
      insn ARC_bl 0 (K S13) no_op no_op ].


(** ** ARCompact: the walk through the tables *)

(** The loop of [analyze_compact]: while the line points into a
    subtable, index the subtable with the bits that the line names.  The
    result is the line the loop stops at. *)
Fixpoint find_line (code : Z) (line : arcompact_opcode_t)
  : itype_t * Z * (opkind_t * opkind_t * opkind_t) :=
  match line with
  | mk_opcode (Subfield mnem) _ _ subtable =>
      let high1 := Z.land (Z.shiftr mnem 24) 0x1F in
      let low1 := Z.land (Z.shiftr mnem 16) 0x1F in
      let high2 := Z.land (Z.shiftr mnem 8) 0x1F in
      let low2 := Z.land (Z.shiftr mnem 0) 0x1F in
      let idx := BITS code high2 low2 in
      let idx :=
        if negb (high1 =? 0) && negb (low1 =? 0)
        then Z.lor idx (Z.shiftl (BITS code high1 low1) (high2 - low2 + 1))
        else idx in
      (fix at_index (t : list arcompact_opcode_t) (k : nat) {struct t} :=
         match t with
         | [] => (ARC_null, 0, (no_op, no_op, no_op))
         | e :: t' =>
             match k with
             | O => find_line code e
             | S k' => at_index t' k'
             end
         end) subtable (Z.to_nat idx)
  | mk_opcode (Itype mnem) aux ops _ => (mnem, aux, ops)
  end.

Definition analyze_compact (s : state) (code idx : Z)
  (table : list arcompact_opcode_t) : Z * state :=
  let '(mnem, aux, (op0, op1, op2)) :=
    find_line code (nth (Z.to_nat idx) table null_line) in
  match mnem with
  | ARC_null => (0, s)
  | _ =>
      let s := set_itype mnem s in
      let s := decode_aux s code aux in
      let s := decode_operand s code 0 op0 in
      let s := decode_operand s code 1 op1 in
      let s := decode_operand s code 2 op2 in
      (size (cmd s), s)
  end.

Definition ana_compact (s : state) : Z * state :=
  if negb (Z.land (ea (cmd s)) 1 =? 0) then (0, s)
  else
    let '(code, s) := ua_next_word s in
    let s := clear_got_limm s in
    let i := Z.land (Z.shiftr code 11) 0x1F in
    let '(code, s) :=
      if i <? 0xC then
        let '(w, s) := ua_next_word s in
        (Z.lor (uint32 (Z.shiftl code 16)) w, s)
      else (code, s) in
    analyze_compact s code i arcompact_major.

(** ** The passes after decoding *)

(** The rewrite of [ld.as]/[st.as] in [simplify]: the offset is
    multiplied and the addressing mode is cleared. *)
Definition scale_Op2 (mul : Z) (s : state) : state :=
  let s := set_Op2 (set_addr (addr (Op2 (cmd s)) * mul) (Op2 (cmd s))) s in
  set_auxpref (Z.land (auxpref (cmd s)) (Z.lnot (aux_amask H))) s.

(** The case [ARC_st], [ARC_ld] of [simplify]. *)
Definition simplify_ldst (s : state) : state :=
  let c := cmd s in
  if optype_eqb (type (Op2 c)) o_displ
     && (Z.land (auxpref c) (aux_amask H) =? aux_as H)
     && (membase (Op2 c) =? 0)
  then
    let z := Z.land (auxpref c) (aux_zmask H) in
    if z =? aux_w H then scale_Op2 2 s
    else if negb (z =? aux_l H) then s
    else scale_Op2 4 s
  else s.

(** The case [ARC_add1] ... [ARC_sub3], with its two inner switches. *)
Definition scale_Op3 (mul : Z) (s : state) : state :=
  set_Op3 (set_value (value (Op3 (cmd s)) * mul) (Op3 (cmd s))) s.

Definition simplify_shift (s : state) : state :=
  if optype_eqb (type (Op3 (cmd s))) o_imm then
    let s :=
      match itype (cmd s) with
      | ARC_add1 | ARC_sub1 => scale_Op3 2 s
      | ARC_add2 | ARC_sub2 => scale_Op3 4 s
      | ARC_add3 | ARC_sub3 => scale_Op3 8 s
      | _ => s
      end in
    match itype (cmd s) with
    | ARC_add1 | ARC_add2 | ARC_add3 => set_itype ARC_add s
    | ARC_sub3 | ARC_sub2 | ARC_sub1 => set_itype ARC_sub s
    | _ => s
    end
  else s.

(** The case [ARC_sub]. *)
Definition simplify_sub (s : state) : state :=
  let c := cmd s in
  if op_is_imm (Op1 c) 0 && negb (Z.land (auxpref c) (aux_f H) =? 0) then
    let s := set_auxpref (Z.land (auxpref c) (Z.lnot (aux_f H))) s in
    let s := set_itype ARC_cmp s in
    let s := set_Op1 (Op2 (cmd s)) s in
    let s := set_Op2 (Op3 (cmd s)) s in
    set_Op3 (set_type o_void (Op3 (cmd s))) s
  else s.

Definition simplify (s : state) : state :=
  match itype (cmd s) with
  | ARC_st | ARC_ld => simplify_ldst s
  | ARC_add1 | ARC_add2 | ARC_add3 | ARC_sub1 | ARC_sub2 | ARC_sub3 =>
      simplify_shift s
  | ARC_sub => simplify_sub s
  | _ => s
  end.

Definition fix_ldst (s : state) : state :=
  let c := cmd s in
  match itype c with
  | ARC_ld | ARC_st =>
      let z := Z.land (auxpref c) (aux_zmask H) in
      if z =? aux_b H then set_Op2 (set_dtyp dt_byte (Op2 c)) s
      else if z =? aux_w H then set_Op2 (set_dtyp dt_word (Op2 c)) s
      else s
  | _ => s
  end.

Definition inline_const (s : state) : state :=
  let c := cmd s in
  if match itype c with ARC_ld => true | _ => false end
     && optype_eqb (type (Op2 c)) o_displ
     && (reg (Op2 c) =? PCL H)
     && (Z.land (auxpref c) (Z.lor (aux_a H) (aux_zmask H)) =? 0)
  then
    let val_ea := uint32 (Z.land (ea c) (Z.lnot 3) + addr (Op2 c)) in
    if isEnabled H val_ea then
      let s := set_Op2 (set_addr val_ea (set_type o_mem (Op2 c))) s in
      set_auxpref (Z.lor (auxpref (cmd s)) (aux_pcload H)) s
    else s
  else s.

(** ** The entry point *)

Definition ana (s : state) : Z * state :=
  let '(sz, s) := if is_a4 H then ana_old s else ana_compact s in
  let s :=
    if negb (sz =? 0) then
      let s := fix_ldst s in
      let s := if negb (Z.land (idpflags H) (ARC_SIMPLIFY H) =? 0)
               then simplify s else s in
      if negb (Z.land (idpflags H) (ARC_INLINECONST H) =? 0)
      then inline_const s else s
    else s in
  (size (cmd s), s).

End Analyser.

(** * Vocabulary of the properties *)

(** The address of the instruction violates the alignment of the
    selected encoding. *)
Definition misaligned (H : host) (s : state) : bool :=
  if is_a4 H then negb (Z.land (ea (cmd s)) 3 =? 0)
  else negb (Z.land (ea (cmd s)) 1 =? 0).

(** The decoder that [ana] selects. *)
Definition decode (H : host) (s : state) : Z * state :=
  if is_a4 H then ana_old H s else ana_compact H s.

(** The 32-bit word that [ana_old] reads. *)
Definition legacy_word (H : host) (s : state) : Z :=
  uint32 (get_long H (uint32 (ea (cmd s) + size (cmd s)))).

(** The short immediate of a 32-bit word: its low nine bits, signed. *)
Definition short_d (code : Z) : Z :=
  let d := Z.land code 0x1FF in if d >=? 0x100 then d - 0x200 else d.

(** The state in which [ana_old] calls [doRegisterInstruction]. *)
Definition legacy_entry (s : state) : state :=
  set_itype ARC_null (set_size (size (cmd s) + 4)
    (set_Op3 (set_dtyp dt_dword (Op3 (cmd s)))
       (set_Op2 (set_dtyp dt_dword (Op2 (cmd s)))
          (set_Op1 (set_dtyp dt_dword (Op1 (cmd s))) s)))).

(** The long immediate of a legacy instruction: the word after it. *)
Definition legacy_limm (H : host) (s : state) : Z := legacy_word H (legacy_entry s).

(** A second [simplify] changes [s] again: a [subN] whose first
    operand is the immediate 0, third operand an immediate, with the
    flag bit set. *)
Definition resimplified (H : host) (s : state) : bool :=
  match itype (cmd s) with
  | ARC_sub1 | ARC_sub2 | ARC_sub3 =>
      optype_eqb (type (Op3 (cmd s))) o_imm
      && op_is_imm (Op1 (cmd s)) 0
      && negb (Z.land (auxpref (cmd s)) (aux_f H) =? 0)
  | _ => false
  end.

(** The groups of instruction codes that [simplify] distinguishes. *)
Definition is_ldst (it : itype_t) : bool :=
  match it with ARC_ld | ARC_st => true | _ => false end.
Definition is_addn (it : itype_t) : bool :=
  match it with ARC_add1 | ARC_add2 | ARC_add3 => true | _ => false end.
Definition is_subn (it : itype_t) : bool :=
  match it with ARC_sub1 | ARC_sub2 | ARC_sub3 => true | _ => false end.
Definition is_sub (it : itype_t) : bool :=
  match it with ARC_sub => true | _ => false end.

(** The register numbers that an operand description takes from the
    instruction word: the register of a register operand, the base of a
    displacement, the two registers of [b, c]. *)
Definition operand_regs (H : host) (code : Z) (opkind : opkind_t) : list Z :=
  match field opkind with
  | fA16 => [reg16 (BITS code 2 0)]
  | fB16 => [reg16 (BITS code 10 8)]
  | fC16 => [reg16 (BITS code 7 5)]
  | fA32 => [BITS code 5 0]
  | fB32 | GENB | fB_S9 => [B32 code]
  | fC32 => [BITS code 11 6]
  | fH16 => [Z.lor (Z.shiftl (BITS code 2 0) 3) (BITS code 7 5)]
  | GENA => [if BITS code 23 22 <=? 1 then BITS code 5 0 else B32 code]
  | GENC | GENC_PCREL =>
      let p := BITS code 23 22 in
      if (p =? 0) || ((p =? 3) && (BITS code 5 5 =? 0))
      then [BITS code 11 6] else []
  | fB_U5 | fB_U6 | fB_U7 => [reg16 (BITS code 10 8)]
  | fBC_IND => [B32 code; BITS code 11 6]
  | fBC16_IND => [reg16 (BITS code 10 8); reg16 (BITS code 7 5)]
  | PCL_U10 => [PCL H]
  | SP_U7 | R_SP => [SP H]
  | R_BLINK => [BLINK H]
  | R_R0 => [R0 H]
  | R_GP | GP_S9 | GP_S10 | GP_S11 => [GP H]
  | S11 => if opkind_is opkind S11 then [] else [GP H]
  | _ => []
  end.

(** The descriptions that [decode_operand] hands to [opreg]. *)
Definition via_opreg (opkind : opkind_t) : bool :=
  match field opkind with
  | fA16 | fB16 | fC16 | fA32 | fB32 | fC32 | fH16
  | GENA | GENB | GENC | GENC_PCREL
  | R_SP | R_BLINK | R_R0 | R_GP => true
  | _ => false
  end.

(** One of the register numbers is the long-immediate code. *)
Definition has_limm (regs : list Z) : bool :=
  existsb (fun r => r =? LIMM) regs.

(** The operand in a slot reads the long immediate: one of its register
    numbers is 62, unless it is a register operand in the first slot of
    an instruction that writes its first operand. *)
Definition slot_fetches (H : host) (it : itype_t) (code : Z) (first : bool)
  (opkind : opkind_t) : bool :=
  has_limm (operand_regs H code opkind)
  && negb (via_opreg opkind && first && canon_chg1 H it).

(** The effect of an operand on the globals: a call of [get_limm] when
    the operand reads the long immediate, nothing otherwise. *)
Definition limm_step (H : host) (f : bool) (s : state) : state :=
  if f then snd (get_limm H s) else s.

(** The long immediate that [get_limm] reads in state [s]: the two
    16-bit words at the cursor, the first in the upper half. *)
Definition limm_at (H : host) (s : state) : Z :=
  let w1 := uint16 (get_word H (uint32 (ea (cmd s) + size (cmd s)))) in
  let w2 := uint16 (get_word H (uint32 (ea (cmd s) + uint16 (size (cmd s) + 2)))) in
  Z.lor (sint32 (Z.shiftl w1 16)) w2.

(** The operands of [cmd] carry their own numbers. *)
Definition numbered (s : state) : Prop :=
  n (Op1 (cmd s)) = 0 /\ n (Op2 (cmd s)) = 1 /\ n (Op3 (cmd s)) = 2.

(** The 16-bit word of the program [k] bytes after the start of the
    instruction. *)
Definition stream_word (H : host) (s : state) (k : Z) : Z :=
  uint16 (get_word H (uint32 (ea (cmd s) + k))).

(** The major opcode: the top five bits of the first word. *)
Definition compact_major (H : host) (s : state) : Z :=
  Z.land (Z.shiftr (stream_word H s 0) 11) 0x1F.

(** Bytes of the instruction proper: four below major opcode 0xC, two
    from 0xC on. *)
Definition compact_length (H : host) (s : state) : Z :=
  if compact_major H s <? 0xC then 4 else 2.

(** The instruction word: one 16-bit word, or two merged, the first in
    the upper half. *)
Definition compact_code (H : host) (s : state) : Z :=
  if compact_major H s <? 0xC
  then Z.lor (uint32 (Z.shiftl (stream_word H s 0) 16)) (stream_word H s 2)
  else stream_word H s 0.

(** The table line that the instruction selects. *)
Definition compact_line (H : host) (s : state)
  : itype_t * Z * (opkind_t * opkind_t * opkind_t) :=
  find_line (compact_code H s)
    (nth (Z.to_nat (compact_major H s)) (arcompact_major H) null_line).

(** Its mnemonic and its three operand descriptions. *)
Definition compact_mnem (H : host) (s : state) : itype_t :=
  fst (fst (compact_line H s)).

Definition compact_opkind (H : host) (s : state) (i : nat) : opkind_t :=
  let '(k0, k1, k2) := snd (compact_line H s) in
  match i with O => k0 | S O => k1 | _ => k2 end.

(** The long immediate: the 32 bits after the instruction proper. *)
Definition compact_limm (H : host) (s : state) : Z :=
  Z.lor (sint32 (Z.shiftl (stream_word H s (compact_length H s)) 16))
        (stream_word H s (compact_length H s + 2)).

(** Slot [i] of the instruction reads the long immediate. *)
Definition compact_fetches (H : host) (s : state) (i : nat) : bool :=
  slot_fetches H (compact_mnem H s) (compact_code H s)
    (match i with O => true | _ => false end) (compact_opkind H s i).

(** [decode_aux] writes [cmd.auxpref] only. *)
Definition aux_frame (s s' : state) : Prop :=
  ea (cmd s') = ea (cmd s) /\ ip (cmd s') = ip (cmd s) /\
  itype (cmd s') = itype (cmd s) /\ size (cmd s') = size (cmd s) /\
  Op1 (cmd s') = Op1 (cmd s) /\ Op2 (cmd s') = Op2 (cmd s) /\
  Op3 (cmd s') = Op3 (cmd s) /\
  got_limm s' = got_limm s /\ g_limm s' = g_limm s.

(** [s] is a state of the decode that started in [e] (where the long
    immediate was not fetched yet): either nothing was read since, or
    the long immediate was read, once. *)
Definition after_limm (H : host) (e s : state) : Prop :=
  ea (cmd s) = ea (cmd e) /\ itype (cmd s) = itype (cmd e) /\
  n (Op1 (cmd s)) = n (Op1 (cmd e)) /\ n (Op2 (cmd s)) = n (Op2 (cmd e)) /\
  n (Op3 (cmd s)) = n (Op3 (cmd e)) /\
  if got_limm s
  then size (cmd s) = uint16 (uint16 (size (cmd e) + 2) + 2) /\
       g_limm s = limm_at H e
  else size (cmd s) = size (cmd e) /\ g_limm s = g_limm e.

(** The state in which [ana_compact] calls [analyze_compact]. *)
Definition compact_entry (H : host) (s : state) : state :=
  clear_got_limm (set_size (compact_length H s) s).

(** Two's complement: the value of a [w]-bit field [v], its top bit
    counting for [- 2 ^ (w - 1)]. *)
Definition sign_extend (w v : Z) : Z :=
  v - 2 ^ w * Z.b2z (Z.testbit v (w - 1)).

(** The operand descriptions of branch targets. *)
Definition is_branch_tag (f : op_fields_t) : bool :=
  match f with
  | S25 | S21 | S25L | S21L | S10 | S9 | S8 | S7 | S13 => true
  | _ => false
  end.

(** The signed displacement that a branch description takes from the
    instruction word. *)
Definition branch_displacement (code : Z) (f : op_fields_t) : Z :=
  match f with
  | S21 | S21L =>
      sign_extend 20 (Z.lor (Z.shiftl (BITS code 15 6) 10) (BITS code 26 17))
  | S25 | S25L =>
      sign_extend 24
        (Z.lor (Z.lor (Z.shiftl (BITS code 15 6) 10) (BITS code 26 17))
               (Z.shiftl (BITS code 3 0) 20))
  | S9 => BITS code 23 17 - 2 ^ 7 * BITS code 15 15
  | S7 => sign_extend 6 (BITS code 5 0)
  | S8 => sign_extend 7 (BITS code 6 0)
  | S10 => sign_extend 9 (BITS code 8 0)
  | S13 => sign_extend 11 (BITS code 10 0)
  | _ => 0
  end.

(** The factor from displacement to bytes, and the descriptions whose
    displacement loses its low bit first. *)
Definition branch_scale (f : op_fields_t) : Z :=
  match f with S13 => 4 | _ => 2 end.

Definition clears_low_bit (f : op_fields_t) : bool :=
  match f with S25L | S21L => true | _ => false end.


(** Every line that points into a subtable indexes it within its
    declared size. *)
Fixpoint lines_in_range (line : arcompact_opcode_t) : bool :=
  match line with
  | mk_opcode (Subfield mnem) _ _ subtable =>
      let high1 := Z.land (Z.shiftr mnem 24) 0x1F in
      let low1 := Z.land (Z.shiftr mnem 16) 0x1F in
      let high2 := Z.land (Z.shiftr mnem 8) 0x1F in
      let low2 := Z.land (Z.shiftr mnem 0) 0x1F in
      let width :=
        (high2 - low2 + 1)
        + (if negb (high1 =? 0) && negb (low1 =? 0) then high1 - low1 + 1 else 0) in
      (2 ^ width <=? Z.of_nat (length subtable))
      && (fix all (t : list arcompact_opcode_t) : bool :=
            match t with
            | [] => true
            | e :: t' => lines_in_range e && all t'
            end) subtable
  | mk_opcode (Itype _) _ _ _ => true
  end.

(** The specification's wording of the guard of [inline_const]: the
    instruction carries an addressing-mode attribute, that is, its
    addressing-mode field is not zero. *)
Definition has_addressing_mode (H : host) (s : state) : bool :=
  negb (Z.land (auxpref (cmd s)) (aux_amask H) =? 0).

(** ** Vocabulary of the operand forms, the passes and the 32-bit
    encoding *)

(** The descriptions of a register in a 3-bit field. *)
Definition is_reg3_field (f : op_fields_t) : bool :=
  match f with fA16 | fB16 | fC16 => true | _ => false end.

(** The descriptions of an unsigned immediate, with the bound of the
    value. *)
Definition imm_bound (f : op_fields_t) : Z :=
  match f with
  | U3 => 8 | U5 => 32 | U6 => 64 | U7 | U7L => 128 | U8 => 256
  | _ => 0
  end.

(** The descriptions [b, u5] of a 16-bit load or store, with the factor
    from the 5-bit field to bytes. *)
Definition short_displ_scale (f : op_fields_t) : Z :=
  match f with fB_U5 => 1 | fB_U6 => 2 | fB_U7 => 4 | _ => 0 end.

(** The branch descriptions whose target is 32-bit aligned. *)
Definition link_or_s13 (f : op_fields_t) : bool :=
  match f with S25L | S21L | S13 => true | _ => false end.

(** What no pass after decoding touches: the address, the cursor and
    the long immediate. *)
Definition pass_frame (s s' : state) : Prop :=
  ea (cmd s') = ea (cmd s) /\ ip (cmd s') = ip (cmd s) /\
  size (cmd s') = size (cmd s) /\
  got_limm s' = got_limm s /\ g_limm s' = g_limm s.

(** The shift that [addN] and [subN] apply to their third operand. *)
Definition shift_count (it : itype_t) : Z :=
  match it with
  | ARC_add1 | ARC_sub1 => 1
  | ARC_add2 | ARC_sub2 => 2
  | ARC_add3 | ARC_sub3 => 3
  | _ => 0
  end.

(** The instruction codes that no pass after decoding looks at. *)
Definition pass_inert (it : itype_t) : bool :=
  negb (is_ldst it || is_addn it || is_subn it || is_sub it).

(** A 32-bit word is followed by a long immediate: a register word
    (not a branch, classes 4 to 6) whose b or c field is 62; in the
    single-operand class only the b field counts, and not for sub-opcode
    0x3F. *)
Definition legacy_reads_limm (code : Z) : bool :=
  let i := Z.land (Z.shiftr code 27) 31 in
  let b := Z.land (Z.shiftr code 15) 63 in
  let c := Z.land (Z.shiftr code 9) 63 in
  if (4 <=? i) && (i <=? 6) then false
  else if i =? 3 then (b =? LIMM) && negb (c =? 0x3F)
  else (b =? LIMM) || (c =? LIMM).

(** The instruction code of the three-operand classes 8 to 31 of the
    32-bit encoding; the classes without a [case] keep [cmd.itype] at 0. *)
Definition legacy_alu_itype (i : Z) : itype_t :=
  match i with
  | 8 => ARC_add | 9 => ARC_adc | 10 => ARC_sub | 11 => ARC_sbc
  | 12 => ARC_and | 13 => ARC_or | 14 => ARC_bic | 15 => ARC_xor
  | 0x10 => ARC_asl | 0x11 => ARC_lsr | 0x12 => ARC_asr | 0x13 => ARC_ror
  | 0x14 => ARC_mul64 | 0x15 => ARC_mulu64
  | 0x1E => ARC_max | 0x1F => ARC_min
  | _ => ARC_null
  end.

(** The classes whose pseudo-instruction heuristic drops the third
    operand when both sources are equal: add, adc, and, or. *)
Definition folds_equal_sources (i : Z) : bool :=
  (i =? 8) || (i =? 9) || (i =? 12) || (i =? 13).

(** ** Inputs for the examples *)

(** A host for the examples.  The properties hold for every host; an
    example needs one. *)
Definition example_host (a4 : bool) (flags : Z) (chg1 : itype_t -> bool)
  (word long : Z -> Z) (enabled : Z -> bool) : host :=
  mk_host 0x1F 0x100 0x60 0x20 0x06 0 0x04 0x02 0x01 0x18 0x08 0x18 0x200
    1 2 0xB 0xA 5 6 9 0xC 0xD 0xE
    0 26 28 31 63
    a4 flags 1 2 chg1 word long enabled.

(** [cmd] as the kernel hands it to the analyser: nothing decoded yet. *)
Definition fresh_op (k : Z) : op_t := mk_op k o_void dt_dword 0 0 0 0 0 0.
Definition fresh_state (a : Z) : state :=
  mk_state (mk_insn a a ARC_null 0 0 (fresh_op 0) (fresh_op 1) (fresh_op 2))
           false 0.

(** Opcodes whose first operand is written, for the examples. *)
Definition example_chg1 (i : itype_t) : bool :=
  match i with
  | ARC_add | ARC_sub | ARC_sub1 | ARC_mov | ARC_ld => true
  | _ => false
  end.

(** A host for the 32-bit encoding: the word [code] at address 0x100,
    [limm] everywhere else. *)
Definition legacy_example (flags code limm : Z) : host :=
  example_host true flags example_chg1 (fun _ => 0)
    (fun a => if a =? 0x100 then code else limm) (fun _ => true).

(** A compact-mode host whose program is the list of 16-bit words
    [words], at address 0x100. *)
Definition compact_example (flags : Z) (words : list Z) : host :=
  example_host false flags example_chg1
    (fun a => nth (Z.to_nat ((a - 0x100) / 2)) words 0)
    (fun _ => 0) (fun _ => true).

(** The target as the specification words it: scale 4 for the
    descriptions with 32-bit aligned targets, the low bit of the
    displacement cleared for those of branch-and-link. *)
Definition stated_branch_target (s : state) (code : Z) (f : op_fields_t) : Z :=
  let link := match f with S25L | S21L | S13 => true | _ => false end in
  let d := branch_displacement code f in
  let d := if link then Z.land d (Z.lnot 1) else d in
  uint32 (Z.land (ip (cmd s)) (Z.lnot 3) + d * (if link then 4 else 2)).


(** * Properties *)

(** The root table has a line for each of the 32 major opcodes, and no
    walk leaves a table. *)
Lemma arcompact_tables_in_range (H : host) :
  length (arcompact_major H) = 32%nat /\
  forallb lines_in_range (arcompact_major H) = true.
Proof. split; vm_compute; reflexivity. Qed.

Tactic Notation "fields" :=
  cbn [cmd got_limm g_limm ea ip itype auxpref size Op1 Op2 Op3
       n type dtyp reg value addr offb secreg membase
       with_cmd set_itype set_auxpref set_size set_Op1 set_Op2 set_Op3
       set_limm clear_got_limm set_type set_dtyp set_reg set_value set_addr
       set_offb set_secreg set_membase Operands set_Operand fst snd
       p_itype p_b p_d p_immediate noop3 isnop negb andb orb].

Tactic Notation "fields" "in" hyp(h) :=
  cbn [cmd got_limm g_limm ea ip itype auxpref size Op1 Op2 Op3
       n type dtyp reg value addr offb secreg membase
       with_cmd set_itype set_auxpref set_size set_Op1 set_Op2 set_Op3
       set_limm clear_got_limm set_type set_dtyp set_reg set_value set_addr
       set_offb set_secreg set_membase Operands set_Operand fst snd
       p_itype p_b p_d p_immediate noop3 isnop negb andb orb] in h.

Ltac split_ifs :=
  repeat match goal with
  | |- context [if ?c then _ else _] => destruct c eqn:?; fields
  end.

Section Legacy.
Variable H : host.

Lemma post_passes_keep (s : state) :
  match itype (cmd s) with
  | ARC_mov | ARC_lsl | ARC_null => True | _ => False end ->
  fix_ldst H s = s /\ simplify H s = s /\ inline_const H s = s.
Proof.
  unfold fix_ldst, simplify, inline_const.
  destruct (itype (cmd s)); cbn; intros []; auto.
Qed.

Lemma ana_keeps (s : state) :
  match itype (cmd (snd (decode H s))) with
  | ARC_mov | ARC_lsl | ARC_null => True | _ => False end ->
  snd (ana H s) = snd (decode H s).
Proof.
  intros Hk. unfold ana. fold (decode H s).
  destruct (decode H s) as [sz s1]. simpl in Hk |- *.
  destruct (post_passes_keep s1 Hk) as (E1 & E2 & E3).
  destruct (negb (sz =? 0)); [|reflexivity].
  rewrite E1.
  destruct (negb (Z.land (idpflags H) (ARC_SIMPLIFY H) =? 0));
    rewrite ?E2; destruct (negb (Z.land (idpflags H) (ARC_INLINECONST H) =? 0));
    rewrite ?E3; reflexivity.
Qed.

(** C3.  A decode at an address that violates the alignment of the
    encoding (low two bits not zero for the 32-bit encoding, low bit
    not zero for the compact one) returns 0 and leaves the whole state
    as it was: the cursor [cmd.size] has not moved, so nothing was read,
    and nothing of the instruction was written.  The entry point [ana]
    then returns the unchanged [cmd.size]. *)
Theorem misaligned_decode_fails (s : state) :
  misaligned H s = true ->
  decode H s = (0, s) /\ ana H s = (size (cmd s), s).
Proof.
  unfold misaligned, decode, ana, ana_old, ana_compact.
  destruct (is_a4 H); intros ->; simpl; auto.
Qed.

Lemma legacy_flags_frame (s : state) (a b c : Z) :
  let s' := snd (legacy_flags H s a b c) in
  itype (cmd s') = itype (cmd s) /\ Op1 (cmd s') = Op1 (cmd s) /\
  Op2 (cmd s') = Op2 (cmd s) /\ Op3 (cmd s') = Op3 (cmd s).
Proof.
  unfold legacy_flags, ua_next_long. split_ifs; auto.
Qed.

Lemma legacy_flags_immediate (s : state) (a b c : Z) :
  fst (legacy_flags H s a b c) =
  if (b =? LIMM) || (c =? LIMM) then legacy_word H s else 0.
Proof.
  unfold legacy_flags, ua_next_long, legacy_word. split_ifs; auto.
Qed.

Lemma legacy_operands_alu (s : state) (code i a b c d li : Z) :
  8 <= i -> 0 <= a -> 0 <= b ->
  let s' := legacy_operands H s code i a b c d li true in
  itype (cmd s') = itype (cmd s) /\
  Op1 (cmd s') = doRegisterOperand a (Op1 (cmd s)) 0 li false /\
  Op2 (cmd s') = doRegisterOperand b (Op2 (cmd s)) d li false /\
  Op3 (cmd s') = Op3 (cmd s).
Proof.
  intros Hi Ha Hb. unfold legacy_operands.
  replace (i =? 0) with false by (symmetry; apply Z.eqb_neq; lia).
  replace (i =? 1) with false by (symmetry; apply Z.eqb_neq; lia).
  replace (i =? 2) with false by (symmetry; apply Z.eqb_neq; lia).
  replace (i =? 7) with false by (symmetry; apply Z.eqb_neq; lia).
  replace (b =? -1) with false by (symmetry; apply Z.eqb_neq; lia).
  replace (a =? -1) with false by (symmetry; apply Z.eqb_neq; lia).
  rewrite andb_false_r. fields. auto.
Qed.

Lemma land63_nonneg (x : Z) : 0 <= Z.land x 63.
Proof. apply Z.land_nonneg. right. lia. Qed.

(** What [ana_old] leaves for an aligned address. *)
Lemma ana_old_aligned (s : state) :
  Z.land (ea (cmd s)) 3 = 0 ->
  let code := legacy_word H s in
  let s0 := set_itype ARC_null (set_size (size (cmd s) + 4)
              (set_Op3 (set_dtyp dt_dword (Op3 (cmd s)))
                 (set_Op2 (set_dtyp dt_dword (Op2 (cmd s)))
                    (set_Op1 (set_dtyp dt_dword (Op1 (cmd s))) s)))) in
  let s1 := match Z.land (Z.shiftr code 27) 31 with
            | 4 | 5 | 6 => doBranchInstruction s0 code
            | _ => doRegisterInstruction H s0 code
            end in
  ana_old H s = (size (cmd s1), s1).
Proof.
  intros Ha. unfold ana_old. rewrite Ha. reflexivity.
Qed.

Lemma uint32_sint32 (x : Z) : uint32 (sint32 x) = uint32 x.
Proof.
  unfold uint32, sint32. cbv zeta.
  destruct (x mod 4294967296 <? 2147483648); Z.div_mod_to_equations; lia.
Qed.

Lemma uint32_idem (x : Z) : uint32 (uint32 x) = uint32 x.
Proof. unfold uint32. apply Z.mod_mod. lia. Qed.

Lemma uint16_small (x : Z) : 0 <= x < 0x10000 -> uint16 x = x.
Proof. intros. unfold uint16. apply Z.mod_small. lia. Qed.

Lemma land63_bound (x : Z) : 0 <= Z.land x 63 < 64.
Proof.
  change 63 with (Z.ones 6). rewrite Z.land_ones by lia.
  apply Z.mod_pos_bound. lia.
Qed.

(** The stages of [doRegisterInstruction] for an ALU class (8 and above)
    whose pseudo-instruction drops the third operand. *)
Lemma doRegisterInstruction_fold (s : state) (code : Z) (it : itype_t) :
  let i := Z.land (Z.shiftr code 27) 31 in
  let a := Z.land (Z.shiftr code 21) 63 in
  let b := Z.land (Z.shiftr code 15) 63 in
  let c := Z.land (Z.shiftr code 9) 63 in
  let imm := if (b =? LIMM) || (c =? LIMM) then legacy_word H s else 0 in
  let p := pseudo it code b c (short_d code) imm in
  8 <= i ->
  major_class (set_auxpref (Z.land code 0x1FF) s) code i a b c (short_d code)
    = Some (set_itype it (set_auxpref (Z.land code 0x1FF) s), (a, b, c)) ->
  noop3 p = true -> isnop p = false -> p_b p = b ->
  let s' := doRegisterInstruction H s code in
  let li := sint32 (p_immediate p) in
  itype (cmd s') = p_itype p /\
  Op1 (cmd s') = doRegisterOperand a (Op1 (cmd s)) 0 li false /\
  Op2 (cmd s') = doRegisterOperand b (Op2 (cmd s)) (p_d p) li false /\
  Op3 (cmd s') = Op3 (cmd s).
Proof.
  intros i a b c imm p Hi Hm Hn3 Hnop Hb. unfold doRegisterInstruction. cbv zeta.
  fold i a b c (short_d code). rewrite Hm.
  set (s1 := set_itype it _).
  pose proof (legacy_flags_frame s1 a b c) as (F0 & F1 & F2 & F3).
  pose proof (legacy_flags_immediate s1 a b c) as FI.
  destruct (legacy_flags H s1 a b c) as [imm' s2]. simpl in F0, F1, F2, F3, FI.
  rewrite F0. subst s1. fields.
  assert (Ei : imm' = imm) by (rewrite FI; reflexivity).
  rewrite Ei. fold p. rewrite Hnop, Hn3, Hb. fields.
  match goal with |- context [legacy_operands H ?s ?c ?i ?a ?b ?c' ?d ?l true] =>
    pose proof (legacy_operands_alu s c i a b c' d l) as L end.
  destruct L as (L0 & L1 & L2 & L3);
    [lia | apply land63_bound | apply land63_bound |].
  rewrite L0, L1, L2, L3. fields. rewrite F1, F2, F3. fields. auto.
Qed.

Lemma ana_old_state (s : state) :
  Z.land (ea (cmd s)) 3 = 0 ->
  8 <= Z.land (Z.shiftr (legacy_word H s) 27) 31 ->
  snd (ana_old H s) =
  doRegisterInstruction H
    (set_itype ARC_null (set_size (size (cmd s) + 4)
       (set_Op3 (set_dtyp dt_dword (Op3 (cmd s)))
          (set_Op2 (set_dtyp dt_dword (Op2 (cmd s)))
             (set_Op1 (set_dtyp dt_dword (Op1 (cmd s))) s)))))
    (legacy_word H s).
Proof.
  intros Ha Hi. rewrite ana_old_aligned by assumption. cbv zeta.
  destruct (Z.land (Z.shiftr (legacy_word H s) 27) 31) as [|p|p]; try lia.
  do 3 (destruct p as [p|p|]; try lia; try reflexivity).
Qed.

Lemma ana_legacy_fold (s : state) :
  is_a4 H = true ->
  Z.land (ea (cmd s)) 3 = 0 ->
  8 <= Z.land (Z.shiftr (legacy_word H s) 27) 31 ->
  match itype (cmd (doRegisterInstruction H (legacy_entry s) (legacy_word H s))) with
  | ARC_mov | ARC_lsl | ARC_null => True | _ => False end ->
  snd (ana H s) = doRegisterInstruction H (legacy_entry s) (legacy_word H s).
Proof.
  intros Ha4 Hal Hi Hk.
  rewrite ana_keeps; unfold decode; rewrite Ha4.
  - apply ana_old_state; assumption.
  - rewrite ana_old_state by assumption. exact Hk.
Qed.

(** C4, amended.  A 32-bit word of the AND class whose two source
    register fields are equal decodes to [ARC_mov]: the second operand
    is the source, the third operand is not written (it keeps what it
    held, with the width set to dword).  This holds for every host, that
    is, whether or not the option [ARC_SIMPLIFY] is set: the folding is
    part of [doRegisterInstruction]. *)
Theorem legacy_and_same_sources_is_mov (s : state) :
  is_a4 H = true ->
  Z.land (ea (cmd s)) 3 = 0 ->
  let code := legacy_word H s in
  let b := Z.land (Z.shiftr code 15) 63 in
  Z.land (Z.shiftr code 27) 31 = 12 ->
  b = Z.land (Z.shiftr code 9) 63 ->
  let s' := snd (ana H s) in
  itype (cmd s') = ARC_mov /\
  Op2 (cmd s') =
    doRegisterOperand b (set_dtyp dt_dword (Op2 (cmd s))) (short_d code)
      (sint32 (if b =? LIMM then legacy_limm H s else 0)) false /\
  Op3 (cmd s') = set_dtyp dt_dword (Op3 (cmd s)).
Proof.
  intros Ha4 Hal code b Hi Hbc s'.
  pose proof (doRegisterInstruction_fold (legacy_entry s) code ARC_and) as F.
  cbv zeta in F. fold code in Hi. rewrite Hi in F. fold b in F. rewrite <- Hbc in F.
  unfold pseudo in F. rewrite Z.eqb_refl, orb_diag in F. fields in F.
  destruct F as (F0 & F1 & F2 & F3); try reflexivity; try lia.
  subst s'. rewrite ana_legacy_fold; try assumption.
  - fold code. rewrite F0, F2, F3. auto.
  - fold code. lia.
  - fold code. rewrite F0. exact I.
Qed.

Lemma doRegisterOperand_reg (code : Z) (x : op_t) (d li : Z) :
  0 <= code < SHIMM_F ->
  type (doRegisterOperand code x d li false) = o_reg /\
  reg (doRegisterOperand code x d li false) = code.
Proof.
  unfold SHIMM_F. intros Hc. unfold doRegisterOperand, SHIMM_F, SHIMM, LIMM.
  replace (code =? 61) with false by (symmetry; apply Z.eqb_neq; lia).
  replace (code =? 63) with false by (symmetry; apply Z.eqb_neq; lia).
  replace (code =? 62) with false by (symmetry; apply Z.eqb_neq; lia).
  fields. split; [reflexivity | apply uint16_small; lia].
Qed.

Lemma doRegisterOperand_shimm (code : Z) (x : op_t) (d li : Z) :
  code = SHIMM_F \/ code = SHIMM ->
  type (doRegisterOperand code x d li false) = o_imm /\
  value (doRegisterOperand code x d li false) = uint32 d.
Proof.
  intros [-> | ->]; split; reflexivity.
Qed.

Lemma doRegisterOperand_limm (x : op_t) (d li : Z) :
  type (doRegisterOperand LIMM x d li false) = o_imm /\
  value (doRegisterOperand LIMM x d li false) = uint32 li.
Proof. split; reflexivity. Qed.

(** C7, amended.  A 32-bit word of the ADD class whose two source
    register fields are equal decodes without a third operand, to
    [ARC_lsl] with operands rD, rS when the source is a register, and to
    [ARC_mov] with the immediate doubled when the source is any of the
    three immediate codes: the short immediates 61 and 63, and the long
    immediate 62. *)
Theorem legacy_add_same_sources (s : state) :
  is_a4 H = true ->
  Z.land (ea (cmd s)) 3 = 0 ->
  let code := legacy_word H s in
  let a := Z.land (Z.shiftr code 21) 63 in
  let b := Z.land (Z.shiftr code 15) 63 in
  Z.land (Z.shiftr code 27) 31 = 8 ->
  b = Z.land (Z.shiftr code 9) 63 ->
  let s' := snd (ana H s) in
  Op3 (cmd s') = set_dtyp dt_dword (Op3 (cmd s)) /\
  (a < SHIMM_F -> type (Op1 (cmd s')) = o_reg /\ reg (Op1 (cmd s')) = a) /\
  (b < SHIMM_F ->
     itype (cmd s') = ARC_lsl /\
     type (Op2 (cmd s')) = o_reg /\ reg (Op2 (cmd s')) = b) /\
  (b = SHIMM_F \/ b = SHIMM ->
     itype (cmd s') = ARC_mov /\
     type (Op2 (cmd s')) = o_imm /\
     value (Op2 (cmd s')) = uint32 (2 * short_d code)) /\
  (b = LIMM ->
     itype (cmd s') = ARC_mov /\
     type (Op2 (cmd s')) = o_imm /\
     value (Op2 (cmd s')) = uint32 (2 * legacy_limm H s)).
Proof.
  intros Ha4 Hal code a b Hi Hbc s'.
  pose proof (land63_bound (Z.shiftr code 21)) as Ba. fold a in Ba.
  pose proof (land63_bound (Z.shiftr code 15)) as Bb. fold b in Bb.
  pose proof (doRegisterInstruction_fold (legacy_entry s) code ARC_add) as F.
  cbv zeta in F. fold code in Hi. rewrite Hi in F. fold a b in F. rewrite <- Hbc in F.
  unfold pseudo in F. rewrite Z.eqb_refl, orb_diag in F.
  assert (Hs : snd (ana H s) =
               doRegisterInstruction H (legacy_entry s) (legacy_word H s)).
  { apply ana_legacy_fold; try assumption; fold code; [lia|].
    destruct (b >=? SHIMM_F); fields in F;
      destruct F as (F0 & _); try reflexivity; try lia; rewrite F0; exact I. }
  subst s'. rewrite Hs. fold code. clear Hs.
  destruct (b >=? SHIMM_F) eqn:Hge; fields in F;
    destruct F as (F0 & F1 & F2 & F3); try reflexivity; try lia;
    rewrite F0, F1, F2, F3; fields.
  - apply Z.geb_le in Hge. split; [reflexivity|]. split.
    { intros Hlt. apply doRegisterOperand_reg. lia. }
    split; [lia|]. split.
    + intros Hb. split; [reflexivity|].
      match goal with |- type (doRegisterOperand ?r ?x ?d ?l false) = _ /\ _ =>
        destruct (doRegisterOperand_shimm r x d l Hb) as [T V] end.
      rewrite T, V. split; [reflexivity | f_equal; lia].
    + intros ->. split; [reflexivity|].
      match goal with |- type (doRegisterOperand LIMM ?x ?d ?l false) = _ /\ _ =>
        destruct (doRegisterOperand_limm x d l) as [T V] end.
      rewrite T, V. split; [reflexivity|].
      rewrite uint32_sint32, uint32_idem. unfold legacy_limm. cbn [Z.eqb LIMM Pos.eqb].
      f_equal; lia.
  - assert (Hlt : b < SHIMM_F) by (destruct (Z.geb_spec b SHIMM_F); [discriminate | lia]).
    split; [reflexivity|]. split.
    { intros Hlt'. apply doRegisterOperand_reg. lia. }
    split.
    + intros _. split; [reflexivity|]. apply doRegisterOperand_reg. lia.
    + unfold SHIMM_F, SHIMM, LIMM in *. split; intros; lia.
Qed.

Lemma single_operand_undefined (s : state) (a b d : Z) :
  d <> 0 -> d <> 1 -> d <> 2 -> single_operand s a b 0x3F d = None.
Proof.
  intros H0 H1 H2. unfold single_operand.
  destruct d as [|p|p]; try congruence; try reflexivity.
  destruct p as [[p|p|]|[p|p|]|]; try congruence; reflexivity.
Qed.

(** C6, as the code behaves.  For a word of the single-operand class
    (major class 3, sub-opcode 0x3F) whose low nine bits are not 0, 1
    or 2, [doRegisterInstruction] returns early and [ana_old] returns
    [cmd.size], which is 4, with [cmd.itype] left at 0: the result is
    not the zero length. *)
Theorem legacy_undefined_single_operand (s : state) :
  Z.land (ea (cmd s)) 3 = 0 ->
  size (cmd s) = 0 ->
  let code := legacy_word H s in
  Z.land (Z.shiftr code 27) 31 = 3 ->
  Z.land (Z.shiftr code 9) 63 = 0x3F ->
  Z.land code 0x1FF <> 0 -> Z.land code 0x1FF <> 1 -> Z.land code 0x1FF <> 2 ->
  fst (ana_old H s) = 4 /\
  itype (cmd (snd (ana_old H s))) = ARC_null /\
  (is_a4 H = true -> fst (ana H s) = 4).
Proof.
  intros Hal Hsz code Hi Hc D0 D1 D2.
  assert (Hd : short_d code <> 0 /\ short_d code <> 1 /\ short_d code <> 2).
  { assert (B : 0 <= Z.land code 511 < 512).
    { change 511 with (Z.ones 9). rewrite Z.land_ones by lia.
      apply Z.mod_pos_bound. lia. }
    unfold short_d. cbv zeta. destruct (Z.geb_spec (Z.land code 511) 256); lia. }
  destruct Hd as (E0 & E1 & E2).
  assert (Ho : ana_old H s =
               (4, set_auxpref (Z.land code 0x1FF) (legacy_entry s))).
  { rewrite ana_old_aligned by assumption. cbv zeta. fold code. rewrite Hi.
    unfold doRegisterInstruction. cbv zeta. rewrite Hi, Hc. cbn [major_class].
    fold (short_d code). rewrite single_operand_undefined by assumption.
    fields. unfold legacy_entry. f_equal. rewrite Hsz. reflexivity. }
  rewrite Ho. fields. split; [reflexivity|]. split; [reflexivity|].
  intros Ha4. unfold ana. rewrite Ha4, Ho. cbn [Z.eqb negb].
  set (s1 := set_auxpref _ _).
  destruct (post_passes_keep s1 I) as (P1 & P2 & P3).
  rewrite P1.
  destruct (negb (Z.land (idpflags H) (ARC_SIMPLIFY H) =? 0));
    rewrite ?P2; destruct (negb (Z.land (idpflags H) (ARC_INLINECONST H) =? 0));
    rewrite ?P3; subst s1; unfold legacy_entry; fields; rewrite Hsz; reflexivity.
Qed.

End Legacy.

Section Passes.
Variable H : host.

(** C10, amended.  [inline_const] leaves the state unchanged unless
    the instruction is a load whose second operand is a displacement
    from PCL, with neither the [aux_a] bit nor an access width set, and
    whose literal address is enabled.  The test is on the bit [aux_a],
    not on the whole addressing-mode field: an addressing mode that
    does not contain that bit does not stop the pass.  When the pass
    fires it changes the type and the address of the second operand and
    sets [aux_pcload] in [cmd.auxpref], nothing else. *)
Theorem inline_const_frame (s : state) :
  let c := cmd s in
  let val_ea := uint32 (Z.land (ea c) (Z.lnot 3) + addr (Op2 c)) in
  (itype c <> ARC_ld \/ type (Op2 c) <> o_displ \/ reg (Op2 c) <> PCL H \/
   Z.land (auxpref c) (aux_a H) <> 0 \/ Z.land (auxpref c) (aux_zmask H) <> 0 \/
   isEnabled H val_ea = false ->
   inline_const H s = s) /\
  (itype c = ARC_ld -> type (Op2 c) = o_displ -> reg (Op2 c) = PCL H ->
   Z.land (auxpref c) (aux_a H) = 0 -> Z.land (auxpref c) (aux_zmask H) = 0 ->
   isEnabled H val_ea = true ->
   inline_const H s =
   set_auxpref (Z.lor (auxpref c) (aux_pcload H))
     (set_Op2 (set_addr val_ea (set_type o_mem (Op2 c))) s)).
Proof.
  intros c val_ea. unfold inline_const. fold c. fold val_ea.
  rewrite Z.land_lor_distr_r.
  split.
  - intros Hpre.
    destruct (itype c) eqn:Ei; try reflexivity. cbn [andb].
    destruct (type (Op2 c)) eqn:Et; try reflexivity. cbn [optype_eqb andb].
    destruct (Z.eqb_spec (reg (Op2 c)) (PCL H)) as [Er|Er]; [|reflexivity].
    cbn [andb].
    destruct (Z.eqb_spec (Z.lor (Z.land (auxpref c) (aux_a H))
                                (Z.land (auxpref c) (aux_zmask H))) 0) as [E0|E0];
      [|reflexivity].
    apply Z.lor_eq_0_iff in E0. destruct E0 as [Ea Ez].
    destruct (isEnabled H val_ea) eqn:Een; [|reflexivity].
    exfalso. destruct Hpre as [N|[N|[N|[N|[N|N]]]]]; congruence.
  - intros Ei Et Er Ea Ez Een.
    rewrite Ei, Et, Er, Ea, Ez, Een, Z.eqb_refl. reflexivity.
Qed.

Lemma land_uint16_lnot (x m : Z) :
  Z.land (uint16 (Z.land x (Z.lnot m))) m = 0.
Proof.
  unfold uint16. change 0x10000 with (2 ^ 16).
  rewrite <- Z.land_ones by lia.
  rewrite <- Z.land_assoc, (Z.land_comm (Z.ones 16)), Z.land_assoc.
  rewrite <- (Z.land_assoc x), (Z.land_comm (Z.lnot m)), Z.land_lnot_diag.
  rewrite Z.land_0_r. reflexivity.
Qed.

Lemma simplify_dispatch (s : state) :
  simplify H s =
  let it := itype (cmd s) in
  if is_ldst it then simplify_ldst H s
  else if is_addn it || is_subn it then simplify_shift s
  else if is_sub it then simplify_sub H s
  else s.
Proof. unfold simplify. destruct (itype (cmd s)); reflexivity. Qed.

Lemma simplify_ldst_scaled (mul : Z) (s : state) :
  aux_as H <> 0 ->
  simplify_ldst H (scale_Op2 H mul s) = scale_Op2 H mul s.
Proof.
  intros Has. unfold simplify_ldst, scale_Op2. fields.
  rewrite land_uint16_lnot.
  replace (0 =? aux_as H) with false by (symmetry; apply Z.eqb_neq; lia).
  rewrite andb_false_r. reflexivity.
Qed.

Lemma simplify_ldst_cases (s : state) :
  simplify_ldst H s = s \/ simplify_ldst H s = scale_Op2 H 2 s
  \/ simplify_ldst H s = scale_Op2 H 4 s.
Proof.
  unfold simplify_ldst. cbv zeta.
  repeat match goal with
         | |- context [if ?c then _ else _] => destruct c
         end; auto.
Qed.

Lemma simplify_ldst_idem (s : state) :
  aux_as H <> 0 ->
  simplify_ldst H (simplify_ldst H s) = simplify_ldst H s /\
  itype (cmd (simplify_ldst H s)) = itype (cmd s).
Proof.
  intros Has.
  destruct (simplify_ldst_cases s) as [E|[E|E]]; rewrite E;
    auto using simplify_ldst_scaled.
Qed.

Lemma simplify_shift_addn (s : state) :
  is_addn (itype (cmd s)) = true ->
  simplify_shift s = s \/ itype (cmd (simplify_shift s)) = ARC_add.
Proof.
  intros Hc. unfold simplify_shift.
  destruct (optype_eqb (type (Op3 (cmd s))) o_imm); [right | left; reflexivity].
  destruct (itype (cmd s)) eqn:Ei; try discriminate Hc;
    unfold scale_Op3; fields; rewrite Ei; reflexivity.
Qed.

Lemma simplify_shift_subn (s : state) :
  is_subn (itype (cmd s)) = true ->
  simplify_shift s = s \/
  (optype_eqb (type (Op3 (cmd s))) o_imm = true /\
   itype (cmd (simplify_shift s)) = ARC_sub /\
   Op1 (cmd (simplify_shift s)) = Op1 (cmd s) /\
   auxpref (cmd (simplify_shift s)) = auxpref (cmd s)).
Proof.
  intros Hc. unfold simplify_shift.
  destruct (optype_eqb (type (Op3 (cmd s))) o_imm); [right | left; reflexivity].
  destruct (itype (cmd s)) eqn:Ei; try discriminate Hc;
    unfold scale_Op3; fields; rewrite Ei; repeat split.
Qed.

Lemma simplify_sub_cases (s : state) :
  (op_is_imm (Op1 (cmd s)) 0
   && negb (Z.land (auxpref (cmd s)) (aux_f H) =? 0) = false /\
   simplify_sub H s = s) \/
  itype (cmd (simplify_sub H s)) = ARC_cmp.
Proof.
  unfold simplify_sub. cbv zeta.
  destruct (op_is_imm (Op1 (cmd s)) 0
            && negb (Z.land (auxpref (cmd s)) (aux_f H) =? 0));
    [right; reflexivity | left; split; reflexivity].
Qed.

(** C5, amended.  Where the scaled addressing mode is a non-zero
    value of its field, a second [simplify] changes nothing, except for
    a [sub1], [sub2] or [sub3] with an immediate third operand, first
    operand the immediate 0 and the flag bit set: its first pass yields
    [sub.f 0,b,c], which a second pass turns into [cmp]. *)
Theorem simplify_idempotent_unless_resimplified (s : state) :
  aux_as H <> 0 ->
  resimplified H s = false ->
  simplify H (simplify H s) = simplify H s.
Proof.
  intros Has Hr.
  rewrite (simplify_dispatch s). cbv zeta.
  destruct (is_ldst (itype (cmd s))) eqn:C1.
  { destruct (simplify_ldst_idem s Has) as [E I].
    rewrite simplify_dispatch. cbv zeta. rewrite I, C1. exact E. }
  destruct (is_addn (itype (cmd s))) eqn:C2.
  { cbn [orb]. destruct (simplify_shift_addn s C2) as [E|E].
    - rewrite E, simplify_dispatch. cbv zeta. rewrite C1, C2. exact E.
    - rewrite simplify_dispatch. cbv zeta. rewrite E. reflexivity. }
  destruct (is_subn (itype (cmd s))) eqn:C3.
  { cbn [orb]. destruct (simplify_shift_subn s C3) as [E|(E3 & Ei & E1 & Ea)].
    - rewrite E, simplify_dispatch. cbv zeta. rewrite C1, C2, C3. exact E.
    - rewrite simplify_dispatch. cbv zeta. rewrite Ei. cbn [is_ldst is_addn is_subn is_sub orb].
      destruct (simplify_sub_cases (simplify_shift s)) as [[_ E]|E]; [exact E|].
      exfalso. unfold simplify_sub in E. cbv zeta in E. rewrite E1, Ea in E.
      unfold resimplified in Hr.
      destruct (itype (cmd s)); try discriminate C3;
        rewrite E3 in Hr; cbn [andb] in Hr; rewrite Hr in E; congruence. }
  cbn [orb].
  destruct (is_sub (itype (cmd s))) eqn:C4.
  { destruct (simplify_sub_cases s) as [[_ E]|E].
    - rewrite E, simplify_dispatch. cbv zeta. rewrite C1, C2, C3, C4. exact E.
    - rewrite simplify_dispatch. cbv zeta. rewrite E. reflexivity. }
  rewrite simplify_dispatch. cbv zeta. rewrite C1, C2, C3, C4. reflexivity.
Qed.

End Passes.

Lemma op_fields_eq_none (f : op_fields_t) : f = f_none \/ f <> f_none.
Proof. destruct f; (left; reflexivity) || (right; discriminate). Qed.

Section Compact.
Variable H : host.

Lemma get_limm_cached (s : state) :
  got_limm s = true -> get_limm H s = (g_limm s, s).
Proof. intros E. unfold get_limm. rewrite E. reflexivity. Qed.

Lemma get_limm_value (s : state) :
  g_limm (snd (get_limm H s)) = fst (get_limm H s) /\
  got_limm (snd (get_limm H s)) = true.
Proof.
  unfold get_limm. destruct (got_limm s) eqn:E; fields; auto.
Qed.

Lemma opreg_step (s : state) (x : op_t) (r : Z) :
  let f := (r =? LIMM) && negb ((n x =? 0) && canon_chg1 H (itype (cmd s))) in
  fst (opreg H s x r) = limm_step H f s /\
  n (snd (opreg H s x r)) = n x /\
  (f = true -> type (snd (opreg H s x r)) = o_imm /\
               value (snd (opreg H s x r)) = uint32 (g_limm (limm_step H f s))).
Proof.
  unfold opreg, limm_step. cbv zeta. fields.
  destruct (r =? LIMM); cbn [negb andb].
  - destruct ((n x =? 0) && canon_chg1 H (itype (cmd s))); fields; cbn [negb].
    + repeat split; try reflexivity; intros; discriminate.
    + destruct (get_limm_value s) as [V _].
      destruct (get_limm H s) as [v s1]. fields. simpl in V. subst v. auto.
  - repeat split; try reflexivity; intros; discriminate.
Qed.

Lemma opdisp_step (s : state) (x : op_t) (r disp : Z) :
  fst (opdisp H s x r disp) = limm_step H (r =? LIMM) s /\
  n (snd (opdisp H s x r disp)) = n x.
Proof.
  unfold opdisp, limm_step.
  destruct (r =? LIMM); cbn [negb]; [|split; reflexivity].
  destruct (get_limm H s) as [v s1]. split; reflexivity.
Qed.

Lemma opimm_n (x : op_t) (v : Z) : n (opimm x v) = n x.
Proof. reflexivity. Qed.

Lemma opbranch_n (s : state) (x : op_t) (v : Z) : n (opbranch s x v) = n x.
Proof. reflexivity. Qed.

Lemma doIndirectOperand_n (s : state) (b c : Z) (x : op_t) (d li : Z) (sp : bool) :
  n (doIndirectOperand H s b c x d li sp) = n x.
Proof.
  unfold doIndirectOperand. split_ifs; reflexivity.
Qed.

Lemma BITS_bound (code h l : Z) :
  0 <= l <= h -> 0 <= BITS code h l < 2 ^ (h - l + 1).
Proof.
  intros Hl. unfold BITS.
  replace (Z.shiftl 1 (h - l + 1) - 1) with (Z.ones (h - l + 1))
    by (rewrite Z.ones_equiv, Z.shiftl_1_l; lia).
  rewrite Z.land_ones by lia. apply Z.mod_pos_bound.
  apply Z.pow_pos_nonneg; lia.
Qed.

Lemma reg16_not_limm (code h l : Z) :
  0 <= l -> h = l + 2 -> (reg16 (BITS code h l) =? LIMM) = false.
Proof.
  intros Hl ->. pose proof (BITS_bound code (l + 2) l ltac:(lia)) as B.
  replace (l + 2 - l + 1) with 3 in B by lia. change (2 ^ 3) with 8 in B.
  unfold reg16, LIMM. apply Z.eqb_neq.
  destruct (BITS code (l + 2) l >? 3); lia.
Qed.

Lemma limm_step_false (s : state) : limm_step H false s = s.
Proof. reflexivity. Qed.

Ltac by_opreg :=
  match goal with
  | |- exists x', Some (opreg H ?s ?x ?r) = Some (limm_step H ?f ?s, x') /\ _ =>
      destruct (opreg_step s x r) as (E1 & E2 & E3);
      exists (snd (opreg H s x r));
      cbv zeta in E1, E3; rewrite ?orb_false_r;
      split; [rewrite <- E1, <- surjective_pairing; reflexivity |];
      split; [exact E2 | intros _ F; apply E3; exact F]
  end.

Ltac by_opdisp :=
  match goal with
  | |- exists x', Some (opdisp H ?s ?x ?r ?d) = Some (limm_step H ?f ?s, x') /\ _ =>
      destruct (opdisp_step s x r d) as (E1 & E2);
      exists (snd (opdisp H s x r d));
      rewrite ?orb_false_r, ?andb_true_r;
      split; [rewrite <- E1, <- surjective_pairing; reflexivity |];
      split; [exact E2 | intros F; discriminate F]
  end.

Ltac by_pure :=
  match goal with
  | |- exists x', Some (?s, ?y) = Some (limm_step H false ?s, x') /\ _ =>
      exists y; split; [reflexivity|];
      split; [reflexivity | intros F G; discriminate]
  end.

Lemma decode_field_step (s : state) (code : Z) (x : op_t) (k : opkind_t) :
  field k <> f_none ->
  let f := slot_fetches H (itype (cmd s)) code (n x =? 0) k in
  exists x',
    decode_field H s code x k = Some (limm_step H f s, x') /\
    n x' = n x /\
    (via_opreg k = true -> f = true ->
     value x' = uint32 (g_limm (limm_step H f s))).
Proof.
  destruct k as [fld ind]. cbn [field]. intros Hf.
  unfold slot_fetches, has_limm, operand_regs, via_opreg, decode_field.
  cbn [field].
  destruct fld; try congruence; cbv zeta; cbn [existsb andb negb];
    try by_opreg; try by_opdisp; try by_pure.
  (* fB_U5, fB_U6, fB_U7 *)
  1-3: unfold decode_fB_u; cbv zeta; by_opdisp.
  (* GENC, GENC_PCREL *)
  1-2: unfold decode_genc; cbv zeta;
    destruct (negb (BITS code 23 22 =? 2)) eqn:Ep;
    [ destruct ((BITS code 23 22 =? 0)
                || (BITS code 23 22 =? 3) && (BITS code 5 5 =? 0)) eqn:Em;
      cbn [existsb andb negb field]
    | replace ((BITS code 23 22 =? 0)
               || (BITS code 23 22 =? 3) && (BITS code 5 5 =? 0)) with false
        by (apply negb_false_iff, Z.eqb_eq in Ep; rewrite Ep; reflexivity);
      cbn [existsb andb negb field] ];
    try (destruct (opreg_step s x (BITS code 11 6)) as (E1 & E2 & E3);
         destruct (opreg H s x (BITS code 11 6)) as [s1 x1];
         cbn [fst snd] in E1, E2, E3; cbv zeta in E1, E3;
         rewrite orb_false_r; subst s1);
    try (destruct (type x1) eqn:Et);
    try (eexists; split; [reflexivity|]; split; [assumption |];
         intros _ F; destruct (E3 F) as [T V]; fields; try exact V; congruence);
    try (destruct (type (opimm x _)) eqn:Et; try discriminate Et);
    try (eexists; split; [reflexivity|]; split; [reflexivity |];
         intros _ F; discriminate F).
  (* fBC_IND *)
  - rewrite orb_false_r, andb_true_r. unfold limm_step.
    destruct ((B32 code =? LIMM) || (BITS code 11 6 =? LIMM)).
    + destruct (get_limm H s) as [li s1]. eexists. split; [reflexivity|].
      split; [apply doIndirectOperand_n | intros F; discriminate F].
    + eexists. split; [reflexivity|].
      split; [apply doIndirectOperand_n | intros F; discriminate F].
  (* fBC16_IND *)
  - rewrite !reg16_not_limm by lia. cbn [orb andb].
    eexists. split; [reflexivity|].
    split; [apply doIndirectOperand_n | intros F; discriminate F].
  (* GP_S9, GP_S10, GP_S11, S11 *)
  - unfold decode_gp, opkind_is; cbv zeta;
      cbn [field op_fields_value Z.eqb Pos.eqb andb negb]. by_opdisp.
  - unfold decode_gp, opkind_is; cbv zeta;
      cbn [field op_fields_value Z.eqb Pos.eqb andb negb]; by_opdisp.
  - unfold decode_gp, opkind_is; cbv zeta;
      cbn [field op_fields_value Z.eqb Pos.eqb andb negb]; by_opdisp.
  - unfold decode_gp, opkind_is; cbv zeta.
    destruct ind;
      cbn [field o_ind op_fields_value Z.eqb Pos.eqb andb negb existsb].
    + by_opdisp.
    + by_pure.
Qed.

Lemma set_Operand_same (s : state) (i : nat) :
  set_Operand i (Operands s i) s = s.
Proof.
  destruct s as [[? ? ? ? ? ? ? ?] ? ?].
  destruct i as [|[|i]]; reflexivity.
Qed.

Lemma decode_operand_step (s : state) (code : Z) (i : nat) (k : opkind_t) :
  let f := slot_fetches H (itype (cmd s)) code (n (Operands s i) =? 0) k in
  exists x',
    decode_operand H s code i k = set_Operand i x' (limm_step H f s) /\
    n x' = n (Operands s i) /\
    (via_opreg k = true -> f = true ->
     value x' = uint32 (g_limm (limm_step H f s))).
Proof.
  intros f. unfold decode_operand. cbv zeta.
  destruct k as [fld ind].
  destruct (op_fields_eq_none fld) as [-> | Hn].
  - assert (Ef : f = false) by reflexivity. rewrite Ef.
    destruct ind; unfold opkind_is; cbn.
    + exists (Operands s i). rewrite set_Operand_same.
      repeat split; intros; discriminate.
    + eexists. split; [reflexivity|]. split; [reflexivity|].
      intros; discriminate.
  - replace (opkind_is {| field := fld; o_ind := ind |} f_none) with false
      by (unfold opkind_is; destruct fld; try reflexivity; congruence).
    destruct (decode_field_step s code (Operands s i)
                {| field := fld; o_ind := ind |} Hn) as (x1 & E & N & V).
    fold f in E, V. rewrite E. cbn [o_ind].
    destruct ind.
    + destruct (type x1) eqn:Et;
        try (exists x1; repeat split; assumption).
      * eexists. split; [reflexivity|]. split; [exact N | exact V].
      * destruct (itype (cmd (limm_step H f s)));
          (eexists; split; [reflexivity|]; split; [exact N | exact V]).
    + exists x1. repeat split; assumption.
Qed.

Lemma aux_frame_refl (s : state) : aux_frame s s.
Proof. unfold aux_frame. repeat split. Qed.

Lemma aux_frame_set (s s' : state) (v : Z) :
  aux_frame s s' -> aux_frame s (set_auxpref v s').
Proof. unfold aux_frame. fields. tauto. Qed.

Lemma let_pair_frame (P : state -> Prop) (p : state * Z)
  (body : state -> Z -> state) :
  P (fst p) -> (forall s a, P s -> P (body s a)) ->
  P (let '(s, a) := p in body s a).
Proof. destruct p as [s a]. intros Hp Hb. apply Hb. exact Hp. Qed.

Lemma decode_aux_frame_from (s s0 : state) (code aux : Z) :
  aux_frame s s0 -> aux_frame s (decode_aux H s0 code aux).
Proof.
  revert aux. unfold decode_aux. cbv zeta. intros aux H0.
  revert s0 aux H0.
  do 11 (intros s0 aux H0;
         apply (let_pair_frame (aux_frame s));
         [ destruct (has aux _); cbn [fst]; [|exact H0];
           repeat match goal with
                  | |- aux_frame _ (set_auxpref _ _) => apply aux_frame_set
                  | |- aux_frame _ (if ?c then _ else _) => destruct c
                  end; exact H0
         | clear s0 aux H0 ]).
  intros s0 _ H0. exact H0.
Qed.

Lemma decode_aux_frame (s : state) (code aux : Z) :
  aux_frame s (decode_aux H s code aux).
Proof. apply decode_aux_frame_from, aux_frame_refl. Qed.

Lemma after_limm_refl (e : state) : got_limm e = false -> after_limm H e e.
Proof. intros E. unfold after_limm. rewrite E. repeat split. Qed.

Lemma after_limm_step (e s : state) (f : bool) :
  after_limm H e s ->
  after_limm H e (limm_step H f s) /\
  got_limm (limm_step H f s) = got_limm s || f /\
  Op1 (cmd (limm_step H f s)) = Op1 (cmd s) /\
  Op2 (cmd (limm_step H f s)) = Op2 (cmd s) /\
  Op3 (cmd (limm_step H f s)) = Op3 (cmd s).
Proof.
  intros (Ea & Ei & N1 & N2 & N3 & A). unfold limm_step.
  destruct f; [| rewrite orb_false_r; unfold after_limm; repeat split; assumption].
  rewrite orb_true_r. unfold get_limm.
  destruct (got_limm s) eqn:Eg.
  - fields. unfold after_limm. rewrite Eg. repeat split; try assumption; apply A.
  - unfold ua_next_word. fields. unfold after_limm. fields.
    destruct A as [As Ag].
    repeat split; try assumption.
    + rewrite As. reflexivity.
    + unfold limm_at. rewrite Ea, As. reflexivity.
Qed.

Lemma after_limm_operand (e s : state) (i : nat) (x : op_t) :
  after_limm H e s -> n x = n (Operands s i) ->
  after_limm H e (set_Operand i x s).
Proof.
  intros (Ea & Ei & N1 & N2 & N3 & A) Nx. unfold after_limm.
  destruct i as [|[|i]]; fields; cbn [Operands] in Nx;
    repeat split; try assumption; congruence.
Qed.

(** The three calls of [decode_operand] in [analyze_compact]. *)
Lemma decode_operands_limm (e : state) (code : Z) (k0 k1 k2 : opkind_t) :
  got_limm e = false -> numbered e ->
  let it := itype (cmd e) in
  let f0 := slot_fetches H it code true k0 in
  let f1 := slot_fetches H it code false k1 in
  let f2 := slot_fetches H it code false k2 in
  let s' := decode_operand H
              (decode_operand H (decode_operand H e code 0 k0) code 1 k1)
              code 2 k2 in
  after_limm H e s' /\
  got_limm s' = f0 || f1 || f2 /\
  (via_opreg k0 = true -> f0 = true ->
   value (Op1 (cmd s')) = uint32 (limm_at H e)) /\
  (via_opreg k1 = true -> f1 = true ->
   value (Op2 (cmd s')) = uint32 (limm_at H e)) /\
  (via_opreg k2 = true -> f2 = true ->
   value (Op3 (cmd s')) = uint32 (limm_at H e)).
Proof.
  intros Eg (M1 & M2 & M3) it f0 f1 f2.
  pose proof (after_limm_refl e Eg) as A0.
  (* slot 0 *)
  destruct (decode_operand_step e code 0 k0) as (x0 & E0 & X0 & V0).
  cbn [Operands] in E0, X0, V0. rewrite M1 in E0, V0. cbn [Z.eqb] in E0, V0.
  fold it f0 in E0, V0.
  destruct (after_limm_step e e f0 A0) as (B0 & G0 & _ & P02 & P03).
  set (t0 := limm_step H f0 e) in *.
  assert (A1 : after_limm H e (set_Operand 0 x0 t0)).
  { apply after_limm_operand; [exact B0 |]. cbn [Operands].
    destruct B0 as (_ & _ & N & _). congruence. }
  rewrite E0. set (s1 := set_Operand 0 x0 t0) in *.
  assert (G1 : got_limm s1 = f0) by (subst s1; fields; rewrite G0, Eg; reflexivity).
  (* slot 1 *)
  destruct (decode_operand_step s1 code 1 k1) as (x1 & E1 & X1 & V1).
  assert (I1 : itype (cmd s1) = it) by (apply A1).
  assert (N1 : n (Operands s1 1) = 1).
  { cbn [Operands]. destruct A1 as (_ & _ & _ & N & _). congruence. }
  rewrite I1, N1 in E1, V1. cbn [Z.eqb] in E1, V1. fold f1 in E1, V1.
  destruct (after_limm_step e s1 f1 A1) as (B1 & H1 & P11 & _ & P13).
  set (t1 := limm_step H f1 s1) in *.
  assert (A2 : after_limm H e (set_Operand 1 x1 t1)).
  { apply after_limm_operand; [exact B1 |]. cbn [Operands].
    destruct B1 as (_ & _ & _ & N & _).
    destruct A1 as (_ & _ & _ & N' & _). cbn [Operands] in X1. congruence. }
  rewrite E1. set (s2 := set_Operand 1 x1 t1) in *.
  assert (G2 : got_limm s2 = f0 || f1) by (subst s2; fields; rewrite H1, G1; reflexivity).
  (* slot 2 *)
  destruct (decode_operand_step s2 code 2 k2) as (x2 & E2 & X2 & V2).
  assert (I2 : itype (cmd s2) = it) by (apply A2).
  assert (N2 : n (Operands s2 2) = 2).
  { cbn [Operands]. destruct A2 as (_ & _ & _ & _ & N & _). congruence. }
  rewrite I2, N2 in E2, V2. cbn [Z.eqb] in E2, V2. fold f2 in E2, V2.
  destruct (after_limm_step e s2 f2 A2) as (B2 & H2 & P21 & P22 & _).
  set (t2 := limm_step H f2 s2) in *.
  assert (A3 : after_limm H e (set_Operand 2 x2 t2)).
  { apply after_limm_operand; [exact B2 |]. cbn [Operands].
    destruct B2 as (_ & _ & _ & _ & N & _).
    destruct A2 as (_ & _ & _ & _ & N' & _). cbn [Operands] in X2. congruence. }
  rewrite E2. set (s3 := set_Operand 2 x2 t2) in *.
  assert (G3 : got_limm s3 = f0 || f1 || f2)
    by (subst s3; fields; rewrite H2, G2; reflexivity).
  split; [exact A3|]. split; [exact G3|].
  assert (L : forall t f, after_limm H e t -> got_limm t = f -> f = true ->
                          g_limm t = limm_at H e).
  { intros t f (_ & _ & _ & _ & _ & A) Gt Ef. rewrite Gt, Ef in A. apply A. }
  split; [|split].
  - intros Hv Hf. subst s3 s2 s1. fields. rewrite P21. fields. rewrite P11. fields.
    rewrite (V0 Hv Hf). f_equal.
    apply (L t0 (got_limm e || f0) B0 G0). rewrite Hf. apply orb_true_r.
  - intros Hv Hf. subst s3 s2. fields. rewrite P22. fields.
    rewrite (V1 Hv Hf). f_equal.
    apply (L t1 (got_limm s1 || f1) B1 H1). rewrite Hf. apply orb_true_r.
  - intros Hv Hf. subst s3. fields.
    rewrite (V2 Hv Hf). f_equal.
    apply (L t2 (got_limm s2 || f2) B2 H2). rewrite Hf. apply orb_true_r.
Qed.

Lemma ana_compact_aligned (s : state) :
  Z.land (ea (cmd s)) 1 = 0 -> size (cmd s) = 0 ->
  ana_compact H s =
  analyze_compact H (compact_entry H s) (compact_code H s) (compact_major H s)
    (arcompact_major H).
Proof.
  intros Ha Hs. unfold ana_compact, compact_entry, compact_code, compact_length.
  rewrite Ha. cbn [Z.eqb negb]. unfold ua_next_word. fields. rewrite Hs.
  replace (ea (cmd s) + 0) with (ea (cmd s)) by lia.
  unfold compact_major, stream_word.
  replace (ea (cmd s) + 0) with (ea (cmd s)) by lia.
  destruct (Z.land (Z.shiftr (uint16 (get_word H (uint32 (ea (cmd s))))) 11) 31 <? 12);
    reflexivity.
Qed.

Lemma analyze_compact_valid (s : state) (code idx : Z)
  (table : list arcompact_opcode_t) :
  let line := find_line code (nth (Z.to_nat idx) table null_line) in
  fst (fst line) <> ARC_null ->
  let '(k0, k1, k2) := snd line in
  let s' := decode_operand H
              (decode_operand H
                 (decode_operand H
                    (decode_aux H (set_itype (fst (fst line)) s) code
                       (snd (fst line)))
                    code 0 k0) code 1 k1) code 2 k2 in
  analyze_compact H s code idx table = (size (cmd s'), s').
Proof.
  unfold analyze_compact.
  destruct (find_line code (nth (Z.to_nat idx) table null_line))
    as [[mnem aux] [[k0 k1] k2]].
  cbn [fst snd]. intros Hm.
  destruct mnem; try congruence; reflexivity.
Qed.

Lemma ana_compact_result (s : state) :
  Z.land (ea (cmd s)) 1 = 0 -> size (cmd s) = 0 -> numbered s ->
  compact_mnem H s <> ARC_null ->
  let s' := snd (ana_compact H s) in
  let any := compact_fetches H s 0 || compact_fetches H s 1
             || compact_fetches H s 2 in
  fst (ana_compact H s) = size (cmd s') /\
  size (cmd s') = compact_length H s + (if any then 4 else 0) /\
  got_limm s' = any /\
  forall i, (i < 3)%nat ->
    via_opreg (compact_opkind H s i) = true ->
    compact_fetches H s i = true ->
    value (Operands s' i) = uint32 (compact_limm H s).
Proof.
  intros Ha Hs Hn Hm.
  rewrite (ana_compact_aligned s Ha Hs).
  pose proof (analyze_compact_valid (compact_entry H s) (compact_code H s)
                (compact_major H s) (arcompact_major H)) as V.
  unfold compact_fetches, compact_opkind, compact_mnem in *.
  unfold compact_line in *. cbv zeta in V.
  destruct (find_line (compact_code H s)
              (nth (Z.to_nat (compact_major H s)) (arcompact_major H) null_line))
    as [[mnem aux] [[k0 k1] k2]].
  cbn [fst snd] in *. specialize (V Hm). rewrite V. cbn [fst snd]. clear V.
  set (e0 := set_itype mnem (compact_entry H s)).
  pose proof (decode_aux_frame e0 (compact_code H s) aux)
    as (Fea & _ & Fit & Fsz & F1 & F2 & F3 & Fg & _).
  set (e := decode_aux H e0 (compact_code H s) aux) in *.
  assert (Ee : ea (cmd e) = ea (cmd s)) by (rewrite Fea; reflexivity).
  assert (Ei : itype (cmd e) = mnem) by (rewrite Fit; reflexivity).
  assert (Es : size (cmd e) = compact_length H s).
  { rewrite Fsz. subst e0. unfold compact_entry, compact_length. fields.
    destruct (compact_major H s <? 12); reflexivity. }
  assert (Eg : got_limm e = false) by (rewrite Fg; reflexivity).
  assert (En : numbered e).
  { unfold numbered. rewrite F1, F2, F3. exact Hn. }
  assert (El : limm_at H e = compact_limm H s).
  { unfold limm_at, compact_limm, stream_word. rewrite Ee, Es.
    unfold compact_length. destruct (compact_major H s <? 12); reflexivity. }
  destruct (decode_operands_limm e (compact_code H s) k0 k1 k2 Eg En)
    as (A & G & V0 & V1 & V2).
  rewrite Ei in G, V0, V1, V2. rewrite El in V0, V1, V2.
  set (s' := decode_operand H _ _ 2 k2) in *.
  split; [reflexivity|].
  destruct A as (_ & _ & _ & _ & _ & A). rewrite G in A.
  split; [|split; [exact G|]].
  - rewrite Es in A. unfold compact_length in *.
    destruct (slot_fetches H mnem (compact_code H s) true k0
              || slot_fetches H mnem (compact_code H s) false k1
              || slot_fetches H mnem (compact_code H s) false k2);
      destruct A as [A _]; rewrite A;
      destruct (compact_major H s <? 12); reflexivity.
  - intros i Hi. destruct i as [|[|[|i]]]; try lia; cbn [Operands]; assumption.
Qed.

End Compact.

Section CompactProperties.
Variable H : host.

(** C1, amended.  A compact decode at an even address that reaches a
    line with a mnemonic consumes 2 bytes when the major opcode is 0xC
    or more and 4 bytes when it is less, plus 4 bytes exactly when some
    operand reads the long immediate: a register number 62 in one of
    its fields, except in a register operand in the first slot of an
    instruction that writes its first operand.  This includes the
    16-bit instructions with an h field. *)
Theorem compact_decode_length (s : state) :
  Z.land (ea (cmd s)) 1 = 0 -> size (cmd s) = 0 -> numbered s ->
  compact_mnem H s <> ARC_null ->
  let extra :=
    if compact_fetches H s 0 || compact_fetches H s 1 || compact_fetches H s 2
    then 4 else 0 in
  fst (ana_compact H s) = compact_length H s + extra /\
  size (cmd (snd (ana_compact H s))) = compact_length H s + extra.
Proof.
  intros Ha Hs Hn Hm.
  destruct (ana_compact_result H s Ha Hs Hn Hm) as (R1 & R2 & _).
  cbv zeta. rewrite R1, R2. split; reflexivity.
Qed.


Lemma decode_field_register (s : state) (code : Z) (x : op_t) (k : opkind_t) :
  via_opreg k = true -> field k <> GENC_PCREL ->
  operand_regs H code k = [LIMM] ->
  decode_field H s code x k = Some (opreg H s x LIMM).
Proof.
  destruct k as [f ind]. unfold via_opreg, operand_regs, decode_field.
  cbn [field]. intros Hv Hp Hr.
  destruct f; try discriminate Hv; try congruence;
    try (injection Hr as Hr; rewrite Hr; reflexivity).
  unfold decode_genc. cbv zeta.
  destruct ((BITS code 23 22 =? 0)
            || (BITS code 23 22 =? 3) && (BITS code 5 5 =? 0)) eqn:Em;
    [|discriminate Hr].
  injection Hr as Hr. rewrite Hr.
  assert (E2 : (BITS code 23 22 =? 2) = false).
  { destruct (Z.eqb_spec (BITS code 23 22) 2) as [E|E]; [|reflexivity].
    rewrite E in Em. discriminate Em. }
  rewrite E2. cbn [negb field]. destruct (opreg H s x LIMM). reflexivity.
Qed.

(** C8.  A register operand of the compact encoding whose register
    number is 62 is decoded by [opreg] at 62 and becomes an immediate.
    In the first slot of an instruction that writes its first operand
    nothing is read and the value is 0.  Otherwise the value is the long
    immediate of [get_limm]: the cached [g_limm] when it was fetched
    before, else the two words at the cursor, which then moves by four
    bytes. *)
Theorem opreg_long_immediate (s : state) (x : op_t) :
  let r := opreg H s x LIMM in
  (forall code k, via_opreg k = true -> field k <> GENC_PCREL ->
     operand_regs H code k = [LIMM] ->
     decode_field H s code x k = Some r) /\
  type (snd r) = o_imm /\
  (n x = 0 -> canon_chg1 H (itype (cmd s)) = true ->
   fst r = s /\ value (snd r) = 0) /\
  (n x <> 0 \/ canon_chg1 H (itype (cmd s)) = false ->
   fst r = snd (get_limm H s) /\
   value (snd r) = uint32 (fst (get_limm H s))) /\
  (got_limm s = true -> get_limm H s = (g_limm s, s)) /\
  (got_limm s = false ->
   fst (get_limm H s) = limm_at H s /\
   got_limm (snd (get_limm H s)) = true /\
   g_limm (snd (get_limm H s)) = limm_at H s /\
   size (cmd (snd (get_limm H s))) = uint16 (uint16 (size (cmd s) + 2) + 2)).
Proof.
  cbv zeta. split; [intros; apply decode_field_register; assumption|].
  unfold opreg. cbn [LIMM Z.eqb Pos.eqb negb]. fields.
  split; [|split; [|split; [|split]]].
  - destruct ((n x =? 0) && canon_chg1 H (itype (cmd s)));
      [|destruct (get_limm H s)]; reflexivity.
  - intros Nx Hc. rewrite Nx, Hc. cbn [Z.eqb andb]. split; reflexivity.
  - intros Hc.
    replace ((n x =? 0) && canon_chg1 H (itype (cmd s))) with false.
    + destruct (get_limm H s). split; reflexivity.
    + symmetry. apply andb_false_iff.
      destruct Hc as [Hc|Hc]; [left; apply Z.eqb_neq; exact Hc | right; exact Hc].
  - apply get_limm_cached.
  - intros Eg. unfold get_limm, ua_next_word, limm_at. rewrite Eg. fields.
    repeat split.
Qed.

Lemma forallb_range (P : Z -> bool) (k : nat) :
  forallb P (map Z.of_nat (seq 0 k)) = true ->
  forall x, 0 <= x < Z.of_nat k -> P x = true.
Proof.
  intros Hall x Hx. rewrite forallb_forall in Hall. apply Hall.
  apply in_map_iff. exists (Z.to_nat x). split; [lia|].
  apply in_seq. lia.
Qed.

Lemma SIGNEXT_sign_extend (b x : Z) :
  b = 6 \/ b = 7 \/ b = 9 \/ b = 11 ->
  0 <= x < 2 ^ b -> SIGNEXT x b = sign_extend b x.
Proof.
  intros Hb Hx. apply Z.eqb_eq.
  destruct Hb as [ -> | [ -> | [ -> | -> ] ] ];
    [ apply (forallb_range (fun x => SIGNEXT x 6 =? sign_extend 6 x) 64)
    | apply (forallb_range (fun x => SIGNEXT x 7 =? sign_extend 7 x) 128)
    | apply (forallb_range (fun x => SIGNEXT x 9 =? sign_extend 9 x) 512)
    | apply (forallb_range (fun x => SIGNEXT x 11 =? sign_extend 11 x) 2048) ];
    try (vm_compute; reflexivity); exact Hx.
Qed.

Lemma SBITS_sign_extend (code h l : Z) :
  0 <= l -> h - l + 1 = 6 \/ h - l + 1 = 7 \/ h - l + 1 = 9 \/ h - l + 1 = 11 ->
  SBITS code h l = sign_extend (h - l + 1) (BITS code h l).
Proof.
  intros Hl Hw. unfold SBITS. apply SIGNEXT_sign_extend; [exact Hw|].
  apply BITS_bound. lia.
Qed.

Lemma sign_extend_testbit (w v : Z) :
  (if Z.testbit v (w - 1) then v - 2 ^ w else v) = sign_extend w v.
Proof. unfold sign_extend. destruct (Z.testbit v (w - 1)); cbn [Z.b2z]; lia. Qed.

(** C9, amended.  For every branch-target description the operand is
    a near address: the instruction address with its two low bits
    cleared, plus the sign-extended displacement times 2, or times 4
    for [S13].  For [S25L] and [S21L] the low bit of the displacement
    is cleared first and the factor is 2.  The sum is taken in 32
    bits. *)
Theorem branch_target (s : state) (code : Z) (x : op_t) (f : op_fields_t) :
  is_branch_tag f = true ->
  let d := branch_displacement code f in
  let d := if clears_low_bit f then Z.land d (Z.lnot 1) else d in
  exists x',
    decode_field H s code x (K f) = Some (s, x') /\
    type x' = o_near /\
    addr x' = uint32 (Z.land (ip (cmd s)) (Z.lnot 3) + d * branch_scale f).
Proof.
  intros Hf. unfold decode_field. cbn [K field].
  destruct f; try discriminate Hf; cbv zeta;
    unfold branch_displacement, clears_low_bit, branch_scale;
    eexists; (split; [reflexivity|]); (split; [reflexivity|]);
    unfold opbranch, decode_s21_s25, opkind_is; fields;
    cbn [K field o_ind op_fields_value Z.eqb Pos.eqb andb orb negb];
    rewrite ?SBITS_sign_extend by lia;
    rewrite <- ?(sign_extend_testbit 24), <- ?(sign_extend_testbit 20);
    try reflexivity.
  (* S9 *)
  pose proof (BITS_bound code 15 15 ltac:(lia)) as B.
  change (2 ^ (15 - 15 + 1)) with 2 in B.
  destruct (Z.eqb_spec (BITS code 15 15) 0) as [E|E]; cbn [negb];
    f_equal; lia.
Qed.

End CompactProperties.

(** ** Bit fields *)

Section BitFields.

(** X1.  For a 32-bit word [val] and a field of at most 31 bits
    inside it, the macro [BITS (val, high, low)] is the number made of
    bits [high] down to [low] of [val]: the quotient of [val] by
    [2 ^ low], modulo [2 ^ (high - low + 1)].  It is never negative and
    is below [2 ^ (high - low + 1)]. *)
Theorem BITS_div_mod (val high low : Z) :
  0 <= val < 2 ^ 32 -> 0 <= low <= high -> high <= 31 ->
  high - low + 1 <= 31 ->
  BITS val high low = (val / 2 ^ low) mod 2 ^ (high - low + 1) /\
  0 <= BITS val high low < 2 ^ (high - low + 1).
Proof.
  intros _ Hl _ _. split; [|apply BITS_bound; exact Hl].
  unfold BITS.
  replace (Z.shiftl 1 (high - low + 1) - 1) with (Z.ones (high - low + 1))
    by (rewrite Z.ones_equiv, Z.shiftl_1_l; lia).
  rewrite Z.land_ones by lia. rewrite Z.shiftr_div_pow2 by lia. reflexivity.
Qed.

Lemma lxor_pow2 (y k : Z) :
  0 <= k ->
  Z.lxor y (2 ^ k) = if Z.testbit y k then y - 2 ^ k else y + 2 ^ k.
Proof.
  intros Hk. destruct (Z.testbit y k) eqn:Et.
  - rewrite <- Z.sub_lor_land. f_equal.
    + apply Z.bits_inj'. intros m Hm.
      rewrite Z.lor_spec, Z.pow2_bits_eqb by lia.
      destruct (Z.eqb_spec k m) as [->|]; [rewrite Et|rewrite orb_false_r];
        reflexivity.
    + apply Z.bits_inj'. intros m Hm.
      rewrite Z.land_spec, Z.pow2_bits_eqb by lia.
      destruct (Z.eqb_spec k m) as [->|]; [rewrite Et|rewrite andb_false_r];
        reflexivity.
  - symmetry. rewrite Z.add_nocarry_lxor; [reflexivity|].
    apply Z.bits_inj'. intros m Hm.
    rewrite Z.land_spec, Z.bits_0, Z.pow2_bits_eqb by lia.
    destruct (Z.eqb_spec k m) as [->|]; [rewrite Et|rewrite andb_false_r]; reflexivity.
Qed.

Lemma testbit_top (y k : Z) :
  0 <= k -> 0 <= y < 2 ^ (k + 1) ->
  Z.testbit y k = (2 ^ k <=? y).
Proof.
  intros Hk Hy. replace (k + 1) with (Z.succ k) in Hy by lia.
  rewrite Z.pow_succ_r in Hy by lia.
  assert (Hp : 0 < 2 ^ k) by (apply Z.pow_pos_nonneg; lia).
  destruct (Z.leb_spec (2 ^ k) y) as [Hle|Hlt].
  - apply Z.testbit_true; [lia|].
    assert (E : y / 2 ^ k = 1)
      by (symmetry; apply Z.div_unique with (r := y - 2 ^ k); lia).
    rewrite E. reflexivity.
  - apply Z.testbit_false; [lia|].
    rewrite Z.div_small by lia. reflexivity.
Qed.

Lemma SIGNEXT_low_bits (x b : Z) :
  1 <= b <= 31 ->
  - 2 ^ (b - 1) <= SIGNEXT x b < 2 ^ (b - 1) /\
  SIGNEXT x b mod 2 ^ b = x mod 2 ^ b.
Proof.
  intros Hb. unfold SIGNEXT. cbv zeta.
  replace (Z.shiftl 1 b - 1) with (Z.ones b)
    by (rewrite Z.ones_equiv, Z.shiftl_1_l; lia).
  rewrite Z.shiftl_1_l.
  rewrite Z.land_ones by lia.
  set (P := 2 ^ (b - 1)).
  assert (HP : 1 <= P <= 2 ^ 30).
  { subst P. split.
    - assert (0 < 2 ^ (b - 1)) by (apply Z.pow_pos_nonneg; lia). lia.
    - apply Z.pow_le_mono_r; lia. }
  assert (E2 : 2 ^ b = 2 * P).
  { subst P. replace b with (Z.succ (b - 1)) at 1 by lia.
    apply Z.pow_succ_r. lia. }
  change (2 ^ 30) with 1073741824 in HP.
  assert (Eu : uint32 P = P) by (unfold uint32; apply Z.mod_small; lia).
  rewrite Eu. rewrite E2.
  set (y := x mod (2 * P)).
  assert (Hy : 0 <= y < 2 * P) by (subst y; apply Z.mod_pos_bound; lia).
  subst P. rewrite lxor_pow2 by lia.
  rewrite testbit_top by (try lia; replace (b - 1 + 1) with b by lia; rewrite E2; exact Hy).
  set (P := 2 ^ (b - 1)) in *.
  destruct (Z.leb_spec P y) as [Hle|Hlt].
  - replace (y - P - P) with (y - 2 * P) by lia.
    assert (Es : sint32 (y - 2 * P) = y - 2 * P).
    { unfold sint32. cbv zeta.
      assert (Em : (y - 2 * P) mod 4294967296 = y - 2 * P + 4294967296).
      { symmetry. apply Z.mod_unique with (q := -1); lia. }
      rewrite Em. destruct (Z.ltb_spec (y - 2 * P + 4294967296) 2147483648); lia. }
    rewrite Es. split; [lia|].
    subst y. rewrite <- (Z.mod_add _ 1) by lia.
    replace (x mod (2 * P) - 2 * P + 1 * (2 * P)) with (x mod (2 * P)) by lia.
    apply Z.mod_mod. lia.
  - replace (y + P - P) with y by lia.
    assert (Es : sint32 y = y).
    { unfold sint32. cbv zeta. rewrite Z.mod_small by lia.
      destruct (Z.ltb_spec y 2147483648); lia. }
    rewrite Es. split; [lia|]. subst y. apply Z.mod_mod. lia.
Qed.


End BitFields.

(** ** The forms of a compact operand *)

Section OperandForms.
Variable H : host.

Lemma uint32_small (x : Z) : 0 <= x < 0x100000000 -> uint32 x = x.
Proof. intros. unfold uint32. apply Z.mod_small. lia. Qed.

Lemma BITS3 (code h l : Z) : 0 <= l -> h = l + 2 -> 0 <= BITS code h l < 8.
Proof.
  intros Hl ->. pose proof (BITS_bound code (l + 2) l ltac:(lia)) as B.
  replace (l + 2 - l + 1) with 3 in B by lia. exact B.
Qed.

Lemma reg16_range (r : Z) :
  0 <= r < 8 -> 0 <= reg16 r <= 3 \/ 12 <= reg16 r <= 15.
Proof. intros Hr. unfold reg16. destruct (Z.gtb_spec r 3); lia. Qed.

Lemma opreg_register (s : state) (x : op_t) (r : Z) :
  0 <= r < 62 ->
  opreg H s x r = (s, set_dtyp dt_dword (set_type o_reg (set_reg r x))).
Proof.
  intros Hr. unfold opreg, LIMM.
  replace (r =? 62) with false by (symmetry; apply Z.eqb_neq; lia).
  reflexivity.
Qed.

Lemma decode_field_reg3 (s : state) (code : Z) (x : op_t) (k : opkind_t) :
  is_reg3_field (field k) = true ->
  exists x',
    decode_field H s code x k = Some (s, x') /\
    type x' = o_reg /\ dtyp x' = dt_dword /\
    (0 <= reg x' <= 3 \/ 12 <= reg x' <= 15).
Proof.
  intros Hf. unfold decode_field.
  destruct (field k); try discriminate Hf;
    match goal with |- context [opreg H s x (reg16 (BITS code ?h ?l))] =>
      pose proof (reg16_range (BITS code h l) (BITS3 code h l ltac:(lia) ltac:(lia))) as R;
      rewrite (opreg_register s x (reg16 (BITS code h l))) by lia
    end;
    eexists; (split; [reflexivity|]); fields;
    rewrite uint16_small by lia; auto.
Qed.

(** X3.  [decode_operand] on a 3-bit register field ([fA16], [fB16],
    [fC16]) writes the operand slot and nothing else: the register is
    never the long immediate, so nothing is read.  The register is
    among r0..r3 and r12..r15 and the width is dword.  Without [O_IND]
    the operand is that register; with [O_IND] it is a displacement
    from that register with offset 0. *)
Theorem short_register_operand (s : state) (code : Z) (i : nat) (k : opkind_t) :
  is_reg3_field (field k) = true ->
  exists x',
    decode_operand H s code i k = set_Operand i x' s /\
    type x' = (if o_ind k then o_displ else o_reg) /\
    dtyp x' = dt_dword /\
    (0 <= reg x' <= 3 \/ 12 <= reg x' <= 15) /\
    (o_ind k = true -> addr x' = 0).
Proof.
  intros Hf.
  destruct (decode_field_reg3 s code (Operands s i) k Hf) as (x1 & E & T & D & R).
  unfold decode_operand. cbv zeta.
  assert (N : opkind_is k f_none = false).
  { unfold opkind_is. destruct (field k); try discriminate Hf; reflexivity. }
  rewrite N, E, T.
  destruct (o_ind k).
  - eexists. split; [reflexivity|]. fields. repeat split; auto; discriminate.
  - exists x1. repeat split; auto; discriminate.
Qed.

(** X4.  A second [get_limm] returns the same value as the first and
    leaves the state of the first: the long immediate is read from the
    program once, and the cursor does not move again. *)
Theorem get_limm_idempotent (s : state) :
  get_limm H (snd (get_limm H s)) = get_limm H s /\
  size (cmd (snd (get_limm H (snd (get_limm H s)))))
  = size (cmd (snd (get_limm H s))).
Proof.
  destruct (get_limm_value H s) as [V G].
  rewrite (get_limm_cached H _ G), V.
  rewrite <- surjective_pairing. split; reflexivity.
Qed.

(** X5.  An unsigned-immediate description ([U3], [U5], [U6], [U7],
    [U7L], [U8]) gives an immediate operand of width dword whose value
    is below 8, 32, 64, 128, 128, 256; for [U7L] it is a multiple of 4.
    Nothing is read. *)
Theorem unsigned_immediate_operand (s : state) (code : Z) (x : op_t)
  (f : op_fields_t) :
  0 < imm_bound f ->
  exists x',
    decode_field H s code x (K f) = Some (s, x') /\
    type x' = o_imm /\ dtyp x' = dt_dword /\
    0 <= value x' < imm_bound f /\
    (f = U7L -> value x' mod 4 = 0).
Proof.
  intros Hf. unfold decode_field, imm_bound in *. cbn [K field].
  destruct f; try lia; cbv zeta; unfold opkind_is;
    cbn [K field o_ind op_fields_value Z.eqb Pos.eqb andb negb];
    eexists; (split; [reflexivity|]); unfold opimm; fields;
    (split; [reflexivity|]); (split; [reflexivity|]);
    match goal with |- context [BITS code ?h ?l] =>
      pose proof (BITS_bound code h l ltac:(lia)) as B; cbn in B
    end;
    rewrite uint32_small by lia;
    (split; [lia|]); intros E; try discriminate E.
  apply Z.mod_mul. lia.
Qed.

Lemma is_imm_reg16 (r : Z) : 0 <= r < 8 -> is_imm (reg16 r) = false.
Proof.
  intros Hr. destruct (reg16_range r Hr);
    unfold is_imm, SHIMM_F, LIMM, SHIMM;
    repeat (apply orb_false_iff; split); apply Z.eqb_neq; lia.
Qed.

(** X6.  The 16-bit form [b, c] ([fBC16_IND]) is always a register
    pair: the operand is a phrase whose registers are the 3-bit fields
    b and c mapped by [reg16].  Nothing is read. *)
Theorem short_indirect_is_phrase (s : state) (code : Z) (x : op_t) (k : opkind_t) :
  field k = fBC16_IND ->
  exists x',
    decode_field H s code x k = Some (s, x') /\
    type x' = o_phrase /\
    reg x' = reg16 (BITS code 10 8) /\
    secreg x' = reg16 (BITS code 7 5).
Proof.
  intros Hf. unfold decode_field. rewrite Hf. cbv zeta.
  eexists. split; [reflexivity|].
  pose proof (BITS3 code 10 8 ltac:(lia) ltac:(lia)) as Bb.
  pose proof (BITS3 code 7 5 ltac:(lia) ltac:(lia)) as Bc.
  unfold doIndirectOperand.
  rewrite (is_imm_reg16 _ Bb), (is_imm_reg16 _ Bc). cbn [andb negb].
  destruct (reg16_range _ Bb);
    repeat match goal with
           | |- context [if ?c then _ else _] => destruct c
           end; fields; rewrite uint16_small by lia; auto.
Qed.

Lemma lor_shiftl_add (hi lo k : Z) :
  0 <= k -> 0 <= lo < 2 ^ k ->
  Z.lor (Z.shiftl hi k) lo = hi * 2 ^ k + lo.
Proof.
  intros Hk Hlo. rewrite <- Z.shiftl_mul_pow2 by lia.
  rewrite <- Z.lxor_lor, <- Z.add_nocarry_lxor; try reflexivity.
  all: apply Z.bits_inj'; intros m Hm; rewrite Z.land_spec, Z.bits_0;
    destruct (Z.ltb_spec m k) as [Hlt|Hge];
    [ rewrite Z.shiftl_spec_low by lia; reflexivity
    | rewrite <- (Z.mod_small lo (2 ^ k)) by lia;
      rewrite Z.mod_pow2_bits_high by lia; apply andb_false_r ].
Qed.

(** X7.  With mode bits 23..22 equal to 2, the general operand c
    ([GENC]) is a signed 12-bit immediate: bits 5..0 are its high part
    and bits 11..6 its low part.  The value stored is a number between
    -2048 and 2047, taken in 32 bits.  Nothing is read. *)
Theorem general_operand_s12 (s : state) (code : Z) (x : op_t) (k : opkind_t) :
  field k = GENC -> BITS code 23 22 = 2 ->
  exists x' v,
    decode_field H s code x k = Some (s, x') /\
    type x' = o_imm /\ value x' = uint32 v /\
    - 2048 <= v < 2048 /\
    v mod 4096 = BITS code 5 0 * 64 + BITS code 11 6.
Proof.
  intros Hf Hp. unfold decode_field. rewrite Hf. unfold decode_genc.
  rewrite Hp, Hf. cbn [Z.eqb Pos.eqb negb].
  set (w := Z.lor (Z.shiftl (BITS code 5 0) 6) (BITS code 11 6)).
  exists (opimm x (SIGNEXT w 12)), (SIGNEXT w 12).
  split; [reflexivity|]. split; [reflexivity|]. split; [reflexivity|].
  destruct (SIGNEXT_low_bits w 12 ltac:(lia)) as [R M].
  split; [exact R|]. change (2 ^ 12) with 4096 in M. rewrite M.
  pose proof (BITS_bound code 5 0 ltac:(lia)) as B1.
  pose proof (BITS_bound code 11 6 ltac:(lia)) as B2.
  change (2 ^ (5 - 0 + 1)) with 64 in B1. change (2 ^ (11 - 6 + 1)) with 64 in B2.
  subst w. rewrite lor_shiftl_add by (change (2 ^ 6) with 64; lia).
  change (2 ^ 6) with 64. apply Z.mod_small. lia.
Qed.

(** X8.  With mode bits 23..22 equal to 1, or equal to 3 with bit 5
    set, the general operand c ([GENC]) is the unsigned 6-bit immediate
    in bits 11..6.  Nothing is read. *)
Theorem general_operand_u6 (s : state) (code : Z) (x : op_t) (k : opkind_t) :
  field k = GENC ->
  BITS code 23 22 = 1 \/ (BITS code 23 22 = 3 /\ BITS code 5 5 = 1) ->
  exists x',
    decode_field H s code x k = Some (s, x') /\
    type x' = o_imm /\ dtyp x' = dt_dword /\
    value x' = BITS code 11 6 /\ 0 <= value x' < 64.
Proof.
  intros Hf Hp.
  pose proof (BITS_bound code 11 6 ltac:(lia)) as B.
  change (2 ^ (11 - 6 + 1)) with 64 in B.
  unfold decode_field. rewrite Hf. unfold decode_genc. rewrite Hf.
  destruct Hp as [-> | [-> ->]]; cbn [Z.eqb Pos.eqb negb andb orb];
    eexists; (split; [reflexivity|]); unfold opimm; fields;
    rewrite uint32_small by lia; repeat split; lia.
Qed.

Lemma opdisp_register (s : state) (x : op_t) (r d : Z) :
  r <> LIMM ->
  opdisp H s x r d =
  (s, set_dtyp dt_dword (set_reg r (set_addr d (set_type o_displ x)))).
Proof.
  intros Hr. unfold opdisp.
  replace (r =? LIMM) with false by (symmetry; apply Z.eqb_neq; exact Hr).
  reflexivity.
Qed.

Lemma BITS5 (code : Z) : 0 <= BITS code 4 0 < 32.
Proof. apply (BITS_bound code 4 0). lia. Qed.

(** X9.  The 16-bit forms [b, u5], [b, u6], [b, u7] give a
    displacement operand: the base is the 3-bit field b mapped by
    [reg16], a register among r0..r3 and r12..r15, and the offset is
    the 5-bit field times 1, 2, 4.  Nothing is read. *)
Theorem short_displacement_operand (s : state) (code : Z) (x : op_t)
  (f : op_fields_t) :
  0 < short_displ_scale f ->
  exists x',
    decode_field H s code x (K f) = Some (s, x') /\
    type x' = o_displ /\ dtyp x' = dt_dword /\
    reg x' = reg16 (BITS code 10 8) /\
    (0 <= reg x' <= 3 \/ 12 <= reg x' <= 15) /\
    addr x' = BITS code 4 0 * short_displ_scale f.
Proof.
  intros Hf.
  pose proof (reg16_range (BITS code 10 8) (BITS3 code 10 8 ltac:(lia) ltac:(lia))) as R.
  pose proof (BITS5 code) as B.
  unfold decode_field. cbn [K field].
  destruct f; cbn [short_displ_scale] in Hf; try lia;
    unfold decode_fB_u, opkind_is;
    cbn [K field o_ind op_fields_value Z.eqb Pos.eqb andb negb short_displ_scale];
    rewrite opdisp_register by (unfold LIMM; lia);
    eexists; (split; [reflexivity|]); fields;
    rewrite uint16_small by lia; rewrite uint32_small by lia;
    repeat split; (lia || exact R).
Qed.

(** X10.  The form [b, s9] carries a signed 9-bit offset, bit 15 being
    its sign.  With a base register other than 62 the operand is a
    displacement from that register and nothing is read; with base 62
    it is a memory operand at the long immediate plus the offset, and
    the state is the one [get_limm] leaves. *)
Theorem offset_operand_s9 (s : state) (code : Z) (x : op_t) (k : opkind_t) :
  field k = fB_S9 ->
  let d := BITS code 23 16 - 256 * BITS code 15 15 in
  - 256 <= d < 256 /\
  (B32 code <> LIMM ->
   exists x',
     decode_field H s code x k = Some (s, x') /\
     type x' = o_displ /\ reg x' = uint16 (B32 code) /\ addr x' = uint32 d) /\
  (B32 code = LIMM ->
   exists x',
     decode_field H s code x k = Some (snd (get_limm H s), x') /\
     type x' = o_mem /\ addr x' = uint32 (fst (get_limm H s) + d)).
Proof.
  intros Hf d.
  pose proof (BITS_bound code 23 16 ltac:(lia)) as B1.
  pose proof (BITS_bound code 15 15 ltac:(lia)) as B2.
  change (2 ^ (23 - 16 + 1)) with 256 in B1. change (2 ^ (15 - 15 + 1)) with 2 in B2.
  assert (Ed : (if negb (BITS code 15 15 =? 0)
                then BITS code 23 16 - 256 else BITS code 23 16) = d).
  { subst d. destruct (Z.eqb_spec (BITS code 15 15) 0); cbn [negb]; lia. }
  split; [subst d; lia|].
  unfold decode_field. rewrite Hf. cbv zeta. rewrite Ed. split.
  - intros Hr. rewrite opdisp_register by exact Hr.
    eexists. split; [reflexivity|]. repeat split.
  - intros Hr. rewrite Hr. unfold opdisp. cbn [LIMM Z.eqb Pos.eqb negb].
    destruct (get_limm H s) as [v s1]. eexists. split; [reflexivity|].
    repeat split.
Qed.

End OperandForms.

(** ** What decoding an operand leaves alone *)

Section OperandFrames.
Variable H : host.

Lemma Operands_set_Operand (s : state) (i : nat) (x : op_t) :
  Operands (set_Operand i x s) i = x.
Proof. destruct i as [|[|i]]; reflexivity. Qed.

Lemma Operands_set_other (s : state) (i j : nat) (x : op_t) :
  (i < 3)%nat -> (j < 3)%nat -> i <> j ->
  Operands (set_Operand i x s) j = Operands s j.
Proof.
  intros Hi Hj Hn.
  destruct i as [|[|[|i]]]; destruct j as [|[|[|j]]]; try lia; reflexivity.
Qed.

Lemma limm_step_frame (f : bool) (s : state) :
  let s' := limm_step H f s in
  ea (cmd s') = ea (cmd s) /\ ip (cmd s') = ip (cmd s) /\
  itype (cmd s') = itype (cmd s) /\ auxpref (cmd s') = auxpref (cmd s) /\
  forall j, Operands s' j = Operands s j.
Proof.
  unfold limm_step, get_limm, ua_next_word.
  destruct f; [destruct (got_limm s)|]; fields; repeat split;
    intros [|[|j]]; reflexivity.
Qed.

Lemma decode_operand_others (s : state) (code : Z) (i : nat) (k : opkind_t) :
  (i < 3)%nat ->
  let s' := decode_operand H s code i k in
  ea (cmd s') = ea (cmd s) /\ ip (cmd s') = ip (cmd s) /\
  itype (cmd s') = itype (cmd s) /\ auxpref (cmd s') = auxpref (cmd s) /\
  n (Operands s' i) = n (Operands s i) /\
  forall j, (j < 3)%nat -> j <> i -> Operands s' j = Operands s j.
Proof.
  intros Hi s'.
  destruct (decode_operand_step H s code i k) as (x' & E & N & _).
  subst s'. rewrite E.
  destruct (limm_step_frame
              (slot_fetches H (itype (cmd s)) code (n (Operands s i) =? 0) k) s)
    as (F1 & F2 & F3 & F4 & F5).
  set (t := limm_step H _ s) in *.
  assert (G : ea (cmd (set_Operand i x' t)) = ea (cmd t) /\
              ip (cmd (set_Operand i x' t)) = ip (cmd t) /\
              itype (cmd (set_Operand i x' t)) = itype (cmd t) /\
              auxpref (cmd (set_Operand i x' t)) = auxpref (cmd t))
    by (destruct i as [|[|i]]; repeat split).
  destruct G as (G1 & G2 & G3 & G4).
  rewrite G1, G2, G3, G4, Operands_set_Operand.
  repeat split; try assumption.
  intros j Hj Hn. rewrite Operands_set_other by (try lia; congruence).
  apply F5.
Qed.

(** X11.  [decode_operand] on slot [i] leaves the address, [cmd.ip],
    the instruction code, [cmd.auxpref], the number of the operand and
    the two other operands as they were.  An absent operand becomes
    [o_void], and then the cursor does not move either. *)
Theorem decode_operand_frame (s : state) (code : Z) (i : nat) (k : opkind_t) :
  (i < 3)%nat ->
  let s' := decode_operand H s code i k in
  ea (cmd s') = ea (cmd s) /\ ip (cmd s') = ip (cmd s) /\
  itype (cmd s') = itype (cmd s) /\ auxpref (cmd s') = auxpref (cmd s) /\
  n (Operands s' i) = n (Operands s i) /\
  (k = no_op -> type (Operands s' i) = o_void /\
                size (cmd s') = size (cmd s)) /\
  forall j, (j < 3)%nat -> j <> i -> Operands s' j = Operands s j.
Proof.
  intros Hi s'.
  destruct (decode_operand_others s code i k Hi) as (F1 & F2 & F3 & F4 & F5 & F6).
  repeat split; try assumption.
  - subst s' k. unfold decode_operand. cbn. rewrite Operands_set_Operand.
    reflexivity.
  - subst s' k. unfold decode_operand. cbn. destruct i as [|[|i]]; reflexivity.
Qed.


(** X13.  [decode_aux] writes [cmd.auxpref] and nothing else, and with
    no bit set in [aux] it writes nothing at all. *)
Theorem decode_aux_only_auxpref (s : state) (code aux : Z) :
  aux_frame s (decode_aux H s code aux) /\
  decode_aux H s code 0 = s.
Proof. split; [apply decode_aux_frame | reflexivity]. Qed.

End OperandFrames.

(** ** Branch targets *)

Section BranchTargets.
Variable H : host.

Lemma land_lnot3 (a : Z) : Z.land a (Z.lnot 3) = 4 * (a / 4).
Proof.
  rewrite <- Z.ldiff_land. change 3 with (Z.ones 2).
  rewrite Z.ldiff_ones_r by lia.
  rewrite Z.shiftl_mul_pow2, Z.shiftr_div_pow2 by lia.
  change (2 ^ 2) with 4. lia.
Qed.

Lemma land_lnot1 (a : Z) : Z.land a (Z.lnot 1) = 2 * (a / 2).
Proof.
  rewrite <- Z.ldiff_land. change 1 with (Z.ones 1) at 1.
  rewrite Z.ldiff_ones_r by lia.
  rewrite Z.shiftl_mul_pow2, Z.shiftr_div_pow2 by lia.
  change (2 ^ 1) with 2. lia.
Qed.

Lemma opbranch_even (s : state) (x : op_t) (d : Z) :
  type (opbranch s x (d * 2)) = o_near /\
  dtyp (opbranch s x (d * 2)) = dt_code /\
  addr (opbranch s x (d * 2)) mod 2 = 0.
Proof.
  unfold opbranch. fields. split; [reflexivity|]. split; [reflexivity|].
  rewrite land_lnot3. unfold uint32. Z.div_mod_to_equations. lia.
Qed.

Lemma opbranch_quad (s : state) (x : op_t) (d : Z) :
  type (opbranch s x (d * 4)) = o_near /\
  dtyp (opbranch s x (d * 4)) = dt_code /\
  addr (opbranch s x (d * 4)) mod 4 = 0.
Proof.
  unfold opbranch. fields. split; [reflexivity|]. split; [reflexivity|].
  rewrite land_lnot3. unfold uint32. Z.div_mod_to_equations. lia.
Qed.

Lemma mod4_mod2 (a : Z) : a mod 4 = 0 -> a mod 2 = 0.
Proof. intros. Z.div_mod_to_equations. lia. Qed.

(** X14.  The target of every branch description is a near code
    address that is even, whatever the address of the instruction; for
    [S25L], [S21L] and [S13] it is a multiple of 4. *)
Theorem branch_target_aligned (s : state) (code : Z) (x : op_t)
  (f : op_fields_t) :
  is_branch_tag f = true ->
  exists x',
    decode_field H s code x (K f) = Some (s, x') /\
    type x' = o_near /\ dtyp x' = dt_code /\
    addr x' mod 2 = 0 /\
    (link_or_s13 f = true -> addr x' mod 4 = 0).
Proof.
  intros Hf. unfold decode_field. cbn [K field].
  destruct f; try discriminate Hf; cbv zeta; eexists;
    (split; [reflexivity|]);
    unfold decode_s21_s25, opkind_is;
    cbn [K field o_ind op_fields_value Z.eqb Pos.eqb andb orb negb link_or_s13].
  all: try (match goal with
            | |- context [opbranch ?s0 ?x0 (?d * 2)] =>
                destruct (opbranch_even s0 x0 d) as (T & D & A)
            end;
            repeat split; try assumption; discriminate).
  - (* S25L *)
    match goal with |- context [Z.land ?d (Z.lnot 1) * 2] =>
      rewrite (land_lnot1 d);
      replace (2 * (d / 2) * 2) with ((d / 2) * 4) by lia;
      destruct (opbranch_quad s x (d / 2)) as (T & D & A) end.
    split; [exact T|]. split; [exact D|].
    split; [apply mod4_mod2; exact A | intros _; exact A].
  - (* S21L *)
    match goal with |- context [Z.land ?d (Z.lnot 1) * 2] =>
      rewrite (land_lnot1 d);
      replace (2 * (d / 2) * 2) with ((d / 2) * 4) by lia;
      destruct (opbranch_quad s x (d / 2)) as (T & D & A) end.
    split; [exact T|]. split; [exact D|].
    split; [apply mod4_mod2; exact A | intros _; exact A].
  - (* S13 *)
    destruct (opbranch_quad s x (SBITS code 10 0)) as (T & D & A).
    split; [exact T|]. split; [exact D|].
    split; [apply mod4_mod2; exact A | intros _; exact A].
Qed.

End BranchTargets.

(** ** The result of a compact decode *)

Section CompactShape.
Variable H : host.

Lemma compact_length_cases (s : state) :
  compact_length H s = 2 \/ compact_length H s = 4.
Proof. unfold compact_length. destruct (compact_major H s <? 12); auto. Qed.

(** X15.  When the table walk ends at a line without mnemonic,
    [ana_compact] returns 0 after it has read the instruction word:
    [cmd.size] is 2 or 4, [got_limm] is cleared, and nothing else is
    written.  The entry point [ana] then runs no pass and returns that
    [cmd.size], not 0. *)
Theorem compact_unassigned (s : state) :
  Z.land (ea (cmd s)) 1 = 0 -> size (cmd s) = 0 ->
  compact_mnem H s = ARC_null ->
  ana_compact H s = (0, compact_entry H s) /\
  (is_a4 H = false ->
   ana H s = (compact_length H s, compact_entry H s)).
Proof.
  intros Ha Hs Hm.
  assert (E : ana_compact H s = (0, compact_entry H s)).
  { rewrite (ana_compact_aligned H s Ha Hs). unfold analyze_compact.
    unfold compact_mnem, compact_line in Hm.
    destruct (find_line (compact_code H s)
                (nth (Z.to_nat (compact_major H s)) (arcompact_major H) null_line))
      as [[mnem aux] [[k0 k1] k2]].
    cbn [fst] in Hm. rewrite Hm. reflexivity. }
  split; [exact E|].
  intros Ha4. unfold ana. rewrite Ha4, E. cbn [Z.eqb negb].
  unfold compact_entry. fields.
  destruct (compact_length_cases s) as [-> | ->]; reflexivity.
Qed.

Lemma decode_operand_absent (s : state) (code : Z) (i : nat) :
  type (Operands (decode_operand H s code i no_op) i) = o_void.
Proof. unfold decode_operand. cbn. rewrite Operands_set_Operand. reflexivity. Qed.

(** X16.  After a compact decode that reaches a mnemonic, [cmd.itype]
    is the mnemonic of the table line, [cmd.ea] and [cmd.ip] are
    unchanged, and every slot that the line leaves undescribed holds an
    [o_void] operand, whatever it held before. *)
Theorem compact_decode_shape (s : state) :
  Z.land (ea (cmd s)) 1 = 0 -> size (cmd s) = 0 ->
  compact_mnem H s <> ARC_null ->
  let s' := snd (ana_compact H s) in
  itype (cmd s') = compact_mnem H s /\
  ea (cmd s') = ea (cmd s) /\ ip (cmd s') = ip (cmd s) /\
  forall i, (i < 3)%nat -> compact_opkind H s i = no_op ->
    type (Operands s' i) = o_void.
Proof.
  intros Ha Hs Hm.
  rewrite (ana_compact_aligned H s Ha Hs).
  pose proof (analyze_compact_valid H (compact_entry H s) (compact_code H s)
                (compact_major H s) (arcompact_major H)) as V.
  unfold compact_opkind, compact_mnem in *. unfold compact_line in *.
  cbv zeta in V.
  destruct (find_line (compact_code H s)
              (nth (Z.to_nat (compact_major H s)) (arcompact_major H) null_line))
    as [[mnem aux] [[k0 k1] k2]].
  cbn [fst snd] in *. specialize (V Hm). rewrite V. cbn [fst snd]. clear V.
  set (e0 := set_itype mnem (compact_entry H s)).
  pose proof (decode_aux_frame H e0 (compact_code H s) aux)
    as (Fea & Fip & Fit & _).
  set (e := decode_aux H e0 (compact_code H s) aux) in *.
  destruct (decode_operand_others H e (compact_code H s) 0 k0 ltac:(lia))
    as (A1 & A2 & A3 & _ & _ & A6).
  set (s1 := decode_operand H e (compact_code H s) 0 k0) in *.
  destruct (decode_operand_others H s1 (compact_code H s) 1 k1 ltac:(lia))
    as (B1 & B2 & B3 & _ & _ & B6).
  set (s2 := decode_operand H s1 (compact_code H s) 1 k1) in *.
  destruct (decode_operand_others H s2 (compact_code H s) 2 k2 ltac:(lia))
    as (C1 & C2 & C3 & _ & _ & C6).
  set (s3 := decode_operand H s2 (compact_code H s) 2 k2) in *.
  split; [rewrite C3, B3, A3, Fit; reflexivity|].
  split; [rewrite C1, B1, A1, Fea; reflexivity|].
  split; [rewrite C2, B2, A2, Fip; reflexivity|].
  intros i Hi Hk. destruct i as [|[|[|i]]]; try lia.
  - rewrite (C6 0%nat) by lia. rewrite (B6 0%nat) by lia.
    subst s1. rewrite Hk. apply decode_operand_absent.
  - rewrite (C6 1%nat) by lia.
    subst s2. rewrite Hk. apply decode_operand_absent.
  - subst s3. rewrite Hk. apply decode_operand_absent.
Qed.

End CompactShape.

(** ** The passes after decoding *)

Section PassProperties.
Variable H : host.

Lemma pass_frame_refl (s : state) : pass_frame s s.
Proof. repeat split. Qed.

Lemma pass_frame_trans (s t u : state) :
  pass_frame s t -> pass_frame t u -> pass_frame s u.
Proof.
  unfold pass_frame. intros (A1 & A2 & A3 & A4 & A5) (B1 & B2 & B3 & B4 & B5).
  repeat split; congruence.
Qed.

Lemma fix_ldst_frame (s : state) : pass_frame s (fix_ldst H s).
Proof.
  unfold fix_ldst. cbv zeta.
  destruct (itype (cmd s)); try apply pass_frame_refl;
    destruct (_ =? aux_b H); try (repeat split; fail);
    destruct (_ =? aux_w H); repeat split.
Qed.

Lemma simplify_frame (s : state) : pass_frame s (simplify H s).
Proof.
  rewrite simplify_dispatch. cbv zeta.
  destruct (is_ldst (itype (cmd s))).
  { destruct (simplify_ldst_cases H s) as [E|[E|E]]; rewrite E;
      repeat split. }
  destruct (is_addn (itype (cmd s)) || is_subn (itype (cmd s))).
  { unfold simplify_shift.
    destruct (optype_eqb (type (Op3 (cmd s))) o_imm); [|apply pass_frame_refl].
    destruct (itype (cmd s)) eqn:Ei; try apply pass_frame_refl;
      unfold scale_Op3; fields; rewrite ?Ei; repeat split. }
  destruct (is_sub (itype (cmd s))); [|apply pass_frame_refl].
  unfold simplify_sub. cbv zeta.
  destruct (op_is_imm (Op1 (cmd s)) 0 && _); repeat split.
Qed.

Lemma inline_const_pass_frame (s : state) : pass_frame s (inline_const H s).
Proof.
  unfold inline_const. cbv zeta.
  destruct (_ && _); [|apply pass_frame_refl].
  destruct (isEnabled H _); repeat split.
Qed.

(** X17.  The passes [fix_ldst], [simplify] and [inline_const] never
    change the address, the cursor [cmd.size] or the long immediate:
    [ana] returns the cursor that the decoder left.  When the decoder
    returns 0 no pass runs and the state is the decoder's. *)
Theorem ana_length (s : state) :
  let d := decode H s in
  let r := ana H s in
  pass_frame (snd d) (snd r) /\
  fst r = size (cmd (snd d)) /\
  (fst d = 0 -> snd r = snd d).
Proof.
  cbv zeta. unfold ana. fold (decode H s).
  destruct (decode H s) as [sz s1]. cbn [fst snd].
  destruct (Z.eqb_spec sz 0) as [E|E]; cbn [negb].
  - cbn [fst snd]. repeat split.
  - set (s2 := fix_ldst H s1).
    set (s3 := if negb (Z.land (idpflags H) (ARC_SIMPLIFY H) =? 0)
               then simplify H s2 else s2).
    set (s4 := if negb (Z.land (idpflags H) (ARC_INLINECONST H) =? 0)
               then inline_const H s3 else s3).
    cbn [fst snd].
    assert (F : pass_frame s1 s4).
    { apply (pass_frame_trans s1 s2); [apply fix_ldst_frame|].
      apply (pass_frame_trans s2 s3).
      - subst s3.
        destruct (negb (Z.land (idpflags H) (ARC_SIMPLIFY H) =? 0));
          [apply simplify_frame | apply pass_frame_refl].
      - subst s4.
        destruct (negb (Z.land (idpflags H) (ARC_INLINECONST H) =? 0));
          [apply inline_const_pass_frame | apply pass_frame_refl]. }
    split; [exact F|]. split; [|intros; contradiction].
    destruct F as (_ & _ & F & _). exact F.
Qed.

(** X18.  [fix_ldst] applied twice is [fix_ldst] applied once.  It
    keeps the instruction code, [cmd.auxpref], the first and the third
    operand, and of the second operand everything but the width. *)
Theorem fix_ldst_idempotent (s : state) :
  fix_ldst H (fix_ldst H s) = fix_ldst H s /\
  itype (cmd (fix_ldst H s)) = itype (cmd s) /\
  auxpref (cmd (fix_ldst H s)) = auxpref (cmd s) /\
  Op1 (cmd (fix_ldst H s)) = Op1 (cmd s) /\
  Op3 (cmd (fix_ldst H s)) = Op3 (cmd s) /\
  set_dtyp dt_dword (Op2 (cmd (fix_ldst H s))) = set_dtyp dt_dword (Op2 (cmd s)).
Proof.
  unfold fix_ldst. cbv zeta.
  destruct (itype (cmd s)) eqn:Ei; try (rewrite Ei; repeat split; fail);
    destruct (Z.land (auxpref (cmd s)) (aux_zmask H) =? aux_b H) eqn:Eb;
    try destruct (Z.land (auxpref (cmd s)) (aux_zmask H) =? aux_w H) eqn:Ew;
    fields; rewrite ?Ei, ?Eb, ?Ew; fields; repeat split.
Qed.

(** X19.  For [add1], [add2], [add3], [sub1], [sub2], [sub3],
    [simplify] does nothing unless the third operand is an immediate.
    When it is, the value is multiplied by 2, 4, 8 in 32 bits and the
    instruction becomes [add] or [sub]; nothing else changes. *)
Theorem simplify_shift_scales (s : state) :
  let it := itype (cmd s) in
  is_addn it || is_subn it = true ->
  (type (Op3 (cmd s)) <> o_imm -> simplify H s = s) /\
  (type (Op3 (cmd s)) = o_imm ->
   simplify H s =
   set_itype (if is_addn it then ARC_add else ARC_sub)
     (set_Op3 (set_value (value (Op3 (cmd s)) * 2 ^ shift_count it)
                 (Op3 (cmd s))) s)).
Proof.
  cbv zeta. intros Hc. rewrite simplify_dispatch. cbv zeta.
  assert (L : is_ldst (itype (cmd s)) = false)
    by (destruct (itype (cmd s)); try discriminate Hc; reflexivity).
  rewrite L, Hc. unfold simplify_shift.
  split.
  - intros Ht. destruct (type (Op3 (cmd s))); try reflexivity. congruence.
  - intros Ht. rewrite Ht. cbn [optype_eqb].
    destruct (itype (cmd s)) eqn:Ei; try discriminate Hc;
      unfold scale_Op3; fields; rewrite Ei; reflexivity.
Qed.

(** X20.  [simplify] turns a [sub] whose first operand is the
    immediate 0 and whose flag bit is set into [cmp]: the second and
    third operands move to the first and second place, the third
    becomes [o_void], and the flag bit is cleared.  Any other [sub] is
    left as it is. *)
Theorem simplify_sub_to_cmp (s : state) :
  itype (cmd s) = ARC_sub ->
  let s' := simplify H s in
  (type (Op1 (cmd s)) = o_imm -> value (Op1 (cmd s)) = 0 ->
   Z.land (auxpref (cmd s)) (aux_f H) <> 0 ->
   itype (cmd s') = ARC_cmp /\
   Op1 (cmd s') = Op2 (cmd s) /\ Op2 (cmd s') = Op3 (cmd s) /\
   Op3 (cmd s') = set_type o_void (Op3 (cmd s)) /\
   Z.land (auxpref (cmd s')) (aux_f H) = 0) /\
  (type (Op1 (cmd s)) <> o_imm \/ value (Op1 (cmd s)) <> 0 \/
   Z.land (auxpref (cmd s)) (aux_f H) = 0 -> s' = s).
Proof.
  intros Ei. cbv zeta. unfold simplify. rewrite Ei. unfold simplify_sub, op_is_imm.
  cbv zeta. split.
  - intros Et Ev Ef. rewrite Et, Ev.
    replace (Z.land (auxpref (cmd s)) (aux_f H) =? 0) with false
      by (symmetry; apply Z.eqb_neq; exact Ef).
    cbn [optype_eqb Z.eqb andb negb]. fields.
    repeat split. apply land_uint16_lnot.
  - intros Hn.
    destruct (type (Op1 (cmd s))) eqn:Et; try reflexivity.
    cbn [optype_eqb andb].
    destruct (Z.eqb_spec (value (Op1 (cmd s))) 0) as [Ev|Ev]; [|reflexivity].
    destruct (Z.eqb_spec (Z.land (auxpref (cmd s)) (aux_f H)) 0) as [Ef|Ef];
      [reflexivity|].
    exfalso. destruct Hn as [N|[N|N]]; congruence.
Qed.

(** X21.  For a load or store whose second operand is a displacement
    from a register ([membase] 0) in the scaled addressing mode,
    [simplify] multiplies the offset by 2 for word access and by 4 for
    long access, in 32 bits, and clears the addressing-mode field.  For
    any other access width the instruction is left as it is. *)
Theorem simplify_scaled_load (s : state) :
  is_ldst (itype (cmd s)) = true ->
  type (Op2 (cmd s)) = o_displ -> membase (Op2 (cmd s)) = 0 ->
  Z.land (auxpref (cmd s)) (aux_amask H) = aux_as H ->
  let z := Z.land (auxpref (cmd s)) (aux_zmask H) in
  let s' := simplify H s in
  (z = aux_w H \/ z = aux_l H ->
   addr (Op2 (cmd s')) =
     uint32 (addr (Op2 (cmd s)) * (if z =? aux_w H then 2 else 4)) /\
   Z.land (auxpref (cmd s')) (aux_amask H) = 0 /\
   itype (cmd s') = itype (cmd s) /\
   Op1 (cmd s') = Op1 (cmd s) /\ Op3 (cmd s') = Op3 (cmd s)) /\
  (z <> aux_w H -> z <> aux_l H -> s' = s).
Proof.
  intros Hc Ht Hm Ha. cbv zeta. rewrite simplify_dispatch. cbv zeta. rewrite Hc.
  unfold simplify_ldst. cbv zeta. rewrite Ht, Hm, Ha, Z.eqb_refl.
  cbn [optype_eqb Z.eqb andb]. split.
  - intros Hz.
    destruct (Z.eqb_spec (Z.land (auxpref (cmd s)) (aux_zmask H)) (aux_w H)) as [Ew|Ew].
    + unfold scale_Op2. fields. repeat split. apply land_uint16_lnot.
    + destruct Hz as [Hz|Hz]; [contradiction|].
      rewrite Hz, Z.eqb_refl. cbn [negb].
      unfold scale_Op2. fields. repeat split. apply land_uint16_lnot.
  - intros Nw Nl.
    destruct (Z.eqb_spec (Z.land (auxpref (cmd s)) (aux_zmask H)) (aux_w H)) as [Ew|Ew];
      [contradiction|].
    destruct (Z.eqb_spec (Z.land (auxpref (cmd s)) (aux_zmask H)) (aux_l H)) as [El|El];
      [contradiction|]. reflexivity.
Qed.

End PassProperties.

(** ** The 32-bit encoding *)

Ltac enumerate x k :=
  let E := fresh "E" in
  assert (E : In x (map Z.of_nat (seq 0 k)))
    by (apply in_map_iff; exists (Z.to_nat x); split; [lia | apply in_seq; lia]);
  cbv in E;
  repeat (destruct E as [E|E]; [symmetry in E|]);
  [.. | destruct E].

Section LegacyLength.
Variable H : host.

Lemma land31_bound (x : Z) : 0 <= Z.land x 31 < 32.
Proof.
  change 31 with (Z.ones 5). rewrite Z.land_ones by lia.
  apply Z.mod_pos_bound. lia.
Qed.

Lemma single_operand_fields (s : state) (a b c d : Z) :
  0 <= c < 64 ->
  match single_operand s a b c d with
  | None => c = 0x3F
  | Some (s', (a', b', c')) =>
      size (cmd s') = size (cmd s) /\ c' = -1 /\
      (c <> 0x3F -> b' = b) /\ (c = 0x3F -> b' = -1)
  end.
Proof.
  intros Hc. enumerate c 64%nat; subst c; unfold single_operand;
    try (cbn [set_itype with_cmd cmd size]; repeat split; (reflexivity || lia)).
  destruct d as [|p|p]; try (repeat split; (reflexivity || lia)).
  destruct p as [[p|p|]|[p|p|]|]; repeat split; (reflexivity || lia).
Qed.

Lemma major_class_fields (s : state) (code i a b c d : Z) :
  0 <= i < 32 -> 0 <= c < 64 ->
  match major_class s code i a b c d with
  | None => i = 3 /\ c = 0x3F
  | Some (s', (a', b', c')) =>
      size (cmd s') = size (cmd s) /\
      (i <> 3 -> b' = b /\ c' = c) /\
      (i = 3 -> c' = -1 /\ (c <> 0x3F -> b' = b) /\ (c = 0x3F -> b' = -1))
  end.
Proof.
  intros Hi Hc. enumerate i 32%nat; subst i; unfold major_class;
    try (repeat split; (reflexivity || lia)).
  pose proof (single_operand_fields s a b c d Hc) as S.
  destruct (single_operand s a b c d) as [[s' [[a' b'] c']]|].
  - destruct S as (S1 & S2 & S3 & S4). repeat split; (assumption || lia || auto).
  - split; [reflexivity | exact S].
Qed.

Lemma legacy_flags_size (s : state) (a b c : Z) :
  size (cmd (snd (legacy_flags H s a b c))) =
  if (b =? LIMM) || (c =? LIMM) then uint16 (size (cmd s) + 4) else size (cmd s).
Proof.
  unfold legacy_flags, ua_next_long. split_ifs; reflexivity.
Qed.

Lemma legacy_operands_size (s : state) (code i a b c d li : Z) (n3 : bool) :
  size (cmd (legacy_operands H s code i a b c d li n3)) = size (cmd s).
Proof.
  unfold legacy_operands. cbv zeta.
  destruct (i =? 0); [reflexivity|].
  destruct ((i =? 1) || (i =? 2)).
  { destruct (itype (cmd s)); reflexivity. }
  destruct (i =? 7); [reflexivity|].
  destruct (negb (a =? -1)), (negb (b =? -1)), (negb (c =? -1) && negb n3);
    reflexivity.
Qed.

Lemma doRegisterInstruction_size (s : state) (code : Z) :
  let i := Z.land (Z.shiftr code 27) 31 in
  i < 4 \/ 6 < i ->
  size (cmd (doRegisterInstruction H s code)) =
  if legacy_reads_limm code then uint16 (size (cmd s) + 4) else size (cmd s).
Proof.
  intros i Hi. unfold doRegisterInstruction, legacy_reads_limm. cbv zeta.
  fold i.
  set (a := Z.land (Z.shiftr code 21) 63).
  set (b := Z.land (Z.shiftr code 15) 63).
  set (c := Z.land (Z.shiftr code 9) 63).
  pose proof (land31_bound (Z.shiftr code 27)) as Bi. fold i in Bi.
  pose proof (land63_bound (Z.shiftr code 15)) as Bb. fold b in Bb.
  pose proof (land63_bound (Z.shiftr code 9)) as Bc. fold c in Bc.
  replace ((4 <=? i) && (i <=? 6)) with false
    by (symmetry; apply andb_false_iff;
        destruct Hi; [left; apply Z.leb_gt | right; apply Z.leb_gt]; lia).
  match goal with |- context [major_class ?s0 code i a b c ?d] =>
    pose proof (major_class_fields s0 code i a b c d Bi Bc) as M;
    destruct (major_class s0 code i a b c d) as [[s1 [[a1 b1] c1]]|] end.
  - destruct M as (M1 & M2 & M3).
    pose proof (legacy_flags_size s1 a1 b1 c1) as F.
    destruct (legacy_flags H s1 a1 b1 c1) as [imm s2]. cbn [snd] in F.
    match goal with |- context [if negb ?n then _ else _] => destruct n end;
      cbn [negb]; rewrite ?legacy_operands_size; fields; rewrite F, M1; fields.
    all: destruct (Z.eqb_spec i 3) as [E3|E3];
      [ destruct (M3 E3) as (C1 & Bn & Bs); rewrite C1;
        destruct (Z.eqb_spec c 63) as [E63|E63];
        [ rewrite (Bs E63), andb_false_r; reflexivity
        | rewrite (Bn E63), andb_true_r, orb_false_r; reflexivity ]
      | destruct (M2 E3) as (-> & ->); reflexivity ].
  - destruct M as (M1 & M2). fields.
    rewrite M1, M2. cbn [Z.eqb Pos.eqb negb andb]. rewrite andb_false_r.
    reflexivity.
Qed.

Lemma doBranchInstruction_size (s : state) (code : Z) :
  size (cmd (doBranchInstruction s code)) = size (cmd s).
Proof.
  unfold doBranchInstruction. cbv zeta.
  destruct (Z.land (Z.shiftr code 27) 31) as [|p|p]; try reflexivity.
  do 3 (destruct p as [p|p|]; try reflexivity).
Qed.

Lemma ana_result_is_size (s : state) :
  fst (ana H s) = size (cmd (snd (decode H s))).
Proof.
  unfold ana. fold (decode H s). destruct (decode H s) as [sz s1].
  cbn [fst snd].
  destruct (negb (sz =? 0)); [|reflexivity].
  destruct (fix_ldst_frame H s1) as (_ & _ & F1 & _).
  destruct (negb (Z.land (idpflags H) (ARC_SIMPLIFY H) =? 0));
    destruct (negb (Z.land (idpflags H) (ARC_INLINECONST H) =? 0)).
  - destruct (simplify_frame H (fix_ldst H s1)) as (_ & _ & F2 & _).
    destruct (inline_const_pass_frame H (simplify H (fix_ldst H s1)))
      as (_ & _ & F3 & _). congruence.
  - destruct (simplify_frame H (fix_ldst H s1)) as (_ & _ & F2 & _). congruence.
  - destruct (inline_const_pass_frame H (fix_ldst H s1)) as (_ & _ & F3 & _).
    congruence.
  - exact F1.
Qed.

(** X22.  A 32-bit decode at an aligned address with the cursor at 0
    has length 4 or 8, never 0: it is 8 exactly when the word is
    followed by a long immediate, that is, for a register word whose b
    or c field is 62 (in the single-operand class, whose b field is 62
    and whose sub-opcode is not 0x3F).  [ana] returns the same
    length. *)
Theorem legacy_length (s : state) :
  Z.land (ea (cmd s)) 3 = 0 -> size (cmd s) = 0 ->
  let len := if legacy_reads_limm (legacy_word H s) then 8 else 4 in
  fst (ana_old H s) = len /\
  size (cmd (snd (ana_old H s))) = len /\
  (is_a4 H = true -> fst (ana H s) = len).
Proof.
  intros Ha Hs len.
  assert (E : fst (ana_old H s) = len /\ size (cmd (snd (ana_old H s))) = len).
  { rewrite (ana_old_aligned H s Ha). cbv zeta. cbn [fst snd].
    set (code := legacy_word H s) in *.
    set (s0 := set_itype ARC_null _).
    assert (S0 : size (cmd s0) = 4) by (subst s0; fields; rewrite Hs; reflexivity).
    assert (G : size (cmd match Z.land (Z.shiftr code 27) 31 with
                          | 4 | 5 | 6 => doBranchInstruction s0 code
                          | _ => doRegisterInstruction H s0 code
                          end) = len).
    { pose proof (land31_bound (Z.shiftr code 27)) as Bi.
      destruct (Z.le_gt_cases 4 (Z.land (Z.shiftr code 27) 31)) as [L4|L4];
        [destruct (Z.le_gt_cases (Z.land (Z.shiftr code 27) 31) 6) as [L6|L6]|].
      - assert (R : legacy_reads_limm code = false).
        { unfold legacy_reads_limm. cbv zeta.
          replace (4 <=? Z.land (Z.shiftr code 27) 31) with true
            by (symmetry; apply Z.leb_le; lia).
          replace (Z.land (Z.shiftr code 27) 31 <=? 6) with true
            by (symmetry; apply Z.leb_le; lia).
          reflexivity. }
        subst len. rewrite R.
        assert (B : match Z.land (Z.shiftr code 27) 31 with
                    | 4 | 5 | 6 => doBranchInstruction s0 code
                    | _ => doRegisterInstruction H s0 code
                    end = doBranchInstruction s0 code).
        { destruct (Z.land (Z.shiftr code 27) 31) as [|p|p]; try reflexivity;
            try lia.
          do 3 (destruct p as [p|p|]; try reflexivity; try lia). }
        rewrite B, doBranchInstruction_size. exact S0.
      - assert (B : match Z.land (Z.shiftr code 27) 31 with
                    | 4 | 5 | 6 => doBranchInstruction s0 code
                    | _ => doRegisterInstruction H s0 code
                    end = doRegisterInstruction H s0 code).
        { destruct (Z.land (Z.shiftr code 27) 31) as [|p|p]; try reflexivity;
            try lia.
          do 3 (destruct p as [p|p|]; try reflexivity; try lia). }
        rewrite B, doRegisterInstruction_size by lia. rewrite S0. subst len.
        destruct (legacy_reads_limm code); reflexivity.
      - assert (B : match Z.land (Z.shiftr code 27) 31 with
                    | 4 | 5 | 6 => doBranchInstruction s0 code
                    | _ => doRegisterInstruction H s0 code
                    end = doRegisterInstruction H s0 code).
        { destruct (Z.land (Z.shiftr code 27) 31) as [|p|p]; try reflexivity;
            try lia.
          do 3 (destruct p as [p|p|]; try reflexivity; try lia). }
        rewrite B, doRegisterInstruction_size by lia. rewrite S0. subst len.
        destruct (legacy_reads_limm code); reflexivity. }
    split; exact G. }
  destruct E as [E1 E2]. split; [exact E1|]. split; [exact E2|].
  intros Ha4. rewrite ana_result_is_size. unfold decode. rewrite Ha4. exact E2.
Qed.

End LegacyLength.

Section LegacyInstructions.
Variable H : host.

Lemma passes_inert (s : state) :
  pass_inert (itype (cmd s)) = true ->
  fix_ldst H s = s /\ simplify H s = s /\ inline_const H s = s.
Proof.
  unfold pass_inert, fix_ldst, simplify, inline_const.
  destruct (itype (cmd s)); cbn; intros E; try discriminate E; auto.
Qed.

Lemma ana_inert (s : state) :
  pass_inert (itype (cmd (snd (decode H s)))) = true ->
  snd (ana H s) = snd (decode H s).
Proof.
  intros Hk. unfold ana. fold (decode H s).
  destruct (decode H s) as [sz s1]. cbn [fst snd] in Hk |- *.
  destruct (passes_inert s1 Hk) as (E1 & E2 & E3).
  destruct (negb (sz =? 0)); [|reflexivity].
  rewrite E1.
  destruct (negb (Z.land (idpflags H) (ARC_SIMPLIFY H) =? 0));
    rewrite ?E2; destruct (negb (Z.land (idpflags H) (ARC_INLINECONST H) =? 0));
    rewrite ?E3; reflexivity.
Qed.

Lemma ana_old_branch (s : state) :
  Z.land (ea (cmd s)) 3 = 0 ->
  4 <= Z.land (Z.shiftr (legacy_word H s) 27) 31 <= 6 ->
  snd (ana_old H s) = doBranchInstruction (legacy_entry s) (legacy_word H s).
Proof.
  intros Ha Hi. rewrite ana_old_aligned by assumption. cbv zeta.
  unfold legacy_entry. cbn [snd].
  destruct (Z.land (Z.shiftr (legacy_word H s) 27) 31) as [|p|p]; try lia.
  do 3 (destruct p as [p|p|]; try lia; try reflexivity).
Qed.

Lemma land_ones20_bound (x : Z) : 0 <= Z.land x 0xFFFFF < 2 ^ 20.
Proof.
  change 0xFFFFF with (Z.ones 20). rewrite Z.land_ones by lia.
  apply Z.mod_pos_bound. lia.
Qed.

Lemma land511_bound (x : Z) : 0 <= Z.land x 0x1FF < 512.
Proof.
  change 0x1FF with (Z.ones 9). rewrite Z.land_ones by lia.
  apply Z.mod_pos_bound. lia.
Qed.

(** X23.  A 32-bit word of class 4, 5 or 6 is [b], [bl] or [lp].  Its
    operand is a near address: [cmd.ip] plus 4 plus four times the
    signed 20-bit field in bits 26..7, in 32 bits.  [cmd.auxpref] holds
    the low nine bits of the word, and the other operands are not
    written. *)
Theorem legacy_branch (s : state) :
  is_a4 H = true -> Z.land (ea (cmd s)) 3 = 0 ->
  let code := legacy_word H s in
  let i := Z.land (Z.shiftr code 27) 31 in
  4 <= i <= 6 ->
  let s' := snd (ana H s) in
  itype (cmd s') = (if i =? 4 then ARC_b else if i =? 5 then ARC_bl else ARC_lp) /\
  type (Op1 (cmd s')) = o_near /\
  addr (Op1 (cmd s')) =
    uint32 (ip (cmd s) + 4 * sign_extend 20 (BITS code 26 7) + 4) /\
  auxpref (cmd s') = Z.land code 0x1FF /\
  Op2 (cmd s') = set_dtyp dt_dword (Op2 (cmd s)) /\
  Op3 (cmd s') = set_dtyp dt_dword (Op3 (cmd s)).
Proof.
  intros Ha4 Ha code i Hi s'.
  assert (B : snd (decode H s) = doBranchInstruction (legacy_entry s) code).
  { unfold decode. rewrite Ha4. apply ana_old_branch; assumption. }
  assert (It : itype (cmd (doBranchInstruction (legacy_entry s) code)) =
               (if i =? 4 then ARC_b else if i =? 5 then ARC_bl else ARC_lp)).
  { unfold doBranchInstruction. cbv zeta. fold i.
    assert (Hc : i = 4 \/ i = 5 \/ i = 6) by lia.
    destruct Hc as [-> | [-> | ->]]; reflexivity. }
  assert (E : s' = doBranchInstruction (legacy_entry s) code).
  { subst s'. rewrite ana_inert; rewrite B; [reflexivity|].
    rewrite It. destruct (i =? 4); [reflexivity|]. destruct (i =? 5); reflexivity. }
  rewrite E. split; [exact It|].
  unfold doBranchInstruction. cbv zeta. fold i.
  assert (Hc : i = 4 \/ i = 5 \/ i = 6) by lia.
  assert (L : (if Z.land (Z.shiftr code 7) 1048575 >=? 524288
               then Z.land (Z.shiftr code 7) 1048575 - 1048576
               else Z.land (Z.shiftr code 7) 1048575)
              = sign_extend 20 (BITS code 26 7)).
  { unfold BITS, sign_extend.
    change (Z.shiftl 1 (26 - 7 + 1) - 1) with 1048575.
    pose proof (land_ones20_bound (Z.shiftr code 7)) as Bl.
    rewrite (testbit_top _ 19) by (change (2 ^ (19 + 1)) with (2 ^ 20); lia).
    change (2 ^ 19) with 524288. change (2 ^ 20) with 1048576 in *.
    destruct (Z.geb_spec (Z.land (Z.shiftr code 7) 1048575) 524288);
      destruct (Z.leb_spec 524288 (Z.land (Z.shiftr code 7) 1048575));
      cbn [Z.b2z]; lia. }
  rewrite L.
  pose proof (land511_bound code) as Bd.
  destruct Hc as [-> | [-> | ->]]; unfold doBranchOperand, legacy_entry; fields;
    (split; [reflexivity|]);
    (split; [f_equal; lia|]);
    (split; [apply uint16_small; lia|]); split; reflexivity.
Qed.

Lemma major_class_alu (s : state) (code i a b c d : Z) :
  8 <= i < 32 -> itype (cmd s) = ARC_null ->
  exists s1,
    major_class s code i a b c d = Some (s1, (a, b, c)) /\
    itype (cmd s1) = legacy_alu_itype i /\
    auxpref (cmd s1) = auxpref (cmd s) /\ size (cmd s1) = size (cmd s) /\
    ea (cmd s1) = ea (cmd s) /\
    Op1 (cmd s1) = Op1 (cmd s) /\ Op2 (cmd s1) = Op2 (cmd s) /\
    Op3 (cmd s1) = Op3 (cmd s).
Proof.
  intros Hi Hn. enumerate i 32%nat; try lia; subst i;
    eexists; (split; [reflexivity|]); repeat split; exact Hn.
Qed.

Lemma pseudo_plain (code i b c d imm : Z) :
  8 <= i < 32 ->
  b <> c \/ folds_equal_sources i = false ->
  code <> 0x7FFFFFFF ->
  pseudo (legacy_alu_itype i) code b c d imm =
  mk_pseudo (legacy_alu_itype i) b d imm false false.
Proof.
  intros Hi Hbc Hx.
  assert (Ex : (code =? 0x7FFFFFFF) = false) by (apply Z.eqb_neq; exact Hx).
  enumerate i 32%nat; try lia; subst i; cbn [legacy_alu_itype pseudo];
    rewrite ?Ex; try reflexivity;
    (destruct Hbc as [N|N]; [|discriminate N]);
    replace (b =? c) with false by (symmetry; apply Z.eqb_neq; exact N);
    reflexivity.
Qed.

Lemma legacy_operands_alu3 (s : state) (code i a b c d li : Z) :
  8 <= i -> 0 <= a -> 0 <= b -> 0 <= c ->
  let s' := legacy_operands H s code i a b c d li false in
  itype (cmd s') = itype (cmd s) /\ auxpref (cmd s') = auxpref (cmd s) /\
  Op1 (cmd s') = doRegisterOperand a (Op1 (cmd s)) 0 li false /\
  Op2 (cmd s') = doRegisterOperand b (Op2 (cmd s)) d li false /\
  Op3 (cmd s') = doRegisterOperand c (Op3 (cmd s)) d li false.
Proof.
  intros Hi Ha Hb Hc. unfold legacy_operands.
  replace (i =? 0) with false by (symmetry; apply Z.eqb_neq; lia).
  replace (i =? 1) with false by (symmetry; apply Z.eqb_neq; lia).
  replace (i =? 2) with false by (symmetry; apply Z.eqb_neq; lia).
  replace (i =? 7) with false by (symmetry; apply Z.eqb_neq; lia).
  replace (a =? -1) with false by (symmetry; apply Z.eqb_neq; lia).
  replace (b =? -1) with false by (symmetry; apply Z.eqb_neq; lia).
  replace (c =? -1) with false by (symmetry; apply Z.eqb_neq; lia).
  fields. repeat split.
Qed.

(** X24.  A 32-bit word of a three-operand class (8 and above) that is
    neither the [nop] encoding nor a word with equal sources of the
    classes add, adc, and, or: the three register fields a, b, c are
    decoded in turn by [doRegisterOperand].  The destination gets the
    short immediate 0; both sources get the same short immediate and
    the same long immediate. *)
Theorem legacy_three_operands (s : state) :
  Z.land (ea (cmd s)) 3 = 0 ->
  let code := legacy_word H s in
  let i := Z.land (Z.shiftr code 27) 31 in
  let a := Z.land (Z.shiftr code 21) 63 in
  let b := Z.land (Z.shiftr code 15) 63 in
  let c := Z.land (Z.shiftr code 9) 63 in
  8 <= i ->
  b <> c \/ folds_equal_sources i = false ->
  code <> 0x7FFFFFFF ->
  let li := sint32 (if (b =? LIMM) || (c =? LIMM) then legacy_limm H s else 0) in
  let s' := snd (ana_old H s) in
  itype (cmd s') = legacy_alu_itype i /\
  Op1 (cmd s') = doRegisterOperand a (set_dtyp dt_dword (Op1 (cmd s))) 0 li false /\
  Op2 (cmd s') =
    doRegisterOperand b (set_dtyp dt_dword (Op2 (cmd s))) (short_d code) li false /\
  Op3 (cmd s') =
    doRegisterOperand c (set_dtyp dt_dword (Op3 (cmd s))) (short_d code) li false.
Proof.
  intros Hal code i a b c Hi Hbc Hx li s'.
  pose proof (land31_bound (Z.shiftr code 27)) as Bi. fold i in Bi.
  pose proof (land63_bound (Z.shiftr code 21)) as Ba. fold a in Ba.
  pose proof (land63_bound (Z.shiftr code 15)) as Bb. fold b in Bb.
  pose proof (land63_bound (Z.shiftr code 9)) as Bc. fold c in Bc.
  subst s'. rewrite ana_old_state by (assumption || (fold code; fold i; lia)).
  fold (legacy_entry s). fold code.
  unfold doRegisterInstruction. cbv zeta. fold i a b c (short_d code).
  set (s0 := set_auxpref (Z.land code 511) (legacy_entry s)).
  destruct (major_class_alu s0 code i a b c (short_d code) ltac:(lia) eq_refl)
    as (s1 & M & I1 & A1 & S1 & E1 & O1 & O2 & O3).
  rewrite M.
  pose proof (legacy_flags_frame H s1 a b c) as (F0 & F1 & F2 & F3).
  pose proof (legacy_flags_immediate H s1 a b c) as FI.
  destruct (legacy_flags H s1 a b c) as [imm s2]. cbn [fst snd] in F0, F1, F2, F3, FI.
  rewrite F0, I1, pseudo_plain by (assumption || lia).
  fields.
  match goal with |- context [legacy_operands H ?t ?cd ?i0 ?a0 ?b0 ?c0 ?d0 ?l0 false] =>
    pose proof (legacy_operands_alu3 t cd i0 a0 b0 c0 d0 l0) as L end.
  destruct L as (L0 & _ & L1 & L2 & L3); try lia.
  rewrite L0, L1, L2, L3. fields. rewrite F1, F2, F3, O1, O2, O3.
  assert (El : sint32 imm = li).
  { subst li. rewrite FI. unfold legacy_limm, legacy_word.
    rewrite E1, S1. reflexivity. }
  rewrite El. subst s0. unfold legacy_entry. fields. repeat split.
Qed.

(** X25.  A 32-bit word of the OR class whose two source fields are
    equal decodes to [mov], one of the ADC class to [rlc]: two
    operands, the third one not written. *)
Theorem legacy_or_adc_same_sources (s : state) :
  is_a4 H = true -> Z.land (ea (cmd s)) 3 = 0 ->
  let code := legacy_word H s in
  let i := Z.land (Z.shiftr code 27) 31 in
  let a := Z.land (Z.shiftr code 21) 63 in
  let b := Z.land (Z.shiftr code 15) 63 in
  i = 13 \/ i = 9 ->
  b = Z.land (Z.shiftr code 9) 63 ->
  let li := sint32 (if b =? LIMM then legacy_limm H s else 0) in
  let s' := snd (ana H s) in
  itype (cmd s') = (if i =? 13 then ARC_mov else ARC_rlc) /\
  Op1 (cmd s') = doRegisterOperand a (set_dtyp dt_dword (Op1 (cmd s))) 0 li false /\
  Op2 (cmd s') =
    doRegisterOperand b (set_dtyp dt_dword (Op2 (cmd s))) (short_d code) li false /\
  Op3 (cmd s') = set_dtyp dt_dword (Op3 (cmd s)).
Proof.
  intros Ha4 Hal code i a b Hi Hbc li s'.
  assert (D : snd (decode H s) = doRegisterInstruction H (legacy_entry s) code).
  { unfold decode. rewrite Ha4. apply ana_old_state; [assumption|].
    fold code. fold i. lia. }
  assert (R : let t := doRegisterInstruction H (legacy_entry s) code in
              itype (cmd t) = (if i =? 13 then ARC_mov else ARC_rlc) /\
              Op1 (cmd t) = doRegisterOperand a (set_dtyp dt_dword (Op1 (cmd s))) 0 li false /\
              Op2 (cmd t) =
                doRegisterOperand b (set_dtyp dt_dword (Op2 (cmd s))) (short_d code) li false /\
              Op3 (cmd t) = set_dtyp dt_dword (Op3 (cmd s))).
  { destruct Hi as [Hi|Hi].
    - pose proof (doRegisterInstruction_fold H (legacy_entry s) code ARC_or) as F.
      cbv zeta in F. fold i a b in F. rewrite Hi in F. rewrite <- Hbc in F.
      unfold pseudo in F. rewrite Z.eqb_refl, orb_diag in F. fields in F.
      destruct F as (F0 & F1 & F2 & F3); try reflexivity; try lia.
      cbv zeta. rewrite Hi, F0, F1, F2, F3. repeat split.
    - pose proof (doRegisterInstruction_fold H (legacy_entry s) code ARC_adc) as F.
      cbv zeta in F. fold i a b in F. rewrite Hi in F. rewrite <- Hbc in F.
      unfold pseudo in F. rewrite Z.eqb_refl, orb_diag in F. fields in F.
      destruct F as (F0 & F1 & F2 & F3); try reflexivity; try lia.
      cbv zeta. rewrite Hi, F0, F1, F2, F3. repeat split. }
  cbv zeta in R. destruct R as (R0 & R1 & R2 & R3).
  subst s'. rewrite ana_inert; rewrite D.
  - repeat split; assumption.
  - rewrite R0. destruct (i =? 13); reflexivity.
Qed.

Lemma land_sint32_low (x : Z) :
  Z.land (sint32 x) 0x1FFFFFF = x mod 2 ^ 25.
Proof.
  change 0x1FFFFFF with (Z.ones 25). rewrite Z.land_ones by lia.
  unfold sint32, uint32. cbv zeta.
  change (2 ^ 25) with 33554432.
  destruct (x mod 4294967296 <? 2147483648); Z.div_mod_to_equations; lia.
Qed.

(** X26.  A 32-bit word of class 7 is [jl] when bit 9 is set and [j]
    otherwise, with one operand taken from the b field: a register; for
    a short immediate the near address four times the immediate; for
    the long immediate the near address four times its low 25 bits,
    with [offb] 4. *)
Theorem legacy_jump (s : state) :
  is_a4 H = true -> Z.land (ea (cmd s)) 3 = 0 ->
  let code := legacy_word H s in
  let b := Z.land (Z.shiftr code 15) 63 in
  Z.land (Z.shiftr code 27) 31 = 7 ->
  let s' := snd (ana H s) in
  itype (cmd s') = (if Z.testbit code 9 then ARC_jl else ARC_j) /\
  (b < SHIMM_F -> type (Op1 (cmd s')) = o_reg /\ reg (Op1 (cmd s')) = b) /\
  (b = SHIMM_F \/ b = SHIMM ->
   type (Op1 (cmd s')) = o_near /\
   addr (Op1 (cmd s')) = uint32 (4 * short_d code)) /\
  (b = LIMM ->
   type (Op1 (cmd s')) = o_near /\
   addr (Op1 (cmd s')) = 4 * (legacy_limm H s mod 2 ^ 25) /\
   offb (Op1 (cmd s')) = 4) /\
  Op2 (cmd s') = set_dtyp dt_dword (Op2 (cmd s)) /\
  Op3 (cmd s') = set_dtyp dt_dword (Op3 (cmd s)).
Proof.
  intros Ha4 Hal code b Hi s'.
  set (a := Z.land (Z.shiftr code 21) 63).
  set (c := Z.land (Z.shiftr code 9) 63).
  pose proof (land63_bound (Z.shiftr code 15)) as Bb. fold b in Bb.
  assert (D : snd (decode H s) = doRegisterInstruction H (legacy_entry s) code).
  { unfold decode. rewrite Ha4.
    rewrite ana_old_aligned by assumption. cbv zeta. fold code. rewrite Hi.
    reflexivity. }
  set (jt := if Z.testbit code 9 then ARC_jl else ARC_j).
  assert (R : exists li,
              (b = LIMM -> li = sint32 (legacy_limm H s)) /\
              let t := doRegisterInstruction H (legacy_entry s) code in
              itype (cmd t) = jt /\
              Op1 (cmd t) = doRegisterOperand b (set_dtyp dt_dword (Op1 (cmd s)))
                              (short_d code) li true /\
              Op2 (cmd t) = set_dtyp dt_dword (Op2 (cmd s)) /\
              Op3 (cmd t) = set_dtyp dt_dword (Op3 (cmd s))).
  { unfold doRegisterInstruction. cbv zeta. rewrite Hi.
    fold a b c (short_d code). cbn [major_class]. fold jt.
    set (s1 := set_itype jt _).
    pose proof (legacy_flags_frame H s1 a b c) as (F0 & F1 & F2 & F3).
    pose proof (legacy_flags_immediate H s1 a b c) as FI.
    destruct (legacy_flags H s1 a b c) as [imm s2].
    cbn [fst snd] in F0, F1, F2, F3, FI.
    exists (sint32 imm). split.
    { intros Eb. rewrite FI, Eb. reflexivity. }
    rewrite F0. subst s1. fields.
    assert (P : pseudo jt code b c (short_d code) imm =
                mk_pseudo jt b (short_d code) imm false false)
      by (subst jt; destruct (Z.testbit code 9); reflexivity).
    rewrite P. fields. unfold legacy_operands. cbn [Z.eqb Pos.eqb orb].
    fields. rewrite F1, F2, F3. fields. repeat split. }
  destruct R as (li & Eli & R0 & R1 & R2 & R3).
  subst s'. rewrite ana_inert; rewrite D;
    [|rewrite R0; subst jt; destruct (Z.testbit code 9); reflexivity].
  rewrite R0, R1, R2, R3. split; [reflexivity|].
  unfold doRegisterOperand, SHIMM_F, SHIMM, LIMM in *.
  split; [|split; [|split; [|split; reflexivity]]].
  - intros Hlt.
    replace (b =? 61) with false by (symmetry; apply Z.eqb_neq; lia).
    replace (b =? 63) with false by (symmetry; apply Z.eqb_neq; lia).
    replace (b =? 62) with false by (symmetry; apply Z.eqb_neq; lia).
    fields. split; [reflexivity | apply uint16_small; lia].
  - intros [-> | ->]; cbn [Z.eqb Pos.eqb orb]; fields;
      (split; [reflexivity | f_equal; lia]).
  - intros Eb. rewrite Eb. cbn [Z.eqb Pos.eqb orb]. fields.
    split; [reflexivity|]. split; [|reflexivity].
    rewrite (Eli Eb), land_sint32_low.
    pose proof (Z.mod_pos_bound (legacy_limm H s) (2 ^ 25) ltac:(lia)) as Bm.
    change (2 ^ 25) with 33554432 in *.
    unfold uint32. rewrite Z.mod_small by lia. lia.
Qed.

Lemma is_imm_register (r : Z) : r < SHIMM_F -> is_imm r = false.
Proof.
  unfold is_imm, SHIMM_F, LIMM, SHIMM. intros Hr.
  replace (r =? 61) with false by (symmetry; apply Z.eqb_neq; lia).
  replace (r =? 62) with false by (symmetry; apply Z.eqb_neq; lia).
  replace (r =? 63) with false by (symmetry; apply Z.eqb_neq; lia).
  reflexivity.
Qed.

Lemma doIndirectOperand_offset (s : state) (b : Z) (x : op_t) (d li : Z) :
  b < SHIMM_F ->
  let r := doIndirectOperand H s b SHIMM x d li false in
  type r = o_displ /\ reg r = uint16 b /\ addr r = uint32 d /\ membase r = 0 /\
  dtyp r =
    (let z := Z.land (auxpref (cmd s)) (aux_zmask H) in
     if z =? aux_b H then dt_byte else if z =? aux_w H then dt_word else dt_dword).
Proof.
  intros Hb. unfold doIndirectOperand. rewrite (is_imm_register b Hb).
  cbn [andb negb is_imm SHIMM SHIMM_F LIMM Z.eqb Pos.eqb orb]. cbv zeta.
  destruct (Z.land (auxpref (cmd s)) (aux_zmask H) =? aux_b H);
    [|destruct (Z.land (auxpref (cmd s)) (aux_zmask H) =? aux_w H)];
    repeat split.
Qed.

(** X27.  A 32-bit [ld] (class 1, bit 13 clear) or [st] (class 2,
    bit 25 clear) with a register base: the second operand is the
    displacement [b, d] with the signed short immediate as offset and
    [membase] 0.  [cmd.auxpref] holds the six flag bits (bits 14..9 for
    [ld], 26..21 for [st]), and the width of the operand follows their
    size field. *)
Theorem legacy_load_store (s : state) :
  Z.land (ea (cmd s)) 3 = 0 ->
  let code := legacy_word H s in
  let i := Z.land (Z.shiftr code 27) 31 in
  let a := Z.land (Z.shiftr code 21) 63 in
  let b := Z.land (Z.shiftr code 15) 63 in
  let c := Z.land (Z.shiftr code 9) 63 in
  (i = 1 /\ Z.testbit code 13 = false) \/ (i = 2 /\ Z.testbit code 25 = false) ->
  b < SHIMM_F ->
  let s' := snd (ana_old H s) in
  let x := Op2 (cmd s') in
  itype (cmd s') = (if i =? 1 then ARC_ld else ARC_st) /\
  auxpref (cmd s') = (if i =? 1 then c else a) /\
  type x = o_displ /\ reg x = b /\ addr x = uint32 (short_d code) /\
  membase x = 0 /\
  dtyp x =
    (let z := Z.land (auxpref (cmd s')) (aux_zmask H) in
     if z =? aux_b H then dt_byte else if z =? aux_w H then dt_word else dt_dword).
Proof.
  intros Hal code i a b c Hi Hb s' x.
  pose proof (land63_bound (Z.shiftr code 21)) as Ba. fold a in Ba.
  pose proof (land63_bound (Z.shiftr code 15)) as Bb. fold b in Bb.
  pose proof (land63_bound (Z.shiftr code 9)) as Bc. fold c in Bc.
  assert (D : s' = doRegisterInstruction H (legacy_entry s) code).
  { subst s'. rewrite ana_old_aligned by assumption. cbv zeta. fold code. fold i.
    destruct Hi as [[-> _]|[-> _]]; reflexivity. }
  subst x. rewrite D. unfold doRegisterInstruction. cbv zeta.
  fold i a b c (short_d code).
  destruct Hi as [[Ei Et]|[Ei Et]]; rewrite Ei; cbn [major_class]; rewrite Et;
    match goal with |- context [legacy_flags H ?t a b c] =>
      pose proof (legacy_flags_frame H t a b c) as (F0 & F1 & F2 & F3);
      destruct (legacy_flags H t a b c) as [imm s2] end;
    cbn [fst snd] in F0, F1, F2, F3; fields in F0; rewrite F0;
    cbn [pseudo p_itype p_b p_d p_immediate noop3 isnop negb];
    unfold legacy_operands; cbn [Z.eqb Pos.eqb orb]; fields;
    match goal with |- context [doIndirectOperand H ?t b SHIMM ?y ?d ?l false] =>
      destruct (doIndirectOperand_offset t b y d l Hb) as (T & R & A & M & Dt)
    end;
    rewrite T, R, A, M, Dt; fields;
    (split; [reflexivity|]);
    (split; [apply uint16_small; lia|]);
    (split; [reflexivity|]);
    (split; [apply uint16_small; lia|]);
    (split; [reflexivity|]);
    (split; reflexivity).
Qed.

End LegacyInstructions.

(** * Examples *)

Lemma misaligned_decode_fails_witness :
  ana (legacy_example 0 0x60210400 0) (fresh_state 0x102)
  = (0, fresh_state 0x102).
Proof.
  exact (proj2 (misaligned_decode_fails (legacy_example 0 0x60210400 0)
                  (fresh_state 0x102) eq_refl)).
Defined.

(** and r1,r2,r2 *)
Lemma legacy_and_same_sources_is_mov_witness :
  itype (cmd (snd (ana (legacy_example 1 0x60210400 0) (fresh_state 0x100))))
  = ARC_mov.
Proof.
  exact (proj1 (legacy_and_same_sources_is_mov (legacy_example 1 0x60210400 0)
                  (fresh_state 0x100) eq_refl eq_refl eq_refl eq_refl)).
Defined.

Lemma legacy_and_folds_with_simplify_off :
  let H := legacy_example 0 0x60210400 0 in
  let s := fresh_state 0x100 in
  let code := legacy_word H s in
  Z.land (idpflags H) (ARC_SIMPLIFY H) = 0 /\
  Z.land (Z.shiftr code 27) 31 = 12 /\
  Z.land (Z.shiftr code 15) 63 = Z.land (Z.shiftr code 9) 63 /\
  itype (cmd (snd (ana H s))) = ARC_mov.
Proof. vm_compute. repeat split. Qed.

(** add r1,r2,r2 *)
Lemma legacy_add_same_sources_witness :
  itype (cmd (snd (ana (legacy_example 0 0x40210400 0) (fresh_state 0x100))))
  = ARC_lsl.
Proof.
  refine (proj1 (proj1 (proj2 (proj2 (legacy_add_same_sources
     (legacy_example 0 0x40210400 0) (fresh_state 0x100)
     eq_refl eq_refl eq_refl eq_refl))) _)).
  vm_compute. reflexivity.
Defined.

(** add r1,limm,limm with limm = 0x1000 *)
Lemma legacy_add_long_immediate_is_mov :
  let H := legacy_example 0 0x403F7C00 0x1000 in
  let s := fresh_state 0x100 in
  let code := legacy_word H s in
  Z.land (Z.shiftr code 27) 31 = 8 /\
  Z.land (Z.shiftr code 15) 63 = LIMM /\
  Z.land (Z.shiftr code 9) 63 = LIMM /\
  LIMM <> SHIMM /\ LIMM <> SHIMM_F /\
  itype (cmd (snd (ana H s))) = ARC_mov /\
  itype (cmd (snd (ana H s))) <> ARC_lsl /\
  value (Op2 (cmd (snd (ana H s)))) = 0x2000.
Proof. vm_compute. repeat split; discriminate. Qed.

Lemma legacy_undefined_single_operand_witness :
  fst (ana_old (legacy_example 0 0x18007E03 0) (fresh_state 0x100)) = 4.
Proof.
  refine (proj1 (legacy_undefined_single_operand
     (legacy_example 0 0x18007E03 0) (fresh_state 0x100)
     eq_refl eq_refl eq_refl eq_refl _ _ _)); vm_compute; discriminate.
Defined.

Lemma fresh_numbered (a : Z) : numbered (fresh_state a).
Proof. repeat split. Qed.

(** cmp_s r0,limm: a 16-bit instruction with a long immediate. *)
Lemma compact_decode_length_witness :
  fst (ana_compact (compact_example 0 [0x70D7; 0x1234; 0x5678])
         (fresh_state 0x100)) = 6.
Proof.
  refine (proj1 (compact_decode_length
            (compact_example 0 [0x70D7; 0x1234; 0x5678]) (fresh_state 0x100)
            eq_refl eq_refl (fresh_numbered _) _)).
  vm_compute. discriminate.
Defined.

(** Against the specification's sentence (two bytes from major opcode
    0xC on; below, four bytes plus four exactly when an operand has
    register code 62): cmp_s r0,limm takes six bytes, and add
    limm,r1,r2 takes four. *)
Lemma compact_length_counterexample :
  (let H := compact_example 0 [0x70D7; 0x1234; 0x5678] in
   let s := fresh_state 0x100 in
   Z.land (ea (cmd s)) 1 = 0 /\
   0xC <= compact_major H s /\
   compact_mnem H s = ARC_cmp /\
   fst (ana_compact H s) = 6 /\ fst (ana H s) = 6) /\
  (let H := compact_example 0 [0x2100; 0x00BE; 0x1234; 0x5678] in
   let s := fresh_state 0x100 in
   compact_major H s < 0xC /\
   compact_mnem H s = ARC_add /\
   operand_regs H (compact_code H s) (compact_opkind H s 0) = [LIMM] /\
   fst (ana_compact H s) = 4 /\ fst (ana H s) = 4).
Proof. vm_compute. repeat split; discriminate. Qed.



Lemma opreg_long_immediate_witness :
  let H := compact_example 0 [0x2600; 0x707E; 0x1234; 0x5678] in
  let s := set_itype ARC_add (set_size 4 (fresh_state 0x100)) in
  fst (opreg H s (fresh_op 0) LIMM) = s /\
  value (snd (opreg H s (fresh_op 0) LIMM)) = 0.
Proof.
  exact (proj1 (proj2 (proj2 (opreg_long_immediate
           (compact_example 0 [0x2600; 0x707E; 0x1234; 0x5678])
           (set_itype ARC_add (set_size 4 (fresh_state 0x100)))
           (fresh_op 0)))) eq_refl eq_refl).
Defined.

Lemma branch_target_witness :
  exists x',
    decode_field (compact_example 0 []) (fresh_state 0x100) 0x08040000
      (fresh_op 0) (K S21L) = Some (fresh_state 0x100, x') /\
    type x' = o_near /\ addr x' = 0x104.
Proof.
  exact (branch_target (compact_example 0 []) (fresh_state 0x100) 0x08040000
           (fresh_op 0) S21L eq_refl).
Defined.

(** bl with displacement field 2 (S21L), bl_s with displacement 1 (S13). *)
Lemma branch_and_link_counterexample :
  (let H := compact_example 0 [0x0804; 0x0000] in
   let s := fresh_state 0x100 in
   let s' := snd (ana_compact H s) in
   compact_opkind H s 0 = K S21L /\
   branch_displacement (compact_code H s) S21L = 2 /\
   addr (Op1 (cmd s')) = 0x104 /\
   stated_branch_target s (compact_code H s) S21L = 0x108) /\
  (let H := compact_example 0 [0xF801] in
   let s := fresh_state 0x100 in
   let s' := snd (ana_compact H s) in
   compact_opkind H s 0 = K S13 /\
   branch_displacement (compact_code H s) S13 = 1 /\
   addr (Op1 (cmd s')) = 0x104 /\
   stated_branch_target s (compact_code H s) S13 = 0x100).
Proof. vm_compute. repeat split. Qed.

(** sub1.f 0,r1,5 *)
Lemma simplify_twice_counterexample :
  let H := compact_example 0 [0x2157; 0x817E] in
  let x := snd (ana H (fresh_state 0x100)) in
  itype (cmd x) = ARC_sub1 /\
  itype (cmd (simplify H x)) = ARC_sub /\
  itype (cmd (simplify H (simplify H x))) = ARC_cmp /\
  simplify H (simplify H x) <> simplify H x.
Proof. vm_compute. repeat split; discriminate. Qed.

(** ld.as r1,[r2,3] *)
Lemma simplify_idempotent_witness :
  let H := compact_example 1 [] in
  let s := set_auxpref 0x18
             (set_Op2 (mk_op 1 o_displ dt_dword 2 0 3 0 0 0)
                (set_itype ARC_ld (fresh_state 0x100))) in
  addr (Op2 (cmd (simplify H s))) = 12 /\
  simplify H (simplify H s) = simplify H s.
Proof.
  intros H s. split; [reflexivity|].
  refine (simplify_idempotent_unless_resimplified H s _ _);
    [vm_compute; discriminate | vm_compute; reflexivity].
Defined.

(** ld r1,[pcl,8] at 0x102 *)
Lemma inline_const_frame_witness :
  let H := compact_example 2 [] in
  let s := set_Op2 (mk_op 1 o_displ dt_dword 63 0 8 0 0 0)
             (set_itype ARC_ld (fresh_state 0x102)) in
  inline_const H s =
  set_auxpref 0x200 (set_Op2 (mk_op 1 o_mem dt_dword 63 0 0x108 0 0 0) s).
Proof.
  exact (proj2 (inline_const_frame (compact_example 2 [])
           (set_Op2 (mk_op 1 o_displ dt_dword 63 0 8 0 0 0)
              (set_itype ARC_ld (fresh_state 0x102))))
           eq_refl eq_refl eq_refl eq_refl eq_refl eq_refl).
Defined.

(** ld.ab r1,[pcl,8]: a load with post-increment addressing and long
    access.  Its addressing-mode field is not zero, the bit [aux_a] is
    clear, and the pass rewrites the operand. *)
Lemma inline_const_post_increment_counterexample :
  let H := compact_example 2 [0x1708; 0x7401] in
  let d := snd (ana_compact H (fresh_state 0x100)) in
  itype (cmd d) = ARC_ld /\
  type (Op2 (cmd d)) = o_displ /\ reg (Op2 (cmd d)) = PCL H /\
  has_addressing_mode H d = true /\
  Z.land (auxpref (cmd d)) (aux_a H) = 0 /\
  Z.land (auxpref (cmd d)) (aux_zmask H) = 0 /\
  type (Op2 (cmd (inline_const H d))) = o_mem /\
  addr (Op2 (cmd (inline_const H d))) = 0x108 /\
  inline_const H d <> d.
Proof. vm_compute. repeat split; discriminate. Qed.

(** Bits 15..8 of 0x12345678. *)
Lemma BITS_div_mod_witness :
  BITS 0x12345678 15 8 = 0x56 /\ 0 <= BITS 0x12345678 15 8 < 256.
Proof.
  destruct (BITS_div_mod 0x12345678 15 8) as [E B]; [lia | lia | lia | lia |].
  split; [reflexivity | exact B].
Defined.


(** The operand of j_s [r15]: field b = 7 with [O_IND]. *)
Lemma short_register_operand_witness :
  exists x',
    decode_operand (compact_example 0 []) (fresh_state 0x100) 0x0700 0
      (IND fB16) = set_Operand 0 x' (fresh_state 0x100) /\
    type x' = o_displ /\ dtyp x' = dt_dword /\
    (0 <= reg x' <= 3 \/ 12 <= reg x' <= 15) /\
    (true = true -> addr x' = 0).
Proof.
  exact (short_register_operand (compact_example 0 []) (fresh_state 0x100)
           0x0700 0 (IND fB16) eq_refl).
Defined.

Lemma unsigned_immediate_operand_witness :
  exists x',
    decode_field (compact_example 0 []) (fresh_state 0x100) 0x1F
      (fresh_op 1) (K U7L) = Some (fresh_state 0x100, x') /\
    type x' = o_imm /\ dtyp x' = dt_dword /\
    0 <= value x' < 128 /\ (U7L = U7L -> value x' mod 4 = 0).
Proof.
  exact (unsigned_immediate_operand (compact_example 0 []) (fresh_state 0x100)
           0x1F (fresh_op 1) U7L eq_refl).
Defined.

(** [r13, r1] *)
Lemma short_indirect_is_phrase_witness :
  exists x',
    decode_field (compact_example 0 []) (fresh_state 0x100) 0x0520
      (fresh_op 1) (K fBC16_IND) = Some (fresh_state 0x100, x') /\
    type x' = o_phrase /\ reg x' = 13 /\ secreg x' = 1.
Proof.
  exact (short_indirect_is_phrase (compact_example 0 []) (fresh_state 0x100)
           0x0520 (fresh_op 1) (K fBC16_IND) eq_refl).
Defined.

(** The signed immediate -1: all twelve bits set. *)
Lemma general_operand_s12_witness :
  exists x' v,
    decode_field (compact_example 0 []) (fresh_state 0x100) 0x20800FFF
      (fresh_op 2) (K GENC) = Some (fresh_state 0x100, x') /\
    type x' = o_imm /\ value x' = uint32 v /\
    - 2048 <= v < 2048 /\ v mod 4096 = 4095.
Proof.
  exact (general_operand_s12 (compact_example 0 []) (fresh_state 0x100)
           0x20800FFF (fresh_op 2) (K GENC) eq_refl eq_refl).
Defined.

Lemma general_operand_u6_witness :
  exists x',
    decode_field (compact_example 0 []) (fresh_state 0x100) 0x20400140
      (fresh_op 2) (K GENC) = Some (fresh_state 0x100, x') /\
    type x' = o_imm /\ dtyp x' = dt_dword /\
    value x' = 5 /\ 0 <= value x' < 64.
Proof.
  exact (general_operand_u6 (compact_example 0 []) (fresh_state 0x100)
           0x20400140 (fresh_op 2) (K GENC) eq_refl (or_introl eq_refl)).
Defined.

(** [r13, 12] *)
Lemma short_displacement_operand_witness :
  exists x',
    decode_field (compact_example 0 []) (fresh_state 0x100) 0x0503
      (fresh_op 1) (K fB_U7) = Some (fresh_state 0x100, x') /\
    type x' = o_displ /\ dtyp x' = dt_dword /\
    reg x' = 13 /\ (0 <= reg x' <= 3 \/ 12 <= reg x' <= 15) /\
    addr x' = 12.
Proof.
  exact (short_displacement_operand (compact_example 0 []) (fresh_state 0x100)
           0x0503 (fresh_op 1) fB_U7 eq_refl).
Defined.

(** [r1, -1] *)
Lemma offset_operand_s9_witness :
  exists x',
    decode_field (compact_example 0 []) (fresh_state 0x100) 0x11FF8000
      (fresh_op 1) (K fB_S9) = Some (fresh_state 0x100, x') /\
    type x' = o_displ /\ reg x' = 1 /\ addr x' = 0xFFFFFFFF.
Proof.
  refine (proj1 (proj2 (offset_operand_s9 (compact_example 0 [])
                   (fresh_state 0x100) 0x11FF8000 (fresh_op 1) (K fB_S9)
                   eq_refl)) _).
  vm_compute. discriminate.
Defined.

Lemma decode_operand_frame_witness :
  let H := compact_example 0 [] in
  let s := set_itype ARC_mov (fresh_state 0x100) in
  itype (cmd (decode_operand H s 0x0700 1 (K fB16))) = ARC_mov /\
  Operands (decode_operand H s 0x0700 1 (K fB16)) 0 = fresh_op 0.
Proof.
  intros H s.
  destruct (decode_operand_frame H s 0x0700 1 (K fB16))
    as (_ & _ & E & _ & _ & _ & F); [lia|].
  split; [exact E | apply (F 0%nat); lia].
Defined.


Lemma branch_target_aligned_witness :
  exists x',
    decode_field (compact_example 0 []) (fresh_state 0x102) 0x08040000
      (fresh_op 0) (K S21L) = Some (fresh_state 0x102, x') /\
    type x' = o_near /\ dtyp x' = dt_code /\
    addr x' mod 2 = 0 /\ (true = true -> addr x' mod 4 = 0).
Proof.
  exact (branch_target_aligned (compact_example 0 []) (fresh_state 0x102)
           0x08040000 (fresh_op 0) S21L eq_refl).
Defined.

(** Major opcode 0xB has no instruction. *)
Lemma compact_unassigned_witness :
  let H := compact_example 0 [0x5800; 0] in
  let s := fresh_state 0x100 in
  ana_compact H s = (0, compact_entry H s) /\
  (is_a4 H = false -> ana H s = (compact_length H s, compact_entry H s)).
Proof.
  intros H s.
  refine (compact_unassigned H s _ _ _); vm_compute; reflexivity.
Defined.

(** cmp_s r0,limm has no third operand. *)
Lemma compact_decode_shape_witness :
  let H := compact_example 0 [0x70D7; 0x1234; 0x5678] in
  let s := fresh_state 0x100 in
  itype (cmd (snd (ana_compact H s))) = compact_mnem H s.
Proof.
  intros H s.
  refine (proj1 (compact_decode_shape H s _ _ _));
    vm_compute; (reflexivity || discriminate).
Defined.

(** add2 r1,r2,5 *)
Lemma simplify_shift_scales_witness :
  let H := compact_example 1 [] in
  let s := set_Op3 (mk_op 2 o_imm dt_dword 0 5 0 0 0 0)
             (set_itype ARC_add2 (fresh_state 0x100)) in
  simplify H s =
  set_itype ARC_add (set_Op3 (mk_op 2 o_imm dt_dword 0 20 0 0 0 0) s).
Proof.
  intros H s.
  exact (proj2 (simplify_shift_scales H s eq_refl) eq_refl).
Defined.

(** sub.f 0,r1,r2 *)
Lemma simplify_sub_to_cmp_witness :
  let H := compact_example 1 [] in
  let s := set_auxpref 0x100
             (set_Op3 (mk_op 2 o_reg dt_dword 2 0 0 0 0 0)
                (set_Op2 (mk_op 1 o_reg dt_dword 1 0 0 0 0 0)
                   (set_Op1 (mk_op 0 o_imm dt_dword 0 0 0 0 0 0)
                      (set_itype ARC_sub (fresh_state 0x100))))) in
  itype (cmd (simplify H s)) = ARC_cmp /\
  Op1 (cmd (simplify H s)) = Op2 (cmd s).
Proof.
  intros H s.
  destruct (proj1 (simplify_sub_to_cmp H s eq_refl)) as (E1 & E2 & _);
    [reflexivity | reflexivity | vm_compute; discriminate |].
  split; [exact E1 | exact E2].
Defined.

(** ld.as r1,[r2,3] *)
Lemma simplify_scaled_load_witness :
  let H := compact_example 1 [] in
  let s := set_auxpref 0x18
             (set_Op2 (mk_op 1 o_displ dt_dword 2 0 3 0 0 0)
                (set_itype ARC_ld (fresh_state 0x100))) in
  addr (Op2 (cmd (simplify H s))) = 12 /\
  Z.land (auxpref (cmd (simplify H s))) (aux_amask H) = 0.
Proof.
  intros H s.
  destruct (proj1 (simplify_scaled_load H s eq_refl eq_refl eq_refl eq_refl))
    as (E1 & E2 & _); [right; reflexivity|].
  split; [exact E1 | exact E2].
Defined.

(** add r1,limm,limm *)
Lemma legacy_length_witness :
  fst (ana_old (legacy_example 0 0x403F7C00 0x1000) (fresh_state 0x100)) = 8.
Proof.
  exact (proj1 (legacy_length (legacy_example 0 0x403F7C00 0x1000)
                  (fresh_state 0x100) eq_refl eq_refl)).
Defined.

(** b with word offset 2 *)
Lemma legacy_branch_witness :
  let H := legacy_example 0 0x20000100 0 in
  let s' := snd (ana H (fresh_state 0x100)) in
  itype (cmd s') = ARC_b /\ addr (Op1 (cmd s')) = 0x10C.
Proof.
  intros H s'.
  destruct (legacy_branch H (fresh_state 0x100)) as (E1 & _ & E3 & _);
    [reflexivity | reflexivity | vm_compute; split; discriminate |].
  split; [exact E1 | exact E3].
Defined.

(** sub r1,r2,r3 *)
Lemma legacy_three_operands_witness :
  let H := legacy_example 0 0x50210600 0 in
  let s' := snd (ana_old H (fresh_state 0x100)) in
  itype (cmd s') = ARC_sub /\ reg (Op3 (cmd s')) = 3.
Proof.
  intros H s'.
  destruct (legacy_three_operands H (fresh_state 0x100))
    as (E0 & _ & _ & E3);
    [ reflexivity | vm_compute; discriminate | left; vm_compute; discriminate
    | vm_compute; discriminate | ].
  split; [exact E0 | subst s'; rewrite E3; reflexivity].
Defined.

(** or r1,r2,r2 *)
Lemma legacy_or_adc_same_sources_witness :
  itype (cmd (snd (ana (legacy_example 0 0x68210400 0) (fresh_state 0x100))))
  = ARC_mov.
Proof.
  exact (proj1 (legacy_or_adc_same_sources (legacy_example 0 0x68210400 0)
                  (fresh_state 0x100) eq_refl eq_refl (or_introl eq_refl)
                  eq_refl)).
Defined.

(** j [r5] *)
Lemma legacy_jump_witness :
  let s' := snd (ana (legacy_example 0 0x38028000 0) (fresh_state 0x100)) in
  itype (cmd s') = ARC_j /\ type (Op1 (cmd s')) = o_reg /\ reg (Op1 (cmd s')) = 5.
Proof.
  intros s'.
  destruct (legacy_jump (legacy_example 0 0x38028000 0) (fresh_state 0x100)
              eq_refl eq_refl eq_refl) as (E0 & E1 & _).
  split; [exact E0 | apply E1; reflexivity].
Defined.

(** ld r1,[r2,4] *)
Lemma legacy_load_store_witness :
  let s' := snd (ana_old (legacy_example 0 0x08210004 0) (fresh_state 0x100)) in
  itype (cmd s') = ARC_ld /\ type (Op2 (cmd s')) = o_displ /\
  reg (Op2 (cmd s')) = 2 /\ addr (Op2 (cmd s')) = 4.
Proof.
  intros s'.
  destruct (legacy_load_store (legacy_example 0 0x08210004 0) (fresh_state 0x100)
              eq_refl (or_introl (conj eq_refl eq_refl)) eq_refl)
    as (E0 & _ & E2 & E3 & E4 & _).
  repeat split; assumption.
Defined.
